(** * Assemblyline scaler: a shallow embedding of [scaler_server.py]

    The development follows [assemblyline_core/scaler/scaler_server.py]:
    the [ServiceProfile] class with its pressure controller, and the worker
    loops of [ScalerServer] (one iteration of each loop is one function here).

    Conventions of the embedding.
    - Python [int] is [Z]; Python [float] is idealised as a real number [R]
      (no rounding, no overflow, no signed zero, no NaN); [float('inf')] only
      occurs as the value of [_max_instances] and has its own constructor.
    - A method that mutates [self] takes the object and returns the mutated
      object; a method that can raise returns the exception together with the
      object as it was left at the raise.
    - [time.time()] is an explicit argument (or an explicit clock).
    - A Python [dict] is an association list in insertion order with the
      dict operations written out. *)

From Stdlib Require Import ZArith List String Bool Reals Lra Lia Permutation.
Import ListNotations.

Local Open Scope Z_scope.

Set Primitive Projections.

(** ** Python values shared by the whole file *)

Inductive exn : Type :=
| KeyError
| ZeroDivisionError
| ValueError
| TypeError
| IndexError
| AttributeError.

Inductive result (A : Type) : Type :=
| Ok (a : A)
| Raise (e : exn).
Arguments Ok {A} a.
Arguments Raise {A} e.

(** [a / b] on two Python ints: true division, [ZeroDivisionError] on [b = 0]. *)
Definition int_truediv (a b : Z) : result R :=
  if b =? 0 then Raise ZeroDivisionError else Ok (IZR a / IZR b)%R.

(** [a / b] on floats. *)
Definition float_truediv (a b : R) : result R :=
  if Req_EM_T b 0 then Raise ZeroDivisionError else Ok (a / b)%R.

(** [math.sqrt]: [ValueError] (math domain error) below zero. *)
Definition math_sqrt (x : R) : result R :=
  if Rlt_dec x 0 then Raise ValueError else Ok (sqrt x).

(** [math.copysign x y]: the magnitude of [x] with the sign of [y]. *)
Definition math_copysign (x y : R) : R :=
  if Rlt_dec y 0 then (- Rabs x)%R else Rabs x.

(** [int(bool(n))] for an int [n]. *)
Definition int_bool (n : Z) : Z := if n =? 0 then 0 else 1.

(** The value of [_max_instances]: an int, or [float('inf')]. *)
Inductive limit : Type :=
| Finite (n : Z)
| Infinite.

(** [min(l, n)] for a limit [l] and an int [n]. *)
Definition limit_min (l : limit) (n : Z) : Z :=
  match l with
  | Finite m => Z.min m n
  | Infinite => n
  end.

(** ** Container configuration and queue handle (ODM models, opaque to the scaler) *)

Record DockerConfig : Type := {
  image : string;
  cpu_cores : R;
  ram_mb : Z;
  environment : list (string * string);
  allow_internet_access : bool
}.

(** The handle of a service queue; its length lives in the key/value store. *)
Record PriorityQueue : Type := { queue_name : string }.

(** ** class ServiceProfile *)

Record ServiceProfile : Type := {
  name : string;
  queue : option PriorityQueue;
  container_config : DockerConfig;
  target_duty_cycle : R;
  shutdown_seconds : Z;
  config_hash : Z;
  min_instances : Z;
  _min_instances : Z;
  _max_instances : limit;
  desired_instances : Z;
  running_instances : Z;
  pressure : R;
  growth_threshold : R;
  shrink_threshold : R;
  leak_rate : R;
  backlog : Z;
  queue_length : Z;
  duty_cycle : R;
  last_update : R
}.

(** Attribute assignments [self.f = v], one per attribute the code assigns
    after construction. *)

Definition set_container_config (v : DockerConfig) (p : ServiceProfile) :=
  Build_ServiceProfile (name p) (queue p) v (target_duty_cycle p)
    (shutdown_seconds p) (config_hash p) (min_instances p) (_min_instances p)
    (_max_instances p) (desired_instances p) (running_instances p) (pressure p)
    (growth_threshold p) (shrink_threshold p) (leak_rate p) (backlog p)
    (queue_length p) (duty_cycle p) (last_update p).

Definition set_config_hash (v : Z) (p : ServiceProfile) :=
  Build_ServiceProfile (name p) (queue p) (container_config p) (target_duty_cycle p)
    (shutdown_seconds p) v (min_instances p) (_min_instances p)
    (_max_instances p) (desired_instances p) (running_instances p) (pressure p)
    (growth_threshold p) (shrink_threshold p) (leak_rate p) (backlog p)
    (queue_length p) (duty_cycle p) (last_update p).

Definition set_min_instances (v : Z) (p : ServiceProfile) :=
  Build_ServiceProfile (name p) (queue p) (container_config p) (target_duty_cycle p)
    (shutdown_seconds p) (config_hash p) v (_min_instances p)
    (_max_instances p) (desired_instances p) (running_instances p) (pressure p)
    (growth_threshold p) (shrink_threshold p) (leak_rate p) (backlog p)
    (queue_length p) (duty_cycle p) (last_update p).

Definition set__max_instances (v : limit) (p : ServiceProfile) :=
  Build_ServiceProfile (name p) (queue p) (container_config p) (target_duty_cycle p)
    (shutdown_seconds p) (config_hash p) (min_instances p) (_min_instances p)
    v (desired_instances p) (running_instances p) (pressure p)
    (growth_threshold p) (shrink_threshold p) (leak_rate p) (backlog p)
    (queue_length p) (duty_cycle p) (last_update p).

Definition set_desired_instances (v : Z) (p : ServiceProfile) :=
  Build_ServiceProfile (name p) (queue p) (container_config p) (target_duty_cycle p)
    (shutdown_seconds p) (config_hash p) (min_instances p) (_min_instances p)
    (_max_instances p) v (running_instances p) (pressure p)
    (growth_threshold p) (shrink_threshold p) (leak_rate p) (backlog p)
    (queue_length p) (duty_cycle p) (last_update p).

Definition set_running_instances (v : Z) (p : ServiceProfile) :=
  Build_ServiceProfile (name p) (queue p) (container_config p) (target_duty_cycle p)
    (shutdown_seconds p) (config_hash p) (min_instances p) (_min_instances p)
    (_max_instances p) (desired_instances p) v (pressure p)
    (growth_threshold p) (shrink_threshold p) (leak_rate p) (backlog p)
    (queue_length p) (duty_cycle p) (last_update p).

Definition set_pressure (v : R) (p : ServiceProfile) :=
  Build_ServiceProfile (name p) (queue p) (container_config p) (target_duty_cycle p)
    (shutdown_seconds p) (config_hash p) (min_instances p) (_min_instances p)
    (_max_instances p) (desired_instances p) (running_instances p) v
    (growth_threshold p) (shrink_threshold p) (leak_rate p) (backlog p)
    (queue_length p) (duty_cycle p) (last_update p).

Definition set_queue_length (v : Z) (p : ServiceProfile) :=
  Build_ServiceProfile (name p) (queue p) (container_config p) (target_duty_cycle p)
    (shutdown_seconds p) (config_hash p) (min_instances p) (_min_instances p)
    (_max_instances p) (desired_instances p) (running_instances p) (pressure p)
    (growth_threshold p) (shrink_threshold p) (leak_rate p) (backlog p)
    v (duty_cycle p) (last_update p).

Definition set_duty_cycle (v : R) (p : ServiceProfile) :=
  Build_ServiceProfile (name p) (queue p) (container_config p) (target_duty_cycle p)
    (shutdown_seconds p) (config_hash p) (min_instances p) (_min_instances p)
    (_max_instances p) (desired_instances p) (running_instances p) (pressure p)
    (growth_threshold p) (shrink_threshold p) (leak_rate p) (backlog p)
    (queue_length p) v (last_update p).

Definition set_last_update (v : R) (p : ServiceProfile) :=
  Build_ServiceProfile (name p) (queue p) (container_config p) (target_duty_cycle p)
    (shutdown_seconds p) (config_hash p) (min_instances p) (_min_instances p)
    (_max_instances p) (desired_instances p) (running_instances p) (pressure p)
    (growth_threshold p) (shrink_threshold p) (leak_rate p) (backlog p)
    (queue_length p) (duty_cycle p) v.

(** [ServiceProfile.__init__].  [max_instances] and [shrink] default to
    [None]; [max_instances if max_instances else float('inf')] sends both
    [None] and [0] to infinity. *)
Definition ServiceProfile_init (name : string) (container_config : DockerConfig)
    (config_hash : Z) (min_instances : Z) (max_instances : option Z)
    (growth : R) (shrink : option R) (backlog : Z)
    (queue : option PriorityQueue) (shutdown_seconds : Z) : ServiceProfile :=
  let growth_threshold := Rabs growth in
  Build_ServiceProfile
    name queue container_config
    (9 / 10)%R                                   (* target_duty_cycle = 0.9 *)
    shutdown_seconds config_hash
    (Z.max 0 min_instances) (Z.max 0 min_instances)
    (match max_instances with
     | None => Infinite
     | Some m => if m =? 0 then Infinite else Finite (Z.max 0 m)
     end)
    0 0                                          (* desired, running *)
    0%R                                          (* pressure *)
    growth_threshold
    (match shrink with
     | None => (- growth_threshold / 2)%R
     | Some s => (- Rabs s)%R
     end)
    (1 / 10)%R                                   (* leak_rate = 0.1 *)
    backlog
    0 0%R 0%R.

(** The [max_instances] property: the configured cap, throttled to two more
    than what is running. *)
Definition max_instances (self : ServiceProfile) : Z :=
  limit_min (_max_instances self) (running_instances self + 2).

(** The [instance_limit] property. *)
Definition instance_limit (self : ServiceProfile) : Z :=
  match _max_instances self with
  | Infinite => 0
  | Finite m => m
  end.

Definition cpu (self : ServiceProfile) : R := cpu_cores (container_config self).
Definition ram (self : ServiceProfile) : Z := ram_mb (container_config self).

(** What a call of a mutating method leaves behind. *)
Inductive outcome : Type :=
| Returned (self : ServiceProfile)
| Raised (e : exn) (self : ServiceProfile).

(** [ServiceProfile.update(delta, instances, backlog, duty_cycle)], block by
    block; [now] is the value of [time.time()].

    The samples, [min_instances] and the clamp of [desired_instances]: *)
Definition update_observe (self : ServiceProfile) (now : R)
    (instances backlog' : Z) (duty_cycle' : R) : ServiceProfile :=
  let self := set_last_update now self in
  let self := set_running_instances instances self in
  let self := set_queue_length backlog' self in
  let self := set_duty_cycle duty_cycle' self in
  let self := set_min_instances
                (Z.max (_min_instances self) (int_bool backlog')) self in
  set_desired_instances
    (Z.max (min_instances self)
       (Z.min (max_instances self) (desired_instances self))) self.

(** "Apply the friction, tendency to do nothing, move the change pressure
    gradually to the center." *)
Definition update_leak (self : ServiceProfile) (delta : R) : ServiceProfile :=
  let leak := Rmin (leak_rate self * delta)%R (Rabs (pressure self)) in
  set_pressure (math_copysign (Rabs (pressure self) - leak)%R (pressure self)) self.

(** "When we are already at the minimum number of instances, don't let
    negative values build up". *)
Definition update_floor (self : ServiceProfile) : ServiceProfile :=
  if desired_instances self =? min_instances self
  then set_pressure (Rmax 0 (pressure self)) self
  else self.

(** [if self.pressure >= self.growth_threshold: ...] *)
Definition update_grow (self : ServiceProfile) : ServiceProfile :=
  if Rge_dec (pressure self) (growth_threshold self)
  then
    let self := set_desired_instances
                  (Z.min (max_instances self) (desired_instances self + 1)) self in
    set_pressure 0%R self
  else self.

(** [if self.pressure <= self.shrink_threshold: ...] *)
Definition update_shrink (self : ServiceProfile) : ServiceProfile :=
  if Rle_dec (pressure self) (shrink_threshold self)
  then
    let self := set_desired_instances
                  (Z.max (min_instances self) (desired_instances self - 1)) self in
    set_pressure 0%R self
  else self.

Definition update (self : ServiceProfile) (now delta : R)
    (instances backlog' : Z) (duty_cycle' : R) : outcome :=
  let self := update_observe self now instances backlog' duty_cycle' in
  (* self.pressure += delta * math.sqrt(backlog/self.backlog) *)
  match int_truediv backlog' (backlog self) with
  | Raise e => Raised e self
  | Ok ratio =>
  match math_sqrt ratio with
  | Raise e => Raised e self
  | Ok root =>
  let self := set_pressure (pressure self + delta * root)%R self in
  (* self.pressure -= delta * (self.target_duty_cycle - duty_cycle)/self.target_duty_cycle *)
  match float_truediv (delta * (target_duty_cycle self - duty_cycle'))%R
          (target_duty_cycle self) with
  | Raise e => Raised e self
  | Ok idle =>
  let self := set_pressure (pressure self - idle)%R self in
  Returned (update_shrink (update_grow (update_floor (update_leak self delta))))
  end end end.

(** A finite run of [update] calls on one profile, stopping at the first
    call that raises. *)
Record update_call : Type := {
  call_now : R;
  call_delta : R;
  call_instances : Z;
  call_backlog : Z;
  call_duty_cycle : R
}.

Definition apply_update (self : ServiceProfile) (c : update_call) : outcome :=
  update self (call_now c) (call_delta c) (call_instances c)
    (call_backlog c) (call_duty_cycle c).

Fixpoint updates (self : ServiceProfile) (cs : list update_call) : outcome :=
  match cs with
  | [] => Returned self
  | c :: cs' =>
      match apply_update self c with
      | Returned self' => updates self' cs'
      | Raised e self' => Raised e self'
      end
  end.

(** The profiles the program can hold: built by [__init__], then mutated by
    [update] (also when it raises half way) and by the attribute assignments
    of [ScalerServer]. *)
Inductive constructed : ServiceProfile -> Prop :=
| constructed_init : forall name container_config config_hash min_instances
      max_instances growth shrink backlog queue shutdown_seconds,
    constructed (ServiceProfile_init name container_config config_hash
                   min_instances max_instances growth shrink backlog queue
                   shutdown_seconds)
| constructed_returned : forall self now delta instances backlog' duty_cycle' self',
    constructed self ->
    update self now delta instances backlog' duty_cycle' = Returned self' ->
    constructed self'
| constructed_raised : forall self now delta instances backlog' duty_cycle' e self',
    constructed self ->
    update self now delta instances backlog' duty_cycle' = Raised e self' ->
    constructed self'
| constructed_desired : forall v self,
    constructed self -> constructed (set_desired_instances v self)
| constructed_running : forall v self,
    constructed self -> constructed (set_running_instances v self)
| constructed_last_update : forall v self,
    constructed self -> constructed (set_last_update v self)
| constructed_container_config : forall v self,
    constructed self -> constructed (set_container_config v self)
| constructed_config_hash : forall v self,
    constructed self -> constructed (set_config_hash v self)
| constructed_max : forall v self,
    constructed self -> constructed (set__max_instances v self).




(** ** Python dicts, in insertion order *)

Definition dict (V : Type) : Type := list (string * V).

Fixpoint dict_get {V : Type} (k : string) (d : dict V) : option V :=
  match d with
  | [] => None
  | (k', v) :: d' => if String.eqb k k' then Some v else dict_get k d'
  end.

(** [d[k] = v]: an existing key keeps its place, a new key goes last. *)
Fixpoint dict_set {V : Type} (k : string) (v : V) (d : dict V) : dict V :=
  match d with
  | [] => [(k, v)]
  | (k', v') :: d' =>
      if String.eqb k k' then (k', v) :: d' else (k', v') :: dict_set k v d'
  end.

(** [d.pop(k, None)] and [del d[k]] on a present key. *)
Fixpoint dict_pop {V : Type} (k : string) (d : dict V) : dict V :=
  match d with
  | [] => []
  | (k', v') :: d' =>
      if String.eqb k k' then d' else (k', v') :: dict_pop k d'
  end.

Definition dict_keys {V : Type} (d : dict V) : list string := map fst d.
Definition dict_values {V : Type} (d : dict V) : list V := map snd d.

Definition dict_mem {V : Type} (k : string) (d : dict V) : bool :=
  match dict_get k d with
  | Some _ => true
  | None => false
  end.

(** ** Vocabulary of the properties *)

(** The instance bounds of the profile invariant. *)
Definition bounds_ok (self : ServiceProfile) : Prop :=
  min_instances self <= desired_instances self <= max_instances self.

(** "At the minimum number of instances the pressure is not negative." *)
Definition floor_ok (self : ServiceProfile) : Prop :=
  desired_instances self = min_instances self -> (0 <= pressure self)%R.

(** The instance bounds, provided the bounds themselves are ordered. *)
Definition bounds_if_ordered (self : ServiceProfile) : Prop :=
  min_instances self <= max_instances self -> bounds_ok self.

(** The attributes [update] never assigns. *)
Definition same_settings (self self' : ServiceProfile) : Prop :=
  name self' = name self /\
  queue self' = queue self /\
  container_config self' = container_config self /\
  target_duty_cycle self' = target_duty_cycle self /\
  _min_instances self' = _min_instances self /\
  _max_instances self' = _max_instances self /\
  growth_threshold self' = growth_threshold self /\
  shrink_threshold self' = shrink_threshold self /\
  leak_rate self' = leak_rate self /\
  backlog self' = backlog self.

(** ** Concrete inputs used by the examples *)

Definition example_config : DockerConfig :=
  {| image := "svc:latest"; cpu_cores := 1; ram_mb := 1024;
     environment := []; allow_internet_access := false |}.

(** [ServiceProfile("svc", cfg, min_instances=n)], all else default. *)
Definition example_profile (n : Z) : ServiceProfile :=
  ServiceProfile_init "svc" example_config 0 n None 600 None 500 None 30.

(** The default profile after [update(delta=10, instances=0, backlog=500,
    duty_cycle=0.9)]: it carries pressure 9. *)
Definition example_loaded : ServiceProfile :=
  set_pressure 9%R (update_observe (example_profile 0) 0%R 0 500 (9 / 10)%R).

Definition example_call (delta : R) (instances backlog' : Z) (duty_cycle' : R)
  : update_call :=
  {| call_now := 0; call_delta := delta; call_instances := instances;
     call_backlog := backlog'; call_duty_cycle := duty_cycle' |}.

(** ** Python sets of strings, as lists without repetition *)

Definition str_mem (s : string) (l : list string) : bool :=
  existsb (String.eqb s) l.

(** [s.add(x)] *)
Definition set_add (x : string) (s : list string) : list string :=
  if str_mem x s then s else s ++ [x].

(** [s.discard(x)] *)
Definition set_discard (x : string) (s : list string) : list string :=
  filter (fun y => negb (String.eqb x y)) s.

(** ** class Pool

    A job handed to the executor is seen through its future: [result()]
    returns once the job is over, and re-raises what the job raised.  The
    values the jobs return are never used. *)

Definition future : Type := result unit.

(** [Pool.call]: the future of the submitted job goes last. *)
Definition Pool_call (futures : list future) (job : future) : list future :=
  futures ++ [job].

(** [Pool.finish]: [while self.futures: self.futures.pop(0).result()].  The
    list left in [self.futures] is returned with the outcome. *)
Fixpoint Pool_finish (futures : list future) : result unit * list future :=
  match futures with
  | [] => (Ok tt, [])
  | Ok _ :: rest => Pool_finish rest
  | Raise e :: rest => (Raise e, rest)
  end.

(** ** ScalerServer.handle_service_error *)

Definition MAXIMUM_SERVICE_ERRORS : nat := 5.
Definition ERROR_EXPIRY_TIME : R := (60 * 60)%R.

(** What [handle_service_error] works on: [self.error_count], and the calls
    [self.datastore.service_delta.update(name, [(UPDATE_SET, 'enabled', False)])]
    made so far, oldest first, by the name they disable. *)
Record ErrorState : Type := {
  error_count : dict (list R);
  disabled : list string
}.

(** The comprehension [[_t for _t in ... if _t >= time.time() - ERROR_EXPIRY_TIME]]:
    [time.time()] is read once for every element; [clock i] is the [i]-th
    reading of the call. *)
Fixpoint prune (ts : list R) (clock : nat -> R) (i : nat) : list R :=
  match ts with
  | [] => []
  | t :: ts' =>
      if Rge_dec t (clock i - ERROR_EXPIRY_TIME)%R
      then t :: prune ts' clock (S i)
      else prune ts' clock (S i)
  end.

(** [handle_service_error(service_name)]; [clock 0] is the reading that is
    appended, [clock 1], [clock 2], ... the readings of the comprehension.
    [self.error_count[service_name]] is a plain subscript on a plain dict. *)
Definition handle_service_error (self : ErrorState) (service_name : string)
    (clock : nat -> R) : result unit * ErrorState :=
  match dict_get service_name (error_count self) with
  | None => (Raise KeyError, self)
  | Some ts =>
      let ts := ts ++ [clock 0%nat] in
      let kept := prune ts clock 1 in
      if (MAXIMUM_SERVICE_ERRORS <=? List.length kept)%nat
      then (Ok tt,
            {| error_count := dict_pop service_name
                                (dict_set service_name kept (error_count self));
               disabled := disabled self ++ [service_name] |})
      else (Ok tt,
            {| error_count := dict_set service_name kept (error_count self);
               disabled := disabled self |})
  end.

(** A run of [handle_service_error] calls; a call that raises is caught by
    the caller ([log_crashes]) and the run goes on.  The outcomes of the
    calls are returned oldest first. *)
Fixpoint handle_service_errors (self : ErrorState)
    (calls : list (string * (nat -> R))) : list (result unit) * ErrorState :=
  match calls with
  | [] => ([], self)
  | (service_name, clock) :: calls' =>
      let '(r, self1) := handle_service_error self service_name clock in
      let '(rs, self2) := handle_service_errors self1 calls' in
      (r :: rs, self2)
  end.

(** [ScalerServer.__init__]: [self.error_count = {}]. *)
Definition ErrorState_init : ErrorState :=
  {| error_count := []; disabled := [] |}.

(** Inputs of the examples: a server that has only the service ["svc"] in
    [error_count], with the window [ts]; a clock that always reads [t]. *)
Definition example_errors (ts : list R) : ErrorState :=
  {| error_count := [("svc"%string, ts)]; disabled := [] |}.

Definition example_stamps : list R := [0; 1; 2; 3]%R.

Definition example_clock (t : R) : nat -> R := fun _ => t.

(** ** ScalerServer.flush_service_status *)

(** The status table (host name to status record) and the local set
    [bad_containers]. *)
Record FlushState (V : Type) : Type := {
  status_table : dict V;
  bad_containers : list string
}.
Arguments status_table {V} _.
Arguments bad_containers {V} _.
Arguments Build_FlushState {V} _ _.

(** The body of [for hostname in self.status_table.keys()]; [names] is
    [set(self.controller.get_running_container_names())]. *)
Definition flush_visit {V : Type} (names : list string) (st : FlushState V)
    (hostname : string) : FlushState V :=
  if str_mem hostname names then st
  else if str_mem hostname (bad_containers st)
  then {| status_table := dict_pop hostname (status_table st);
          bad_containers := set_discard hostname (bad_containers st) |}
  else {| status_table := status_table st;
          bad_containers := set_add hostname (bad_containers st) |}.

(** One pass of the [while] loop. *)
Definition flush_service_status {V : Type} (names : list string)
    (st : FlushState V) : FlushState V :=
  fold_left (flush_visit names) (dict_keys (status_table st)) st.

(** ** ScalerServer.process_timeouts *)

(** A Python value in the call [pool.submit(...)]. *)
Inductive pyval : Type :=
| PyStr (s : string)
| PyTuple (items : list string)          (* a tuple of strings *)
| PyMethod (object method : string).     (* a bound method *)

(** A call: positional arguments, then keyword arguments. *)
Record pycall : Type := {
  positional : list pyval;
  keywords : list (string * pyval)
}.

(** The local [futures] (futures are told apart by identity, here a number),
    the calls of [pool.submit] made so far, and the futures whose exception
    was logged, both oldest first. *)
Record TimeoutState : Type := {
  futures : list nat;
  submitted : list pycall;
  logged : list nat
}.

Definition TimeoutState_init : TimeoutState :=
  {| futures := []; submitted := []; logged := [] |}.

(** One iteration of [while self.running]: [done] and [exception] are what
    [_f.done()] and [_f.exception()] answer during it, [message] what the
    timeout queue pops ([None] after the one second timeout). *)
Definition process_timeouts (done : nat -> bool) (exception : nat -> option exn)
    (message : option (string * string)) (st : TimeoutState) : TimeoutState :=
  let finished := filter done (futures st) in
  let futures' := filter (fun _f => existsb (Nat.eqb _f) finished) (futures st) in
  let logged' :=
    logged st ++
    filter (fun _f => match exception _f with Some _ => true | None => false end)
      finished in
  match message with
  | None =>
      {| futures := futures'; submitted := submitted st; logged := logged' |}
  | Some (service, container) =>
      {| futures := futures';
         submitted := submitted st ++
           [{| positional := [];
               keywords := [("fn"%string,
                             PyMethod "self.controller" "stop_container");
                            ("args"%string, PyTuple [service; container])] |}];
         logged := logged' |}
  end.

(** What one iteration is given. *)
Record timeout_tick : Type := {
  tick_done : nat -> bool;
  tick_exception : nat -> option exn;
  tick_message : option (string * string)
}.

Definition process_timeouts_run (ticks : list timeout_tick) (st : TimeoutState)
  : TimeoutState :=
  fold_left
    (fun st t => process_timeouts (tick_done t) (tick_exception t) (tick_message t) st)
    ticks st.

(** ** The controller interface

    [ScalerServer] reaches the cluster through [self.controller], a
    [DockerController] or a [KubernetesController].  [C] is the state of the
    cluster as the controller holds it; the fields are the methods that the
    functions below call.  The calls are taken to return. *)

Class Controller (C : Type) : Type := {
  get_target : C -> string -> Z;
  set_target : C -> string -> Z -> C;
  free_cpu : C -> R;
  free_memory : C -> R;
  add_profile : C -> ServiceProfile -> C;
  stop_containers : C -> list (string * string) -> C
}.

(** What a well-behaved controller answers after [set_target]. *)
Definition target_laws {C : Type} `{Controller C} : Prop :=
  (forall c n v, get_target (set_target c n v) n = v) /\
  (forall c n m v, m <> n -> get_target (set_target c n v) m = get_target c m).

(** ** Raising code in sequence *)

Definition bind {A B : Type} (r : result A) (f : A -> result B) : result B :=
  match r with
  | Ok a => f a
  | Raise e => Raise e
  end.

(** [d[k]] *)
Definition subscript {V : Type} (d : dict V) (k : string) : result V :=
  match dict_get k d with
  | Some v => Ok v
  | None => Raise KeyError
  end.

(** [for a in l: s = f(s, a)], stopping at the first raise. *)
Fixpoint for_each {A S : Type} (f : S -> A -> result S) (l : list A) (s : S)
  : result S :=
  match l with
  | [] => Ok s
  | a :: l' => bind (f s a) (for_each f l')
  end.

(** ** ScalerServer.update_scaling: one pass of the loop *)

(** The controller, the local dict [targets], and the calls
    [pool.call(self.controller.set_target, name, value)] made so far, oldest
    first.  A call handed to the pool has taken effect on the controller by
    the time the controller is read again; the calls are applied in the
    order they were handed over. *)
Record Scaling (C : Type) : Type := {
  controller : C;
  targets : dict Z;
  calls : list (string * Z)
}.
Arguments controller {C} _.
Arguments targets {C} _.
Arguments calls {C} _.
Arguments Build_Scaling {C} _ _ _.

(** [pool.call(self.controller.set_target, name, value); targets[name] = value] *)
Definition retarget {C : Type} `{Controller C} (st : Scaling C) (name : string)
    (value : Z) : Scaling C :=
  {| controller := set_target (controller st) name value;
     targets := dict_set name value (targets st);
     calls := calls st ++ [(name, value)] |}.

(** [targets = {_p.name: self.controller.get_target(_p.name) for _p in self.profiles.values()}] *)
Definition read_targets {C : Type} `{Controller C} (c : C)
    (profiles : dict ServiceProfile) : dict Z :=
  fold_left (fun t _p => dict_set (name _p) (get_target c (name _p)) t)
    (dict_values profiles) [].

(** "1. Any processes that want to release resources can always be approved
    first": the body of the loop over [self.profiles.items()]. *)
Definition scaling_release {C : Type} `{Controller C} (st : Scaling C)
    (item : string * ServiceProfile) : result (Scaling C) :=
  let '(name, profile) := item in
  bind (subscript (targets st) name) (fun t =>
  if t >? desired_instances profile
  then Ok (retarget st name (desired_instances profile))
  else Ok st).

(** "2. Any processes that aren't reaching their min_instances target must
    be given more resources before anyone else is considered." *)
Definition scaling_floor {C : Type} `{Controller C} (st : Scaling C)
    (item : string * ServiceProfile) : result (Scaling C) :=
  let '(name, profile) := item in
  bind (subscript (targets st) name) (fun t =>
  if t <? min_instances profile
  then Ok (retarget st name (min_instances profile))
  else Ok st).

(** [[_p for _p in prof if f(_p)]] for a test that can raise. *)
Fixpoint filter_raising {A : Type} (f : A -> result bool) (l : list A)
  : result (list A) :=
  match l with
  | [] => Ok []
  | a :: l' =>
      bind (f a) (fun keep =>
      bind (filter_raising f l') (fun rest =>
      Ok (if keep then a :: rest else rest)))
  end.

(** [_p.desired_instances > targets[_p.name]] *)
Definition wants (targets : dict Z) (_p : ServiceProfile) : result bool :=
  bind (subscript targets (name _p)) (fun t => Ok (desired_instances _p >? t)).

(** [_p.cpu <= free_cpu and _p.ram <= free_memory] *)
Definition fits (free_cpu free_memory : R) (_p : ServiceProfile) : bool :=
  if Rle_dec (cpu _p) free_cpu
  then if Rle_dec (IZR (ram _p)) free_memory then true else false
  else false.

(** The local function [trim]; the list [drop] is only logged. *)
Definition trim (targets : dict Z) (free_cpu free_memory : R)
    (prof : list ServiceProfile) : result (list ServiceProfile) :=
  bind (filter_raising (wants targets) prof) (fun prof =>
  Ok (filter (fits free_cpu free_memory) prof)).

(** [list.sort(key=...)]: stable, ascending. *)
Fixpoint insert_by (key : ServiceProfile -> Z) (p : ServiceProfile)
    (l : list ServiceProfile) : list ServiceProfile :=
  match l with
  | [] => [p]
  | q :: l' => if key p <=? key q then p :: q :: l' else q :: insert_by key p l'
  end.

Definition sort_by (key : ServiceProfile -> Z) (l : list ServiceProfile)
  : list ServiceProfile :=
  fold_right (insert_by key) [] l.

(** A round of the loop of step 3: the profile that got one more instance,
    and the free cpu and memory the round started with. *)
Record replica : Type := {
  replica_of : ServiceProfile;
  free_cpu_before : R;
  free_memory_before : R
}.

(** The local variables of step 3: [free_cpu], [free_memory] and [targets];
    and, for the properties, the rounds gone through so far, oldest first
    (the source keeps no such list). *)
Record Grant : Type := {
  free_cpu_left : R;
  free_memory_left : R;
  granted : dict Z;
  replicas : list replica
}.

(** [while profiles: ...].  [key] is what
    [self.controller.get_target(_p.name)] answers during the loop; [fuel]
    bounds the number of rounds, [None] is "not finished within [fuel]
    rounds". *)
Fixpoint scaling_grant (fuel : nat) (key : string -> Z) (g : Grant)
    (profiles : list ServiceProfile) : option (result Grant) :=
  match profiles with
  | [] => Some (Ok g)
  | _ :: _ =>
      match fuel with
      | O => None
      | S fuel' =>
          let profiles := sort_by (fun _p => key (name _p)) profiles in
          match profiles with
          | [] => Some (Raise IndexError)                   (* profiles[0] *)
          | first :: _ =>
              let free_memory := (free_memory_left g
                                  - IZR (ram_mb (container_config first)))%R in
              let free_cpu := (free_cpu_left g
                               - cpu_cores (container_config first))%R in
              match subscript (granted g) (name first) with
              | Raise e => Some (Raise e)
              | Ok t =>
                  let targets := dict_set (name first) (t + 1) (granted g) in
                  match trim targets free_cpu free_memory profiles with
                  | Raise e => Some (Raise e)
                  | Ok profiles' =>
                      scaling_grant fuel' key
                        {| free_cpu_left := free_cpu;
                           free_memory_left := free_memory;
                           granted := targets;
                           replicas :=
                             replicas g ++
                             [{| replica_of := first;
                                 free_cpu_before := free_cpu_left g;
                                 free_memory_before := free_memory_left g |}] |}
                        profiles'
                  end
              end
          end
      end
  end.

(** Step 3 as a whole: the resources are read, the candidates trimmed, and
    the loop run. *)
Definition scaling_grants {C : Type} `{Controller C} (fuel : nat) (c : C)
    (targets : dict Z) (profiles : dict ServiceProfile) : option (result Grant) :=
  let free_cpu := free_cpu c in
  let free_memory := free_memory c in
  match trim targets free_cpu free_memory (dict_values profiles) with
  | Raise e => Some (Raise e)
  | Ok candidates =>
      scaling_grant fuel (get_target c)
        {| free_cpu_left := free_cpu; free_memory_left := free_memory;
           granted := targets; replicas := [] |}
        candidates
  end.

(** "Apply those adjustments we have made back to the controller": the body
    of the loop over [targets.items()]. *)
Definition scaling_apply {C : Type} `{Controller C} (st : C * list (string * Z))
    (item : string * Z) : C * list (string * Z) :=
  let '(name, value) := item in
  let old := get_target (fst st) name in
  if value =? old then st
  else (set_target (fst st) name value, snd st ++ [(name, value)]).

(** One pass of [while self.sleep(SCALE_INTERVAL)]. *)
Definition update_scaling {C : Type} `{Controller C} (fuel : nat) (c : C)
    (profiles : dict ServiceProfile) : option (result (Scaling C)) :=
  let st := {| controller := c; targets := read_targets c profiles; calls := [] |} in
  match bind (for_each scaling_release profiles st)
             (for_each scaling_floor profiles) with
  | Raise e => Some (Raise e)
  | Ok st =>
      match scaling_grants fuel (controller st) (targets st) profiles with
      | None => None
      | Some (Raise e) => Some (Raise e)
      | Some (Ok g) =>
          let '(c', calls') :=
            fold_left scaling_apply (granted g) (controller st, calls st) in
          Some (Ok {| controller := c'; targets := granted g; calls := calls' |})
      end
  end.

(** The profile table as [add_service] builds it: every profile sits under
    its own name. *)
Definition profiles_wf (profiles : dict ServiceProfile) : Prop :=
  NoDup (dict_keys profiles) /\
  Forall (fun item => name (snd item) = fst item) profiles.

(** [sum(f(_p) for _p in l)] *)
Fixpoint Zsum {A : Type} (f : A -> Z) (l : list A) : Z :=
  match l with
  | [] => 0
  | a :: l' => f a + Zsum f l'
  end.

Fixpoint Rsum_of {A : Type} (f : A -> R) (l : list A) : R :=
  match l with
  | [] => 0%R
  | a :: l' => (f a + Rsum_of f l')%R
  end.

(** The free values of the rounds follow one from the other the way the
    loop computes them: a round starts with what the round before it
    started with, less the cpu and the memory of the profile it served; the
    first starts with [free_cpu] and [free_memory], and what the last leaves
    is [cpu_left] and [memory_left]. *)
Fixpoint chained (free_cpu free_memory : R) (rounds : list replica)
    (cpu_left memory_left : R) : Prop :=
  match rounds with
  | [] => cpu_left = free_cpu /\ memory_left = free_memory
  | r :: rounds' =>
      free_cpu_before r = free_cpu /\ free_memory_before r = free_memory /\
      chained (free_cpu - cpu_cores (container_config (replica_of r)))%R
        (free_memory - IZR (ram_mb (container_config (replica_of r))))%R
        rounds' cpu_left memory_left
  end.

(** How many of the rounds served the name [n]. *)
Definition served (n : string) (rounds : list replica) : Z :=
  Z.of_nat (List.length
              (filter (fun r => String.eqb (name (replica_of r)) n) rounds)).

(** [targets.get(_p.name, 0)] *)
Definition target_of (targets : dict Z) (_p : ServiceProfile) : Z :=
  match dict_get (name _p) targets with
  | Some t => t
  | None => 0
  end.

(** What the profiles of a table want beyond their targets, in instances:
    more rounds than this the loop of step 3 cannot make. *)
Definition demand (targets : dict Z) (profiles : dict ServiceProfile) : Z :=
  Zsum (fun _p => Z.max 0 (desired_instances _p - target_of targets _p))
    (dict_values profiles).

(** The candidates of a round have passed [trim] against the values the
    round starts with. *)
Definition trimmed (g : Grant) (P : list ServiceProfile) : Prop :=
  forall p, In p P ->
    fits (free_cpu_left g) (free_memory_left g) p = true /\
    target_of (granted g) p < desired_instances p.

(** What is still wanted by the candidates of a round: it bounds the number
    of rounds to come. *)
Definition wanted (targets : dict Z) (P : list ServiceProfile) : Z :=
  Zsum (fun p => desired_instances p - target_of targets p) P.

(** The local dict [targets] says what the controller would answer. *)
Definition synced {C : Type} `{Controller C} (st : Scaling C) : Prop :=
  forall n t, dict_get n (targets st) = Some t -> get_target (controller st) n = t.

(** How many instances step 3 added to the profile [_p]. *)
Definition increment (before after : dict Z) (_p : ServiceProfile) : Z :=
  target_of after _p - target_of before _p.

(** The adjustment list of a loop over the profile table: the calls
    [(name, value)] for the profiles whose target passes [test]. *)
Definition adjustments (test : Z -> ServiceProfile -> bool)
    (value : ServiceProfile -> Z) (targets : dict Z)
    (profiles : dict ServiceProfile) : list (string * Z) :=
  flat_map
    (fun item =>
       match dict_get (fst item) targets with
       | Some t => if test t (snd item) then [(fst item, value (snd item))] else []
       | None => []
       end)
    profiles.

(** The controller after the calls [set_target(name, value)] of a list. *)
Definition set_targets {C : Type} `{Controller C} (c : C)
    (l : list (string * Z)) : C :=
  fold_left (fun c item => set_target c (fst item) (snd item)) l c.

(** A controller for the examples: the targets in a dict (0 when absent),
    and fixed free resources. *)
Record example_cluster : Type := {
  cluster_targets : dict Z;
  cluster_cpu : R;
  cluster_memory : R
}.

#[export] Instance example_controller : Controller example_cluster := {
  get_target c n := match dict_get n (cluster_targets c) with
                    | Some v => v
                    | None => 0
                    end;
  set_target c n v := {| cluster_targets := dict_set n v (cluster_targets c);
                         cluster_cpu := cluster_cpu c;
                         cluster_memory := cluster_memory c |};
  free_cpu := cluster_cpu;
  free_memory := cluster_memory;
  add_profile c _ := c;
  stop_containers c _ := c
}.

(** A profile named [n] that wants [d] instances and is content with at
    least [m]. *)
Definition example_service (n : string) (m d : Z) : ServiceProfile :=
  set_desired_instances d
    (ServiceProfile_init n example_config 0 m None 600 None 500 None 30).

(** Two services for the examples: ["a"] runs three instances and wants
    one, ["b"] runs none and wants (and needs) two. *)
Definition example_profiles : dict ServiceProfile :=
  [("a"%string, example_service "a" 0 1); ("b"%string, example_service "b" 2 2)].

Definition example_cluster0 : example_cluster :=
  {| cluster_targets := [("a"%string, 3); ("b"%string, 0)];
     cluster_cpu := 4; cluster_memory := 4096 |}.

Definition example_scaling : Scaling example_cluster :=
  {| controller := example_cluster0;
     targets := [("a"%string, 3); ("b"%string, 0)];
     calls := [] |}.

(** Step 3 on the two services when neither runs: three instances are
    wanted, and the cluster has room for four. *)
Definition example_targets0 : dict Z := [("a"%string, 0); ("b"%string, 0)].

(** A cluster whose controller reports a negative amount of free cpu. *)
Definition example_cluster_short : example_cluster :=
  {| cluster_targets := [("a"%string, 0); ("b"%string, 0)];
     cluster_cpu := (-1)%R; cluster_memory := 4096 |}.

(** ** concurrent.futures.Executor.submit

    [submit] takes a callable and the arguments to call it with:
    the callable is the first positional argument, and everything after it,
    positional or keyword, is handed on to the callable.  Up to Python 3.8
    the callable is also accepted under the keyword [fn] (with a
    deprecation warning in 3.8); from Python 3.9 on the parameter is
    positional only, and a call that gives no positional argument raises
    [TypeError]. *)

Inductive python : Type :=
| UpTo38       (* Python 3.8 and earlier *)
| From39.      (* Python 3.9 and later *)

(** The call a worker thread makes. *)
Record job : Type := {
  callee : pyval;
  job_args : list pyval;
  job_kwargs : list (string * pyval)
}.

Definition Executor_submit (version : python) (call : pycall) : result job :=
  match positional call with
  | fn :: args =>
      Ok {| callee := fn; job_args := args; job_kwargs := keywords call |}
  | [] =>
      match version with
      | From39 => Raise TypeError
      | UpTo38 =>
          match dict_get "fn" (keywords call) with
          | Some fn =>
              Ok {| callee := fn; job_args := [];
                    job_kwargs := dict_pop "fn" (keywords call) |}
          | None => Raise TypeError
          end
      end
  end.

(** The call the log line announces ("Killing service container: ..."):
    [self.controller.stop_container(service, container)]. *)
Definition stop_container_job (service container : string) : job :=
  {| callee := PyMethod "self.controller" "stop_container";
     job_args := [PyStr service; PyStr container];
     job_kwargs := [] |}.

(** ** ScalerServer.sync_metrics: the loop over the profiles *)

(** What one iteration of [for profile_name, profile in self.profiles.items()]
    reads from outside the profile, in the order the code reads it. *)
Record metrics_reading : Type := {
  state_read : option (Z * R);  (* self.state.read(profile_name): nothing, or
                                   the keywords instances and duty_cycle *)
  clock : R;                    (* time.time() in delta = time.time() - profile.last_update *)
  length_first : Z;             (* profile.queue.length() in the first update *)
  clock_first : R;              (* time.time() inside the first update *)
  length_second : Z;            (* queue_length = profile.queue.length() *)
  clock_second : R              (* time.time() inside the second update *)
}.

(** A call of [profile.update] made by the loop: on which profile, whether
    it is the call of the "service at zero instances" block, and with what
    arguments. *)
Record metrics_call : Type := {
  call_profile : string;
  call_zero : bool;
  call_arguments : update_call
}.

(** The truth value of [profile.queue]: [None] is false, and a queue object
    is true whatever the queue holds (how many messages it holds is what
    [queue.length()] answers, which the code tests on its own for the log
    line). *)
Definition queue_bool (q : option PriorityQueue) : bool :=
  match q with
  | Some _ => true
  | None => false
  end.

(** "Pull out statistics from the metrics regularization":
    [if update: profile.update(delta=delta, backlog=profile.queue.length(), **update)]. *)
Definition sync_metrics_update (r : metrics_reading) (profile_name : string)
    (profile : ServiceProfile) : outcome * list metrics_call :=
  match state_read r with
  | None => (Returned profile, [])
  | Some (instances, duty_cycle) =>
      let delta := (clock r - last_update profile)%R in
      match queue profile with
      | None => (Raised AttributeError profile, [])     (* None.length() *)
      | Some _ =>
          (update profile (clock_first r) delta instances (length_first r) duty_cycle,
           [{| call_profile := profile_name; call_zero := false;
               call_arguments :=
                 {| call_now := clock_first r; call_delta := delta;
                    call_instances := instances; call_backlog := length_first r;
                    call_duty_cycle := duty_cycle |} |}])
      end
  end.

(** "Check if we expect no messages, if so pull the queue length ourselves
    since there is no heartbeat".  [queue_length > 0] decides the log line
    only. *)
Definition sync_metrics_zero {C : Type} `{Controller C} (c : C)
    (export_interval : R) (r : metrics_reading) (profile_name : string)
    (profile : ServiceProfile) : outcome * list metrics_call :=
  if (get_target c profile_name =? 0) && (desired_instances profile =? 0)
     && queue_bool (queue profile)
  then
    let queue_length := length_second r in
    (update profile (clock_second r) export_interval 0 queue_length
       (target_duty_cycle profile),
     [{| call_profile := profile_name; call_zero := true;
         call_arguments :=
           {| call_now := clock_second r; call_delta := export_interval;
              call_instances := 0; call_backlog := queue_length;
              call_duty_cycle := target_duty_cycle profile |} |}])
  else (Returned profile, []).

(** The body of the loop. *)
Definition sync_metrics_profile {C : Type} `{Controller C} (c : C)
    (export_interval : R) (r : metrics_reading) (profile_name : string)
    (profile : ServiceProfile) : outcome * list metrics_call :=
  match sync_metrics_update r profile_name profile with
  | (Raised e profile, calls) => (Raised e profile, calls)
  | (Returned profile, calls) =>
      let '(out, calls') := sync_metrics_zero c export_interval r profile_name profile in
      (out, calls ++ calls')
  end.

(** The loop: the profiles are updated in place; a call that raises ends
    the loop (and the thread).  The table as the loop leaves it and the
    [update] calls made, oldest first, are returned with the outcome. *)
Fixpoint sync_metrics_profiles {C : Type} `{Controller C} (c : C)
    (export_interval : R) (reading : string -> metrics_reading)
    (profiles : dict ServiceProfile)
  : result unit * dict ServiceProfile * list metrics_call :=
  match profiles with
  | [] => (Ok tt, [], [])
  | (profile_name, profile) :: rest =>
      match sync_metrics_profile c export_interval (reading profile_name)
              profile_name profile with
      | (Raised e profile', calls) =>
          (Raise e, (profile_name, profile') :: rest, calls)
      | (Returned profile', calls) =>
          let '(r, rest', calls') :=
            sync_metrics_profiles c export_interval reading rest in
          (r, (profile_name, profile') :: rest', calls ++ calls')
      end
  end.

(** The call of the "zero instances" block on a profile. *)
Definition zero_call (export_interval : R) (r : metrics_reading)
    (profile_name : string) (profile : ServiceProfile) : metrics_call :=
  {| call_profile := profile_name; call_zero := true;
     call_arguments :=
       {| call_now := clock_second r; call_delta := export_interval;
          call_instances := 0; call_backlog := length_second r;
          call_duty_cycle := target_duty_cycle profile |} |}.

(** For the examples: a service with a queue, scaled to zero, and a tick in
    which no heartbeat was seen and the queue is empty. *)
Definition example_queued : ServiceProfile :=
  ServiceProfile_init "svc" example_config 0 0 None 600 None 500
    (Some {| queue_name := "service-queue-svc" |}) 30.

Definition example_idle_cluster : example_cluster :=
  {| cluster_targets := [("svc"%string, 0)];
     cluster_cpu := 4%R; cluster_memory := 4096%R |}.

Definition example_quiet_reading : string -> metrics_reading :=
  fun _ =>
    {| state_read := None; clock := 60%R; length_first := 0; clock_first := 60%R;
       length_second := 0; clock_second := 60%R |}.

(** The one [update] call of that tick. *)
Definition example_quiet_calls : list metrics_call :=
  [{| call_profile := "svc"; call_zero := true;
      call_arguments :=
        {| call_now := 60%R; call_delta := 60%R; call_instances := 0;
           call_backlog := 0; call_duty_cycle := (9 / 10)%R |} |}].

(** ** ScalerServer.sync_services and stop_service *)

(** [server_base.ServiceStage] (not in src/): the members the scaler names. *)
Inductive ServiceStage : Type :=
| Off
| Update
| Running.

Definition ServiceStage_eqb (a b : ServiceStage) : bool :=
  match a, b with
  | Off, Off | Update, Update | Running, Running => true
  | _, _ => false
  end.

(** An entry of the service catalog
    ([self.datastore.list_all_services(full=True)]), with what the loop
    computes from the entry alone. *)
Record Service : Type := {
  service_name : string;
  enabled : bool;
  dependencies : list string;    (* the container names of service.dependencies *)
  wait_for_update : bool;        (* service.update_config and service.update_config.wait_for_update *)
  service_config_hash : Z;       (* config_hash, l.333-334 *)
  docker_config : DockerConfig;  (* docker_config, l.338-343: image variables
                                    substituted, default environment appended *)
  licence_count : Z;
  service_timeout : Z
}.

(** [self.config.core.scaler.service_defaults], the part that goes into a
    new profile. *)
Record ServiceDefaults : Type := {
  default_min_instances : Z;
  default_growth : R;
  default_shrink : option R;
  default_backlog : Z
}.

(** The controller methods [sync_services] calls besides those of
    [Controller].  The calls are taken to return. *)
Class Deployer (C : Type) : Type := {
  prepare_network : C -> string -> bool -> C;
  start_stateful_container : C -> string -> string -> C;
  restart : C -> ServiceProfile -> C
}.

(** [profile.container_config != docker_config] compares field by field. *)
Definition DockerConfig_eq_dec (a b : DockerConfig) : {a = b} + {a <> b}.
Proof.
  decide equality;
    first [ apply Req_EM_T | apply Z.eq_dec | apply string_dec | apply bool_dec
          | apply list_eq_dec; decide equality; apply string_dec ].
Defined.

(** [assemblyline.common.forge.get_service_queue] (not in src/): the handle
    of the queue of a service. *)
Definition get_service_queue (name : string) : PriorityQueue :=
  {| queue_name := String.append "service-queue-" name |}.

(** The part of the server [sync_services] works on: the controller,
    [self.profiles] and [self._service_stage_hash]. *)
Record Server (C : Type) : Type := {
  server_controller : C;
  server_profiles : dict ServiceProfile;
  service_stage_hash : dict ServiceStage
}.
Arguments server_controller {C} _.
Arguments server_profiles {C} _.
Arguments service_stage_hash {C} _.
Arguments Build_Server {C} _ _ _.

(** [CoreBase.get_service_stage] (not in src/): the stage on record, [Off]
    when there is none. *)
Definition get_service_stage {C : Type} (self : Server C) (name : string)
  : ServiceStage :=
  match dict_get name (service_stage_hash self) with
  | Some stage => stage
  | None => Off
  end.

(** [ScalerServer.stop_service] *)
Definition stop_service {C : Type} `{Controller C} (self : Server C)
    (name : string) (current_stage : ServiceStage) : Server C :=
  let self :=
    if ServiceStage_eqb current_stage Off then self
    else
      {| server_controller :=
           stop_containers (server_controller self) [("dependency_for"%string, name)];
         server_profiles := server_profiles self;
         service_stage_hash := dict_set name Off (service_stage_hash self) |} in
  if dict_mem name (server_profiles self)
     || (get_target (server_controller self) name >? 0)
  then
    {| server_controller := set_target (server_controller self) name 0;
       server_profiles := dict_pop name (server_profiles self);
       service_stage_hash := service_stage_hash self |}
  else self.

(** [ScalerServer.add_service]; [now] is what [time.time()] answers. *)
Definition add_service {C : Type} `{Controller C} (self : Server C) (now : R)
    (profile : ServiceProfile) : Server C :=
  let profile :=
    set_desired_instances
      (Z.max (get_target (server_controller self) (name profile))
         (min_instances profile)) profile in
  let profile := set_running_instances (desired_instances profile) profile in
  let profile := set_last_update now profile in
  {| server_controller := add_profile (server_controller self) profile;
     server_profiles := dict_set (name profile) profile (server_profiles self);
     service_stage_hash := service_stage_hash self |}.

(** "Update RAM, CPU, licence requirements for running services" *)
Definition sync_profile {C : Type} `{Controller C} `{Deployer C} (self : Server C)
    (service : Service) (profile : ServiceProfile) : Server C :=
  let name := service_name service in
  let changed :=
    (if DockerConfig_eq_dec (container_config profile) (docker_config service)
     then false else true)
    || negb (config_hash profile =? service_config_hash service) in
  let profile :=
    if changed
    then set_config_hash (service_config_hash service)
           (set_container_config (docker_config service) profile)
    else profile in
  let controller :=
    if changed then restart (server_controller self) profile
    else server_controller self in
  let profile :=
    if licence_count service =? 0 then set__max_instances Infinite profile
    else set__max_instances (Finite (licence_count service)) profile in
  {| server_controller := controller;
     server_profiles := dict_set name profile (server_profiles self);
     service_stage_hash := service_stage_hash self |}.

(** "Find any services we have running, that are no longer in the database
    and remove them": the loop over
    [current_services - set(discovered_services)], in the order of
    [current_services]. *)
Definition stop_strays {C : Type} `{Controller C} (self : Server C)
    (current_services discovered_services : list string) : Server C :=
  fold_left
    (fun self stray_service =>
       let stage := get_service_stage self stray_service in
       stop_service self stray_service stage)
    (filter (fun n => negb (str_mem n discovered_services)) current_services)
    self.

(** "Enable this service's dependencies" and "Move to the next service
    stage": [if service.enabled and stage == ServiceStage.Off]. *)
Definition sync_enable {C : Type} `{Deployer C} (self : Server C)
    (service : Service) (stage : ServiceStage) : Server C :=
  let name := service_name service in
  if enabled service && ServiceStage_eqb stage Off then
    let controller :=
      prepare_network (server_controller self) name
        (allow_internet_access (docker_config service)) in
    let controller :=
      fold_left (fun c _n => start_stateful_container c name _n)
        (dependencies service) controller in
    {| server_controller := controller;
       server_profiles := server_profiles self;
       service_stage_hash :=
         dict_set name (if wait_for_update service then Update else Running)
           (service_stage_hash self) |}
  else self.

(** "Check that all enabled services are enabled":
    [if service.enabled and stage == ServiceStage.Running]. *)
Definition sync_scale {C : Type} `{Controller C} `{Deployer C}
    (default_settings : ServiceDefaults) (now : string -> R) (self : Server C)
    (service : Service) (stage : ServiceStage) : Server C :=
  let name := service_name service in
  if enabled service && ServiceStage_eqb stage Running then
    match dict_get name (server_profiles self) with
    | None =>
        add_service self (now name)
          (ServiceProfile_init name (docker_config service)
             (service_config_hash service)
             (default_min_instances default_settings)
             (Some (licence_count service))
             (default_growth default_settings)
             (default_shrink default_settings)
             (default_backlog default_settings)
             (Some (get_service_queue name))
             (service_timeout service + 30))
    | Some profile => sync_profile self service profile
    end
  else self.

(** The body of [for service in self.datastore.list_all_services(full=True)],
    on the server and the list [discovered_services]; [stage] is read once,
    at the top.  The calls inside [try] are taken to return, so the
    [except] branch is not entered.  The loop over the strays is the last
    statement of this body. *)
Definition sync_service {C : Type} `{Controller C} `{Deployer C}
    (default_settings : ServiceDefaults) (now : string -> R)
    (current_services : list string)
    (state : Server C * list string) (service : Service)
  : Server C * list string :=
  let '(self, discovered_services) := state in
  let name := service_name service in
  let stage := get_service_stage self name in
  let discovered_services := discovered_services ++ [name] in
  let self := sync_enable self service stage in
  if negb (enabled service) then
    (* self.stop_service(service.name, stage); continue *)
    (stop_service self name stage, discovered_services)
  else
    let self := sync_scale default_settings now self service stage in
    (stop_strays self current_services discovered_services, discovered_services).

(** One pass of [while self.running] in [sync_services]. *)
Definition sync_services {C : Type} `{Controller C} `{Deployer C}
    (default_settings : ServiceDefaults) (now : string -> R)
    (catalog : list Service) (self : Server C) : Server C :=
  let current_services := dict_keys (server_profiles self) in
  fst (fold_left (sync_service default_settings now current_services) catalog
         (self, [])).

(** For the examples: a controller that deploys nothing, two enabled
    services in stage [Running], both being scaled. *)
#[export] Instance example_deployer : Deployer example_cluster := {
  prepare_network c _ _ := c;
  start_stateful_container c _ _ := c;
  restart c _ := c
}.

Definition example_defaults : ServiceDefaults :=
  {| default_min_instances := 0; default_growth := 600%R;
     default_shrink := None; default_backlog := 500 |}.

Definition example_entry (n : string) : Service :=
  {| service_name := n; enabled := true; dependencies := [];
     wait_for_update := false; service_config_hash := 0;
     docker_config := example_config; licence_count := 0;
     service_timeout := 60 |}.

Definition example_server : Server example_cluster :=
  {| server_controller :=
       {| cluster_targets := [("a"%string, 1); ("b"%string, 1)];
          cluster_cpu := 4%R; cluster_memory := 4096%R |};
     server_profiles :=
       [("a"%string, example_service "a" 0 1); ("b"%string, example_service "b" 0 1)];
     service_stage_hash := [("a"%string, Running); ("b"%string, Running)] |}.

(** ** A service held below its floor *)




(** The cluster of the two services after a tick: ["a"] at 1, ["b"] at 2. *)
Definition example_cluster1 : example_cluster :=
  {| cluster_targets := [("a"%string, 1); ("b"%string, 2)];
     cluster_cpu := 4%R; cluster_memory := 4096%R |}.

(** * Part II: properties *)

(** ** ServiceProfile.update *)

Local Open Scope R_scope.

Ltac unfold_stages :=
  unfold update_shrink, update_grow, update_floor, update_leak, update_observe.

Ltac split_tests :=
  repeat match goal with
  | |- context [Rle_dec ?a ?b] => destruct (Rle_dec a b)
  | |- context [Rge_dec ?a ?b] => destruct (Rge_dec a b)
  | |- context [Rlt_dec ?a ?b] => destruct (Rlt_dec a b)
  | |- context [Z.eqb ?a ?b] => destruct (Z.eqb_spec a b)
  end.

Lemma update_observe_bounds self now instances backlog' duty_cycle' :
  bounds_if_ordered (update_observe self now instances backlog' duty_cycle').
Proof.
  unfold bounds_if_ordered, bounds_ok, update_observe, max_instances; cbn.
  intros; lia.
Qed.

Lemma set_pressure_bounds v self :
  bounds_if_ordered self -> bounds_if_ordered (set_pressure v self).
Proof. exact (fun H => H). Qed.

Lemma update_leak_bounds self delta :
  bounds_if_ordered self -> bounds_if_ordered (update_leak self delta).
Proof. exact (fun H => H). Qed.

Lemma update_floor_bounds self :
  bounds_if_ordered self -> bounds_if_ordered (update_floor self).
Proof. unfold update_floor; split_tests; exact (fun H => H). Qed.

Lemma update_grow_bounds self :
  bounds_if_ordered self -> bounds_if_ordered (update_grow self).
Proof.
  unfold update_grow; split_tests; [|exact (fun H => H)].
  unfold bounds_if_ordered, bounds_ok, max_instances; cbn; lia.
Qed.

Lemma update_shrink_bounds self :
  bounds_if_ordered self -> bounds_if_ordered (update_shrink self).
Proof.
  unfold update_shrink; split_tests; [|exact (fun H => H)].
  unfold bounds_if_ordered, bounds_ok, max_instances; cbn; lia.
Qed.

Lemma update_floor_floor self : floor_ok (update_floor self).
Proof.
  unfold update_floor, floor_ok; split_tests; cbn; intros.
  - apply Rmax_l.
  - contradiction.
Qed.

Lemma update_grow_floor self : floor_ok self -> floor_ok (update_grow self).
Proof.
  unfold update_grow, floor_ok; split_tests; cbn; intros; [lra | auto].
Qed.

Lemma update_shrink_floor self : floor_ok self -> floor_ok (update_shrink self).
Proof.
  unfold update_shrink, floor_ok; split_tests; cbn; intros; [lra | auto].
Qed.

(** Every way [update] can return goes through the same four last blocks. *)
Lemma update_returned self now delta instances backlog' duty_cycle' self' :
  update self now delta instances backlog' duty_cycle' = Returned self' ->
  exists v,
    self' = update_shrink (update_grow (update_floor (update_leak
              (set_pressure v
                 (update_observe self now instances backlog' duty_cycle')) delta))).
Proof.
  unfold update.
  destruct (int_truediv _ _) as [ratio|]; [|discriminate].
  destruct (math_sqrt _) as [root|]; [|discriminate].
  destruct (float_truediv _ _) as [idle|]; [|discriminate].
  intros H; injection H as <-.
  eexists. cbn [pressure set_pressure]. reflexivity.
Qed.

Lemma update_step_invariant self now delta instances backlog' duty_cycle' self' :
  update self now delta instances backlog' duty_cycle' = Returned self' ->
  bounds_if_ordered self' /\ floor_ok self'.
Proof.
  intros H. apply update_returned in H as [v ->]. split.
  - apply update_shrink_bounds, update_grow_bounds, update_floor_bounds,
      update_leak_bounds, set_pressure_bounds, update_observe_bounds.
  - apply update_shrink_floor, update_grow_floor, update_floor_floor.
Qed.

Lemma same_settings_tail v self delta :
  same_settings self
    (update_shrink (update_grow (update_floor (update_leak (set_pressure v self) delta)))).
Proof.
  unfold_stages; split_tests; cbn; repeat split; reflexivity.
Qed.

Lemma update_returned_settings self now delta instances backlog' duty_cycle' self' :
  update self now delta instances backlog' duty_cycle' = Returned self' ->
  same_settings self self'.
Proof.
  intros H. apply update_returned in H as [v ->].
  exact (same_settings_tail v (update_observe self now instances backlog' duty_cycle') delta).
Qed.

Lemma update_raised self now delta instances backlog' duty_cycle' e self' :
  update self now delta instances backlog' duty_cycle' = Raised e self' ->
  exists v,
    self' = update_observe self now instances backlog' duty_cycle' \/
    self' = set_pressure v (update_observe self now instances backlog' duty_cycle').
Proof.
  unfold update.
  destruct (int_truediv _ _) as [ratio|].
  2:{ intros H; injection H as _ <-. exists 0. now left. }
  destruct (math_sqrt _) as [root|].
  2:{ intros H; injection H as _ <-. exists 0. now left. }
  destruct (float_truediv _ _) as [idle|]; [discriminate|].
  intros H; injection H as _ <-. eexists. right. reflexivity.
Qed.

Lemma update_raised_settings self now delta instances backlog' duty_cycle' e self' :
  update self now delta instances backlog' duty_cycle' = Raised e self' ->
  same_settings self self'.
Proof.
  intros H. apply update_raised in H as [v [-> | ->]];
    cbn; repeat split; reflexivity.
Qed.

(** The constants [__init__] sets stay what they are. *)
Lemma constructed_constants self :
  constructed self ->
  target_duty_cycle self = 9 / 10 /\ leak_rate self = 1 / 10 /\
  0 <= growth_threshold self /\ shrink_threshold self <= 0.
Proof.
  induction 1 as [ | s now d i b dc s' _ IH Hu | s now d i b dc e s' _ IH Hu
                  | | | | | | ]; try exact IHconstructed.
  - cbn. repeat split; try reflexivity.
    + apply Rabs_pos.
    + destruct shrink as [s|].
      * pose proof (Rabs_pos s). lra.
      * pose proof (Rabs_pos growth). lra.
  - apply update_returned_settings in Hu.
    destruct Hu as (_ & _ & _ & -> & _ & _ & -> & -> & -> & _). exact IH.
  - apply update_raised_settings in Hu.
    destruct Hu as (_ & _ & _ & -> & _ & _ & -> & -> & -> & _). exact IH.
Qed.

(** [update] raises exactly in three ways; this is the way out of each. *)
Lemma update_eval self now delta instances backlog' duty_cycle' :
  backlog self <> 0%Z ->
  0 <= IZR backlog' / IZR (backlog self) ->
  target_duty_cycle self <> 0 ->
  update self now delta instances backlog' duty_cycle' =
  Returned
    (update_shrink (update_grow (update_floor (update_leak
       (set_pressure
          (pressure self + delta * sqrt (IZR backlog' / IZR (backlog self))
           - delta * (target_duty_cycle self - duty_cycle') / target_duty_cycle self)
          (update_observe self now instances backlog' duty_cycle')) delta)))).
Proof.
  intros Hb Hq Ht. unfold update, int_truediv, math_sqrt, float_truediv.
  cbn [backlog update_observe set_desired_instances set_min_instances
       set_duty_cycle set_queue_length set_running_instances set_last_update
       target_duty_cycle pressure set_pressure].
  destruct (Z.eqb_spec (backlog self) 0); [contradiction|].
  destruct (Rlt_dec _ 0); [lra|].
  destruct (Req_EM_T _ 0); [contradiction|].
  reflexivity.
Qed.

(** C10.  [update] divides the backlog by the backlog reference of the
    profile without a guard: on a profile whose reference is 0 every call
    raises [ZeroDivisionError] (after the samples are recorded and
    [desired_instances] is clamped), while on a profile whose reference is
    positive every call with [backlog >= 0] and [delta >= 0] returns. *)
Theorem update_division_guard (self : ServiceProfile) :
  constructed self ->
  (backlog self = 0%Z ->
   forall now delta instances backlog' duty_cycle',
     update self now delta instances backlog' duty_cycle' =
     Raised ZeroDivisionError
       (update_observe self now instances backlog' duty_cycle')) /\
  ((0 < backlog self)%Z ->
   forall now delta instances backlog' duty_cycle',
     (0 <= backlog')%Z -> 0 <= delta ->
     exists self',
       update self now delta instances backlog' duty_cycle' = Returned self').
Proof.
  intros Hc. apply constructed_constants in Hc as (Ht & _). split.
  - intros Hz now delta instances backlog' duty_cycle'.
    unfold update, int_truediv.
    cbn [backlog update_observe set_desired_instances set_min_instances
         set_duty_cycle set_queue_length set_running_instances set_last_update].
    rewrite Hz. reflexivity.
  - intros Hpos now delta instances backlog' duty_cycle' Hb Hd.
    eexists. apply update_eval.
    + lia.
    + apply Rmult_le_pos.
      * apply IZR_le in Hb. exact Hb.
      * apply Rlt_le, Rinv_0_lt_compat, IZR_lt. exact Hpos.
    + rewrite Ht. lra.
Qed.

Ltac fields :=
  cbn [name queue container_config target_duty_cycle shutdown_seconds config_hash
       min_instances _min_instances _max_instances desired_instances
       running_instances pressure growth_threshold shrink_threshold leak_rate
       backlog queue_length duty_cycle last_update
       set_container_config set_config_hash set_min_instances set__max_instances
       set_desired_instances set_running_instances set_pressure set_queue_length
       set_duty_cycle set_last_update update_observe ServiceProfile_init
       max_instances limit_min int_bool fst snd
       Z.max Z.min Z.eqb Z.add Z.sub Z.compare Z.opp Z.pos_sub Z.succ_double
       Z.pred_double Z.double
       Pos.compare Pos.compare_cont Pos.add Pos.succ Pos.eqb Pos.pred_double] in *.

Ltac known_sqrt :=
  repeat match goal with
  | |- context [sqrt ?x] =>
      first [ replace (sqrt x) with 0 by (replace x with 0 by lra; symmetry; apply sqrt_0)
            | replace (sqrt x) with 1 by (replace x with 1 by lra; symmetry; apply sqrt_1) ]
  end.

Ltac real_crush :=
  fields; known_sqrt;
  unfold math_copysign, Rabs, Rmin, Rmax;
  repeat match goal with
  | |- context [Rcase_abs ?x] => destruct (Rcase_abs x)
  | |- context [Rle_dec ?a ?b] => destruct (Rle_dec a b)
  | |- context [Rlt_dec ?a ?b] => destruct (Rlt_dec a b)
  end; try lra; try lia.

Lemma update_leak_eq self delta v :
  math_copysign
    (Rabs (pressure self) - Rmin (leak_rate self * delta) (Rabs (pressure self)))
    (pressure self) = v ->
  update_leak self delta = set_pressure v self.
Proof. intros <-. reflexivity. Qed.

Lemma update_floor_at self :
  desired_instances self = min_instances self ->
  update_floor self = set_pressure (Rmax 0 (pressure self)) self.
Proof. unfold update_floor. intros ->. now rewrite Z.eqb_refl. Qed.

Lemma update_floor_off self :
  desired_instances self <> min_instances self -> update_floor self = self.
Proof. unfold update_floor. intros H. now destruct (Z.eqb_spec (desired_instances self) (min_instances self)). Qed.

Lemma update_grow_off self :
  pressure self < growth_threshold self -> update_grow self = self.
Proof. unfold update_grow. intros H. destruct (Rge_dec _ _); [lra | reflexivity]. Qed.

Lemma update_grow_on self :
  growth_threshold self <= pressure self ->
  update_grow self =
  set_pressure 0
    (set_desired_instances
       (Z.min (max_instances self) (desired_instances self + 1)) self).
Proof. unfold update_grow. intros H. destruct (Rge_dec _ _); [reflexivity | lra]. Qed.

Lemma update_shrink_off self :
  shrink_threshold self < pressure self -> update_shrink self = self.
Proof. unfold update_shrink. intros H. destruct (Rle_dec _ _); [lra | reflexivity]. Qed.

Lemma update_shrink_on self :
  pressure self <= shrink_threshold self ->
  update_shrink self =
  set_pressure 0
    (set_desired_instances
       (Z.max (min_instances self) (desired_instances self - 1)) self).
Proof. unfold update_shrink. intros H. destruct (Rle_dec _ _); [reflexivity | lra]. Qed.


Lemma updates_invariant self cs self' :
  cs <> [] -> updates self cs = Returned self' ->
  bounds_if_ordered self' /\ floor_ok self'.
Proof.
  revert self. induction cs as [|c cs IH]; intros self Hne H; [contradiction|].
  cbn [updates] in H.
  destruct (apply_update self c) as [s1|e s1] eqn:E; [|discriminate].
  destruct cs as [|c' cs'].
  - cbn [updates] in H. injection H as <-. unfold apply_update in E.
    exact (update_step_invariant self (call_now c) (call_delta c)
             (call_instances c) (call_backlog c) (call_duty_cycle c) s1 E).
  - apply (IH s1); [discriminate | exact H].
Qed.

(** C1, as amended.  After every call of [update] that returns, in a run of
    any length from any profile and with any arguments (so also with
    [delta >= 0], [backlog >= 0] and a duty cycle in [0,1]): whenever
    [desired_instances == min_instances] the pressure is not negative, and
    [min_instances <= desired_instances <= max_instances] holds provided the
    re-derived bounds are ordered, [min_instances <= max_instances]. *)
Theorem update_invariant (self : ServiceProfile) (cs : list update_call)
    (self' : ServiceProfile) :
  cs <> [] ->
  updates self cs = Returned self' ->
  ((min_instances self' <= max_instances self')%Z ->
   (min_instances self' <= desired_instances self' <= max_instances self')%Z) /\
  (desired_instances self' = min_instances self' -> 0 <= pressure self').
Proof. exact (updates_invariant self cs self'). Qed.

(** Scenario S1, first call: a cold profile under a full backlog. *)
Lemma example_cold_start :
  updates (example_profile 0) [example_call 5 0 500 0] =
  Returned
    (set_pressure 0
       (update_observe (example_profile 0) 0 0 500 0)).
Proof.
  unfold updates, apply_update, example_call, example_profile; cbn [call_now call_delta call_instances call_backlog call_duty_cycle].
  rewrite update_eval by real_crush.
  rewrite (update_leak_eq _ _ 0) by real_crush.
  rewrite update_floor_at by real_crush.
  rewrite update_grow_off by real_crush.
  rewrite update_shrink_off by real_crush.
  fields. unfold Rmax. destruct (Rle_dec 0 0); reflexivity.
Qed.

Lemma update_invariant_witness :
  let self' := set_pressure 0 (update_observe (example_profile 0) 0 0 500 0) in
  ((min_instances self' <= max_instances self')%Z ->
   (min_instances self' <= desired_instances self' <= max_instances self')%Z) /\
  (desired_instances self' = min_instances self' -> 0 <= pressure self').
Proof.
  apply (update_invariant (example_profile 0) [example_call 5 0 500 0]).
  - discriminate.
  - exact example_cold_start.
Defined.

(** C1 as stated fails: a profile with a floor of three instances, told that
    nothing is running, is clamped to three desired instances while its
    re-derived maximum is two. *)
Lemma update_invariant_counterexample :
  exists self',
    updates (example_profile 3) [example_call 1 0 0 (9 / 10)] = Returned self' /\
    (0 <= call_delta (example_call 1 0 0 (9 / 10)) /\
     (0 <= call_backlog (example_call 1 0 0 (9 / 10)))%Z /\
     0 <= call_duty_cycle (example_call 1 0 0 (9 / 10)) <= 1) /\
    min_instances self' = 3%Z /\ desired_instances self' = 3%Z /\
    max_instances self' = 2%Z /\
    ~ (min_instances self' <= desired_instances self' <= max_instances self')%Z.
Proof.
  eexists. split; [|split].
  - unfold updates, apply_update, example_call, example_profile; cbn [call_now call_delta call_instances call_backlog call_duty_cycle].
    rewrite update_eval by real_crush.
    rewrite (update_leak_eq _ _ 0) by real_crush.
    rewrite update_floor_at by real_crush.
    rewrite update_grow_off by real_crush.
    rewrite update_shrink_off by real_crush.
    reflexivity.
  - cbn. repeat split; try lra; lia.
  - fields. repeat split; try reflexivity. lia.
Qed.

(** The growth step can also leave [desired_instances] below
    [min_instances]: with a floor of three and nothing running the maximum
    is two, and a threshold crossing sets [desired = min(2, 3 + 1)]. *)
Lemma example_growth_below_floor :
  exists self',
    updates (example_profile 3) [example_call 1000 0 500 (9 / 10)] = Returned self' /\
    min_instances self' = 3%Z /\ desired_instances self' = 2%Z /\
    pressure self' = 0.
Proof.
  eexists. split.
  - unfold updates, apply_update, example_call, example_profile; cbn [call_now call_delta call_instances call_backlog call_duty_cycle].
    rewrite update_eval by real_crush.
    rewrite (update_leak_eq _ _ 900) by real_crush.
    rewrite update_floor_at by real_crush.
    rewrite update_grow_on by real_crush.
    rewrite update_shrink_off by real_crush.
    reflexivity.
  - fields. repeat split; reflexivity.
Qed.

Lemma update_division_guard_witness :
  exists self', update (example_profile 0) 0 5 1 10 (1 / 2) = Returned self'.
Proof.
  refine (proj2 (update_division_guard (example_profile 0) _) _ 0 5 1%Z 10%Z (1 / 2) _ _).
  - apply constructed_init.
  - cbn. lia.
  - lia.
  - lra.
Defined.

(** ** The leak: how [|pressure|] moves through the last four blocks *)





(** ** The thresholds: where the pressure can be found *)

Lemma tail_fields v self delta :
  let s := update_floor (update_leak (set_pressure v self) delta) in
  shrink_threshold s = shrink_threshold self /\
  growth_threshold s = growth_threshold self /\
  min_instances s = min_instances self /\
  desired_instances s = desired_instances self /\
  max_instances s = max_instances self.
Proof.
  unfold update_floor, update_leak; split_tests; cbn; repeat split; reflexivity.
Qed.

Lemma grow_shrink_band s :
  pressure (update_shrink (update_grow s)) = 0 \/
  shrink_threshold s < pressure (update_shrink (update_grow s)) < growth_threshold s.
Proof.
  unfold update_grow.
  destruct (Rge_dec (pressure s) (growth_threshold s)) as [Hg|Hg];
    unfold update_shrink;
    cbn [pressure shrink_threshold growth_threshold set_pressure set_desired_instances].
  - destruct (Rle_dec 0 (shrink_threshold s));
      cbn [pressure set_pressure set_desired_instances]; now left.
  - destruct (Rle_dec (pressure s) (shrink_threshold s));
      cbn [pressure set_pressure set_desired_instances]; [now left | right; lra].
Qed.

(** A profile the program can hold has its pressure at 0 or strictly
    between its two thresholds: a call that raises does so before it has
    assigned the pressure (the target duty cycle is 0.9, so line 157 does
    not raise). *)
Lemma constructed_band self :
  constructed self ->
  pressure self = 0 \/
  shrink_threshold self < pressure self < growth_threshold self.
Proof.
  intros Hc.
  induction Hc as [ | s now d i b dc s' Hc IH Hu | s now d i b dc e s' Hc IH Hu
                  | | | | | | ]; try exact IHHc.
  - left. reflexivity.
  - pose proof (update_returned_settings _ _ _ _ _ _ _ Hu)
      as (_ & _ & _ & _ & _ & _ & Hg & Hs & _).
    apply update_returned in Hu as [v ->].
    destruct (tail_fields v (update_observe s now i b dc) d) as (Hs' & Hg' & _).
    cbn [shrink_threshold growth_threshold update_observe set_desired_instances
         set_min_instances set_duty_cycle set_queue_length set_running_instances
         set_last_update] in Hs', Hg'.
    destruct (grow_shrink_band
                (update_floor (update_leak
                   (set_pressure v (update_observe s now i b dc)) d)))
      as [H0|Hb]; [left; exact H0 | right].
    lra.
  - destruct (constructed_constants s Hc) as (Ht & _).
    revert Hu. unfold update.
    destruct (int_truediv _ _) as [ratio|].
    2:{ intros Hu; injection Hu as _ <-. exact IH. }
    destruct (math_sqrt _) as [root|].
    2:{ intros Hu; injection Hu as _ <-. exact IH. }
    unfold float_truediv.
    cbn [target_duty_cycle set_pressure update_observe set_desired_instances
         set_min_instances set_duty_cycle set_queue_length set_running_instances
         set_last_update].
    destruct (Req_EM_T (target_duty_cycle s) 0) as [Hz|_]; [lra | discriminate].
Qed.

(** ** The leak alone: calls with no backlog and the duty cycle on target *)










(** A profile carrying pressure 9: the default profile after one call
    [update(delta=10, instances=0, backlog=500, duty_cycle=0.9)]. *)
Lemma example_loaded_profile :
  update (example_profile 0) 0 10 0 500 (9 / 10) =
  Returned
    (set_pressure 9 (update_observe (example_profile 0) 0 0 500 (9 / 10))).
Proof.
  unfold example_profile.
  rewrite update_eval by real_crush.
  rewrite (update_leak_eq _ _ 9) by real_crush.
  rewrite update_floor_at by real_crush.
  rewrite update_grow_off by real_crush.
  rewrite update_shrink_off by real_crush.
  fields. unfold Rmax. destruct (Rle_dec 0 9); [reflexivity | lra].
Qed.





(** ** More on [ServiceProfile.update] *)

Lemma grow_shrink_step s :
  (desired_instances (update_shrink (update_grow s)) <> desired_instances s ->
   pressure (update_shrink (update_grow s)) = 0) /\
  min_instances (update_shrink (update_grow s)) = min_instances s /\
  max_instances (update_shrink (update_grow s)) = max_instances s /\
  ((min_instances s <= desired_instances s <= max_instances s)%Z ->
   (desired_instances s - 1 <= desired_instances (update_shrink (update_grow s))
    <= desired_instances s + 1)%Z) /\
  ((1 <= min_instances s)%Z -> (1 <= desired_instances s)%Z ->
   (1 <= max_instances s)%Z ->
   (1 <= desired_instances (update_shrink (update_grow s)))%Z).
Proof.
  unfold update_grow.
  destruct (Rge_dec (pressure s) (growth_threshold s)) as [Hg|Hg];
    unfold update_shrink;
    cbn [pressure shrink_threshold growth_threshold set_pressure set_desired_instances].
  - destruct (Rle_dec 0 (shrink_threshold s));
      unfold max_instances;
      cbn [pressure set_pressure set_desired_instances min_instances
           desired_instances running_instances _max_instances];
      (split; [reflexivity|]); (split; [reflexivity|]); (split; [reflexivity|]);
      split; intros; lia.
  - destruct (Rle_dec (pressure s) (shrink_threshold s));
      unfold max_instances;
      cbn [pressure set_pressure set_desired_instances min_instances
           desired_instances running_instances _max_instances];
      (split; [first [reflexivity | intros Hne; now contradiction Hne]|]);
      (split; [reflexivity|]); (split; [reflexivity|]);
      split; intros; lia.
Qed.



(** X2.  After every call of [update] that returns, the pressure is either
    exactly 0 or strictly between the shrink threshold and the growth
    threshold of the profile: a threshold crossing is consumed by the call
    that sees it. *)
Theorem update_pressure_band (self : ServiceProfile) (now delta : R)
    (instances backlog' : Z) (duty_cycle' : R) (self' : ServiceProfile) :
  update self now delta instances backlog' duty_cycle' = Returned self' ->
  pressure self' = 0 \/
  shrink_threshold self < pressure self' < growth_threshold self.
Proof.
  intros H. apply update_returned in H as [v ->].
  destruct (tail_fields v (update_observe self now instances backlog' duty_cycle') delta)
    as (Hs & Hg & _).
  cbn [shrink_threshold growth_threshold update_observe set_desired_instances
       set_min_instances set_duty_cycle set_queue_length set_running_instances
       set_last_update] in Hs, Hg.
  rewrite <- Hs, <- Hg. apply grow_shrink_band.
Qed.

Lemma update_pressure_band_witness :
  let self' := set_pressure 9 (update_observe (example_profile 0) 0 0 500 (9 / 10)) in
  pressure self' = 0 \/
  shrink_threshold (example_profile 0) < pressure self'
    < growth_threshold (example_profile 0).
Proof.
  exact (update_pressure_band (example_profile 0) 0 10 0 500 (9 / 10) _
           example_loaded_profile).
Defined.

(** X3.  One call of [update] moves [desired_instances] by at most one from
    the value the clamp of line 151 gives it, provided the re-derived bounds
    are ordered ([min_instances <= max_instances]); and whenever the call
    leaves [desired_instances] different from the clamped value, it has
    reset the pressure to 0. *)
Theorem update_desired_step (self : ServiceProfile) (now delta : R)
    (instances backlog' : Z) (duty_cycle' : R) (self' : ServiceProfile) :
  update self now delta instances backlog' duty_cycle' = Returned self' ->
  let floor := Z.max (_min_instances self) (int_bool backlog') in
  let cap := limit_min (_max_instances self) (instances + 2) in
  let clamped := Z.max floor (Z.min cap (desired_instances self)) in
  min_instances self' = floor /\
  max_instances self' = cap /\
  (desired_instances self' <> clamped -> pressure self' = 0) /\
  ((floor <= cap)%Z ->
   (clamped - 1 <= desired_instances self' <= clamped + 1)%Z).
Proof.
  intros H floor cap clamped. apply update_returned in H as [v ->].
  set (obs := update_observe self now instances backlog' duty_cycle').
  destruct (tail_fields v obs delta) as (_ & _ & Hm & Hd & Hx).
  destruct (grow_shrink_step (update_floor (update_leak (set_pressure v obs) delta)))
    as (Hp & Hm' & Hx' & Hstep & _).
  rewrite Hm, Hd, Hx in *.
  assert (min_instances obs = floor) as Ef by reflexivity.
  assert (max_instances obs = cap) as Ec by reflexivity.
  assert (desired_instances obs = clamped) as Ed by reflexivity.
  rewrite Ef, Ec, Ed in *.
  split; [exact Hm'|]. split; [exact Hx'|]. split; [exact Hp|].
  intros Hord. apply Hstep. unfold clamped. lia.
Qed.

Lemma update_desired_step_witness :
  let self' := set_pressure 9 (update_observe (example_profile 0) 0 0 500 (9 / 10)) in
  let floor := Z.max (_min_instances (example_profile 0)) (int_bool 500) in
  let cap := limit_min (_max_instances (example_profile 0)) (0 + 2) in
  let clamped := Z.max floor (Z.min cap (desired_instances (example_profile 0))) in
  min_instances self' = floor /\
  max_instances self' = cap /\
  (desired_instances self' <> clamped -> pressure self' = 0) /\
  ((floor <= cap)%Z ->
   (clamped - 1 <= desired_instances self' <= clamped + 1)%Z).
Proof.
  exact (update_desired_step (example_profile 0) 0 10 0 500 (9 / 10) _
           example_loaded_profile).
Defined.

(** X4.  A backlog whose sign differs from the sign of the backlog reference
    (a negative queue length against a positive reference, or the other way
    round) makes [math.sqrt] raise [ValueError]: [update] raises after it
    has recorded the samples and clamped [desired_instances], and before it
    has touched the pressure. *)
Theorem update_negative_ratio_raises (self : ServiceProfile) (now delta : R)
    (instances backlog' : Z) (duty_cycle' : R) :
  (backlog' * backlog self < 0)%Z ->
  update self now delta instances backlog' duty_cycle' =
  Raised ValueError (update_observe self now instances backlog' duty_cycle').
Proof.
  intros Hneg. unfold update, int_truediv, math_sqrt.
  cbn [backlog update_observe set_desired_instances set_min_instances
       set_duty_cycle set_queue_length set_running_instances set_last_update].
  destruct (Z.eqb_spec (backlog self) 0) as [E|E]; [rewrite E in Hneg; lia|].
  destruct (Rlt_dec (IZR backlog' / IZR (backlog self)) 0) as [_|Hge];
    [reflexivity|].
  exfalso. apply Hge. clear Hge. unfold Rdiv.
  assert ((backlog' < 0 /\ 0 < backlog self) \/ (0 < backlog' /\ backlog self < 0))%Z
    as [[Ha Hb]|[Ha Hb]] by nia.
  - apply IZR_lt in Ha, Hb.
    pose proof (Rinv_0_lt_compat _ Hb). nra.
  - apply IZR_lt in Ha, Hb.
    pose proof (Rinv_lt_0_compat _ Hb). nra.
Qed.

Lemma update_negative_ratio_raises_witness :
  update (example_profile 0) 0 5 0 (-1) (9 / 10) =
  Raised ValueError (update_observe (example_profile 0) 0 0 (-1) (9 / 10)).
Proof.
  apply (update_negative_ratio_raises (example_profile 0) 0 5 0 (-1) (9 / 10)).
  cbn. lia.
Defined.

(** X5.  A call of [update] that reports a non-empty queue and returns
    leaves [min_instances] and [desired_instances] at one or more, whatever
    they were before, as long as the re-derived maximum
    [min(_max_instances, instances + 2)] is at least one: a service scaled
    to zero is woken up by the first such call. *)
Theorem update_wakes_idle_service (self : ServiceProfile) (now delta : R)
    (instances backlog' : Z) (duty_cycle' : R) (self' : ServiceProfile) :
  backlog' <> 0%Z ->
  (1 <= limit_min (_max_instances self) (instances + 2))%Z ->
  update self now delta instances backlog' duty_cycle' = Returned self' ->
  (1 <= min_instances self')%Z /\ (1 <= desired_instances self')%Z.
Proof.
  intros Hb Hcap H. apply update_returned in H as [v ->].
  set (obs := update_observe self now instances backlog' duty_cycle').
  destruct (tail_fields v obs delta) as (_ & _ & Hm & Hd & Hx).
  destruct (grow_shrink_step (update_floor (update_leak (set_pressure v obs) delta)))
    as (_ & Hm' & _ & _ & Hwake).
  rewrite Hm, Hd, Hx in *.
  assert (min_instances obs =
          Z.max (_min_instances self) (int_bool backlog')) as Ef by reflexivity.
  assert (max_instances obs =
          limit_min (_max_instances self) (instances + 2)) as Ec by reflexivity.
  assert (desired_instances obs =
          Z.max (min_instances obs)
            (Z.min (max_instances obs) (desired_instances self))) as Ed by reflexivity.
  assert (int_bool backlog' = 1%Z) as Eb.
  { unfold int_bool. destruct (Z.eqb_spec backlog' 0); [contradiction | reflexivity]. }
  rewrite Eb in Ef.
  split.
  - rewrite Hm'. lia.
  - apply Hwake; lia.
Qed.

Lemma update_wakes_idle_service_witness :
  let self' := set_pressure 9 (update_observe (example_profile 0) 0 0 500 (9 / 10)) in
  (1 <= min_instances self')%Z /\ (1 <= desired_instances self')%Z.
Proof.
  apply (update_wakes_idle_service (example_profile 0) 0 10 0 500 (9 / 10)).
  - discriminate.
  - cbn. lia.
  - exact example_loaded_profile.
Defined.

(** X6.  Over the whole life of a profile (constructed by [__init__], then
    mutated by [update] calls that return or raise and by the attribute
    assignments of [ScalerServer]) the configured floor [_min_instances] is
    not negative, and [min_instances] is either that floor or 1: the only
    bump [update] ever applies is from 0 to 1. *)
Theorem profile_floor_invariant (self : ServiceProfile) :
  constructed self ->
  (0 <= _min_instances self)%Z /\
  (min_instances self = _min_instances self \/
   (min_instances self = 1 /\ _min_instances self = 0)%Z).
Proof.
  assert (Hobs : forall s now i b d,
    (0 <= _min_instances s)%Z ->
    (0 <= _min_instances (update_observe s now i b d))%Z /\
    (min_instances (update_observe s now i b d) = _min_instances (update_observe s now i b d) \/
     (min_instances (update_observe s now i b d) = 1 /\
      _min_instances (update_observe s now i b d) = 0)%Z)).
  { intros s now i b d H0.
    cbn [_min_instances min_instances update_observe set_desired_instances
         set_min_instances set_duty_cycle set_queue_length set_running_instances
         set_last_update].
    unfold int_bool. destruct (b =? 0)%Z; lia. }
  induction 1 as [ nm cfg h mi ma g sh b q sd
                 | s now d i b dc s' _ IH Hu | s now d i b dc e s' _ IH Hu
                 | | | | | | ]; try exact IHconstructed.
  - cbn [_min_instances min_instances ServiceProfile_init]. lia.
  - apply update_returned in Hu as [v ->].
    destruct (tail_fields v (update_observe s now i b dc) d) as (_ & _ & Hm & _ & _).
    destruct (grow_shrink_step
                (update_floor (update_leak (set_pressure v (update_observe s now i b dc)) d)))
      as (_ & Hm' & _).
    rewrite Hm in Hm'.
    pose proof (same_settings_tail v (update_observe s now i b dc) d)
      as (_ & _ & _ & _ & Hmin & _).
    rewrite Hm', Hmin. apply Hobs. apply IH.
  - apply update_raised in Hu as [v [-> | ->]].
    + apply Hobs. apply IH.
    + change (_min_instances (set_pressure v (update_observe s now i b dc)))
        with (_min_instances (update_observe s now i b dc)).
      change (min_instances (set_pressure v (update_observe s now i b dc)))
        with (min_instances (update_observe s now i b dc)).
      apply Hobs. apply IH.
Qed.

Lemma profile_floor_invariant_witness :
  (0 <= _min_instances (example_profile 3))%Z /\
  (min_instances (example_profile 3) = _min_instances (example_profile 3) \/
   (min_instances (example_profile 3) = 1 /\ _min_instances (example_profile 3) = 0)%Z).
Proof.
  apply (profile_floor_invariant (example_profile 3)).
  apply constructed_init.
Defined.

(** ** Dicts and sets: the laws the proofs below use *)

Lemma dict_get_set_same {V : Type} k (v : V) d :
  dict_get k (dict_set k v d) = Some v.
Proof.
  induction d as [|[k' v'] d IH]; cbn.
  - now rewrite String.eqb_refl.
  - destruct (String.eqb k k') eqn:E; cbn; rewrite E; [reflexivity | exact IH].
Qed.

Lemma dict_get_set_other {V : Type} k k' (v : V) d :
  k' <> k -> dict_get k' (dict_set k v d) = dict_get k' d.
Proof.
  intros Hne. induction d as [|[k0 v0] d IH]; cbn.
  - destruct (String.eqb_spec k' k); [contradiction | reflexivity].
  - destruct (String.eqb_spec k k0) as [->|Hk]; cbn.
    + destruct (String.eqb_spec k' k0); [contradiction | reflexivity].
    + destruct (String.eqb_spec k' k0); [reflexivity | exact IH].
Qed.

Lemma dict_get_pop_other {V : Type} k k' (d : dict V) :
  k' <> k -> dict_get k' (dict_pop k d) = dict_get k' d.
Proof.
  intros Hne. induction d as [|[k0 v0] d IH]; cbn; [reflexivity|].
  destruct (String.eqb_spec k k0) as [->|Hk]; cbn.
  - destruct (String.eqb_spec k' k0); [contradiction | reflexivity].
  - destruct (String.eqb_spec k' k0); [reflexivity | exact IH].
Qed.

Lemma dict_get_None {V : Type} k (d : dict V) :
  ~ In k (dict_keys d) -> dict_get k d = None.
Proof.
  induction d as [|[k0 v0] d IH]; cbn; [reflexivity|].
  intros H. destruct (String.eqb_spec k k0) as [->|Hk].
  - exfalso. apply H. now left.
  - apply IH. intros Hin. apply H. now right.
Qed.

Lemma dict_get_In {V : Type} k (d : dict V) v :
  dict_get k d = Some v -> In k (dict_keys d).
Proof.
  induction d as [|[k0 v0] d IH]; cbn; [discriminate|].
  destruct (String.eqb_spec k k0) as [->|Hk]; [now left | right; auto].
Qed.

Lemma dict_get_pop_same {V : Type} k (d : dict V) :
  NoDup (dict_keys d) -> dict_get k (dict_pop k d) = None.
Proof.
  induction d as [|[k0 v0] d IH]; cbn; [reflexivity|].
  intros H. inversion H as [|? ? Hn Hd]; subst.
  destruct (String.eqb_spec k k0) as [->|Hk]; cbn.
  - now apply dict_get_None.
  - destruct (String.eqb_spec k k0); [contradiction | now apply IH].
Qed.

Lemma dict_keys_set {V : Type} k (v : V) d :
  In k (dict_keys d) -> dict_keys (dict_set k v d) = dict_keys d.
Proof.
  unfold dict_keys. induction d as [|[k0 v0] d IH]; cbn; [contradiction|].
  intros [->|H].
  - now rewrite String.eqb_refl.
  - destruct (String.eqb_spec k k0); cbn; [reflexivity | now rewrite IH].
Qed.

Lemma dict_keys_pop_incl {V : Type} k (d : dict V) x :
  In x (dict_keys (dict_pop k d)) -> In x (dict_keys d).
Proof.
  unfold dict_keys. induction d as [|[k0 v0] d IH]; cbn; [auto|].
  destruct (String.eqb_spec k k0); cbn; [now right|].
  intros [H|H]; [now left | right; auto].
Qed.

Lemma dict_pop_NoDup {V : Type} k (d : dict V) :
  NoDup (dict_keys d) -> NoDup (dict_keys (dict_pop k d)).
Proof.
  induction d as [|[k0 v0] d IH]; cbn; [auto|].
  intros H. inversion H as [|? ? Hn Hd]; subst.
  destruct (String.eqb_spec k k0); cbn; [exact Hd|].
  constructor; [|now apply IH].
  intros Hin. apply Hn. eapply dict_keys_pop_incl. exact Hin.
Qed.

Lemma dict_mem_pop_other {V : Type} k k' (d : dict V) :
  k' <> k -> dict_mem k' (dict_pop k d) = dict_mem k' d.
Proof. intros H. unfold dict_mem. now rewrite dict_get_pop_other. Qed.

Lemma dict_mem_pop_same {V : Type} k (d : dict V) :
  NoDup (dict_keys d) -> dict_mem k (dict_pop k d) = false.
Proof. intros H. unfold dict_mem. now rewrite dict_get_pop_same. Qed.

Lemma dict_mem_In {V : Type} k (d : dict V) :
  dict_mem k d = true <-> In k (dict_keys d).
Proof.
  unfold dict_mem. split.
  - destruct (dict_get k d) eqn:E; [|discriminate]. intros _. eapply dict_get_In; eauto.
  - intros H. destruct (dict_get k d) eqn:E; [reflexivity|].
    exfalso. revert H E. induction d as [|[k0 v0] d IH]; cbn; [contradiction|].
    intros [->|H]; [now rewrite String.eqb_refl|].
    destruct (String.eqb k k0); [discriminate | auto].
Qed.

Lemma str_mem_In s l : str_mem s l = true <-> In s l.
Proof.
  unfold str_mem. rewrite existsb_exists. split.
  - intros (x & Hx & E). apply String.eqb_eq in E. now subst.
  - intros H. exists s. split; [exact H | apply String.eqb_refl].
Qed.

Lemma str_mem_add_same x s : str_mem x (set_add x s) = true.
Proof.
  unfold set_add. destruct (str_mem x s) eqn:E; [exact E|].
  apply str_mem_In, in_or_app. right. now left.
Qed.

Lemma str_mem_add_other x y s : y <> x -> str_mem y (set_add x s) = str_mem y s.
Proof.
  intros Hne. unfold set_add. destruct (str_mem x s); [reflexivity|].
  unfold str_mem. rewrite existsb_app. cbn.
  destruct (String.eqb_spec y x); [contradiction|]. now rewrite !orb_false_r.
Qed.

Lemma str_mem_discard_same x s : str_mem x (set_discard x s) = false.
Proof.
  unfold set_discard, str_mem. induction s as [|y s IH]; cbn; [reflexivity|].
  destruct (String.eqb x y) eqn:E; cbn; [exact IH|]. now rewrite E.
Qed.

Lemma str_mem_discard_other x y s :
  y <> x -> str_mem y (set_discard x s) = str_mem y s.
Proof.
  intros Hne. unfold set_discard, str_mem. induction s as [|z s IH]; cbn; [reflexivity|].
  destruct (String.eqb_spec x z) as [->|Hz]; cbn.
  - destruct (String.eqb_spec y z); [contradiction | exact IH].
  - now rewrite IH.
Qed.

(** ** class Pool *)

(** X7.  [Pool.finish] waits for the futures in the order they were
    submitted.  If it returns, every job returned and [self.futures] is
    empty; if it raises, it re-raises the exception of the first job that
    failed, and the futures submitted after that one are still in
    [self.futures], not waited for. *)
Theorem Pool_finish_outcome (futures : list future) :
  match Pool_finish futures with
  | (Ok _, rest) =>
      rest = [] /\ Forall (fun f => f = Ok tt) futures
  | (Raise e, rest) =>
      exists waited,
        futures = waited ++ Raise e :: rest /\
        Forall (fun f => f = Ok tt) waited
  end.
Proof.
  induction futures as [|[[]|e] fs IH]; cbn.
  - split; [reflexivity | constructor].
  - destruct (Pool_finish fs) as [[[]|e] rest].
    + destruct IH as [-> H]. split; [reflexivity | now constructor].
    + destruct IH as (w & -> & H). exists (Ok tt :: w). split; [reflexivity | now constructor].
  - exists []. split; [reflexivity | constructor].
Qed.

(** ** ScalerServer.handle_service_error *)

Lemma prune_all ts clock i :
  (forall t j, In t ts -> t >= clock j - ERROR_EXPIRY_TIME) ->
  prune ts clock i = ts.
Proof.
  revert i. induction ts as [|t ts IH]; intros i H; cbn; [reflexivity|].
  destruct (Rge_dec t (clock i - ERROR_EXPIRY_TIME)) as [_|Hn].
  - f_equal. apply IH. intros t' j Hin. apply H. now right.
  - exfalso. apply Hn. apply H. now left.
Qed.

Lemma handle_errors_unseen calls : forall self,
  error_count self = [] ->
  handle_service_errors self calls = (map (fun _ => Raise KeyError) calls, self).
Proof.
  induction calls as [|[n c] calls IH]; intros self H; [reflexivity|].
  cbn [handle_service_errors map]. unfold handle_service_error.
  rewrite H. cbn [dict_get]. rewrite (IH self H). reflexivity.
Qed.

(** X8.  [self.error_count] starts as an empty plain dict and only
    [handle_service_error] writes to it, after it has read
    [self.error_count[service_name]]: on a server that starts from
    [__init__], every call of [handle_service_error], for any service and at
    any time, raises [KeyError], records nothing and disables nothing. *)
Theorem handle_service_error_never_counts (calls : list (string * (nat -> R))) :
  handle_service_errors ErrorState_init calls =
  (map (fun _ => Raise KeyError) calls, ErrorState_init).
Proof. apply handle_errors_unseen. reflexivity. Qed.

(** A report on a service that has a window. *)
Lemma handle_service_error_returns (self : ErrorState) (service_name : string)
    (clock : nat -> R) (ts : list R) :
  NoDup (dict_keys (error_count self)) ->
  dict_get service_name (error_count self) = Some ts ->
  exists self',
    handle_service_error self service_name clock = (Ok tt, self') /\
    ((dict_get service_name (error_count self') = None /\
      disabled self' = disabled self ++ [service_name] /\
      (5 <= List.length (prune (ts ++ [clock 0%nat]) clock 1))%nat) \/
     (dict_get service_name (error_count self') =
        Some (prune (ts ++ [clock 0%nat]) clock 1) /\
      disabled self' = disabled self /\
      (List.length (prune (ts ++ [clock 0%nat]) clock 1) < 5)%nat)) /\
    NoDup (dict_keys (error_count self')) /\
    (forall other, other <> service_name ->
       dict_get other (error_count self') = dict_get other (error_count self)).
Proof.
  intros Hnd Hget. unfold handle_service_error. rewrite Hget.
  set (kept := prune (ts ++ [clock 0%nat]) clock 1).
  assert (Hkeys : dict_keys (dict_set service_name kept (error_count self)) =
                  dict_keys (error_count self)).
  { apply dict_keys_set. eapply dict_get_In; eauto. }
  unfold MAXIMUM_SERVICE_ERRORS.
  destruct (Nat.leb_spec 5 (List.length kept)) as [Hle|Hlt];
    eexists; (split; [reflexivity|]); cbn [error_count disabled].
  - split; [left|split].
    + split; [|split; [reflexivity | exact Hle]].
      apply dict_get_pop_same. now rewrite Hkeys.
    + apply dict_pop_NoDup. now rewrite Hkeys.
    + intros other Hne. rewrite dict_get_pop_other, dict_get_set_other; auto.
  - split; [right|split].
    + split; [apply dict_get_set_same | split; [reflexivity | exact Hlt]].
    + now rewrite Hkeys.
    + intros other Hne. now apply dict_get_set_other.
Qed.

(** X9.  When the service does have a window in [self.error_count], a call
    of [handle_service_error] returns; afterwards either the window is gone
    and exactly one disabling update was sent (this happens when five or
    more time stamps survive the pruning), or the window holds the
    surviving time stamps, fewer than five, and nothing was sent.  The
    windows of the other services are untouched. *)
Theorem handle_service_error_window (self : ErrorState) (service_name : string)
    (clock : nat -> R) (ts : list R) :
  NoDup (dict_keys (error_count self)) ->
  dict_get service_name (error_count self) = Some ts ->
  exists self',
    handle_service_error self service_name clock = (Ok tt, self') /\
    ((dict_get service_name (error_count self') = None /\
      disabled self' = disabled self ++ [service_name] /\
      (5 <= List.length (prune (ts ++ [clock 0%nat]) clock 1))%nat) \/
     (dict_get service_name (error_count self') =
        Some (prune (ts ++ [clock 0%nat]) clock 1) /\
      disabled self' = disabled self /\
      (List.length (prune (ts ++ [clock 0%nat]) clock 1) < 5)%nat)) /\
    NoDup (dict_keys (error_count self')) /\
    (forall other, other <> service_name ->
       dict_get other (error_count self') = dict_get other (error_count self)).
Proof. apply handle_service_error_returns. Qed.

Lemma handle_service_error_window_witness :
  exists self',
    handle_service_error (example_errors example_stamps) "svc" (example_clock 4) =
      (Ok tt, self') /\
    ((dict_get "svc" (error_count self') = None /\
      disabled self' = disabled (example_errors example_stamps) ++ ["svc"%string] /\
      (5 <= List.length
              (prune (example_stamps ++ [example_clock 4 0%nat]) (example_clock 4) 1))%nat) \/
     (dict_get "svc" (error_count self') =
        Some (prune (example_stamps ++ [example_clock 4 0%nat]) (example_clock 4) 1) /\
      disabled self' = disabled (example_errors example_stamps) /\
      (List.length
         (prune (example_stamps ++ [example_clock 4 0%nat]) (example_clock 4) 1) < 5)%nat)) /\
    NoDup (dict_keys (error_count self')) /\
    (forall other, other <> "svc"%string ->
       dict_get other (error_count self') =
       dict_get other (error_count (example_errors example_stamps))).
Proof.
  apply (handle_service_error_window (example_errors example_stamps) "svc"
           (example_clock 4) example_stamps).
  - cbn. constructor; [intros [] | constructor].
  - reflexivity.
Defined.

(** A report inside the expiry window keeps the whole window. *)
Lemma handle_service_error_in_window self service_name clock ts T :
  NoDup (dict_keys (error_count self)) ->
  dict_get service_name (error_count self) = Some ts ->
  (forall t, In t ts -> T <= t) ->
  (forall i, T <= clock i <= T + ERROR_EXPIRY_TIME) ->
  exists self',
    handle_service_error self service_name clock = (Ok tt, self') /\
    NoDup (dict_keys (error_count self')) /\
    (forall t, In t (ts ++ [clock 0%nat]) -> T <= t) /\
    (if (5 <=? List.length (ts ++ [clock 0%nat]))%nat
     then dict_get service_name (error_count self') = None /\
          disabled self' = disabled self ++ [service_name]
     else dict_get service_name (error_count self') = Some (ts ++ [clock 0%nat]) /\
          disabled self' = disabled self).
Proof.
  intros Hnd Hget Hts Hclock.
  assert (Hall : forall t, In t (ts ++ [clock 0%nat]) -> T <= t).
  { intros t Hin. apply in_app_or in Hin as [Hin|[<-|[]]]; [auto | apply Hclock]. }
  assert (Hp : prune (ts ++ [clock 0%nat]) clock 1 = ts ++ [clock 0%nat]).
  { apply prune_all. intros t j Hin. specialize (Hall t Hin).
    specialize (Hclock j). lra. }
  destruct (handle_service_error_returns self service_name clock ts Hnd Hget)
    as (self' & E & Hcase & Hnd' & _).
  exists self'. split; [exact E|]. split; [exact Hnd'|]. split; [exact Hall|].
  rewrite Hp in Hcase.
  destruct (Nat.leb_spec 5 (List.length (ts ++ [clock 0%nat]))) as [Hle|Hlt];
    destruct Hcase as [(H1 & H2 & H3)|(H1 & H2 & H3)]; try lia; auto.
Qed.

(** X10.  If a window for the service exists and is empty, five reports
    whose clock readings all lie within one expiry window return, the fifth
    sends the one disabling update and deletes the window; a sixth report
    then finds no window and raises [KeyError]. *)
Theorem five_errors_disable_once (self : ErrorState) (service_name : string)
    (c1 c2 c3 c4 c5 c6 : nat -> R) (T : R) :
  NoDup (dict_keys (error_count self)) ->
  dict_get service_name (error_count self) = Some [] ->
  (forall c i, In c [c1; c2; c3; c4; c5] -> T <= c i <= T + ERROR_EXPIRY_TIME) ->
  exists self',
    handle_service_errors self
      (map (pair service_name) [c1; c2; c3; c4; c5; c6]) =
    ([Ok tt; Ok tt; Ok tt; Ok tt; Ok tt; Raise KeyError], self') /\
    disabled self' = disabled self ++ [service_name] /\
    dict_get service_name (error_count self') = None.
Proof.
  intros Hnd Hget Hc.
  assert (H0 : forall t : R, In t [] -> T <= t) by (intros t []).
  destruct (handle_service_error_in_window self service_name c1 [] T Hnd Hget H0)
    as (s1 & E1 & Hnd1 & Hin1 & Hg1 & Hd1); [intros i; apply Hc; cbn; auto|].
  cbn [app List.length Nat.leb] in Hg1, Hd1, Hin1.
  destruct (handle_service_error_in_window s1 service_name c2 _ T Hnd1 Hg1 Hin1)
    as (s2 & E2 & Hnd2 & Hin2 & Hg2 & Hd2); [intros i; apply Hc; cbn; auto|].
  cbn [app List.length Nat.leb] in Hg2, Hd2, Hin2.
  destruct (handle_service_error_in_window s2 service_name c3 _ T Hnd2 Hg2 Hin2)
    as (s3 & E3 & Hnd3 & Hin3 & Hg3 & Hd3); [intros i; apply Hc; cbn; auto|].
  cbn [app List.length Nat.leb] in Hg3, Hd3, Hin3.
  destruct (handle_service_error_in_window s3 service_name c4 _ T Hnd3 Hg3 Hin3)
    as (s4 & E4 & Hnd4 & Hin4 & Hg4 & Hd4); [intros i; apply Hc; cbn; auto 6|].
  cbn [app List.length Nat.leb] in Hg4, Hd4, Hin4.
  destruct (handle_service_error_in_window s4 service_name c5 _ T Hnd4 Hg4 Hin4)
    as (s5 & E5 & Hnd5 & Hin5 & Hg5 & Hd5); [intros i; apply Hc; cbn; auto 7|].
  cbn [app List.length Nat.leb] in Hg5, Hd5, Hin5.
  exists s5. cbn [map handle_service_errors].
  rewrite E1, E2, E3, E4, E5.
  assert (E6 : handle_service_error s5 service_name c6 = (Raise KeyError, s5))
    by (unfold handle_service_error; now rewrite Hg5).
  rewrite E6.
  split; [reflexivity|]. split; [|exact Hg5].
  rewrite Hd5, Hd4, Hd3, Hd2, Hd1. reflexivity.
Qed.

Lemma five_errors_disable_once_witness :
  exists self',
    handle_service_errors (example_errors [])
      (map (pair "svc"%string)
         [example_clock 1; example_clock 2; example_clock 3; example_clock 4;
          example_clock 5; example_clock 6]) =
    ([Ok tt; Ok tt; Ok tt; Ok tt; Ok tt; Raise KeyError], self') /\
    disabled self' = disabled (example_errors []) ++ ["svc"%string] /\
    dict_get "svc" (error_count self') = None.
Proof.
  apply (five_errors_disable_once (example_errors []) "svc"
           (example_clock 1) (example_clock 2) (example_clock 3) (example_clock 4)
           (example_clock 5) (example_clock 6) 0).
  - cbn. constructor; [intros [] | constructor].
  - reflexivity.
  - unfold ERROR_EXPIRY_TIME, example_clock.
    intros c i [<-|[<-|[<-|[<-|[<-|[]]]]]]; lra.
Defined.

(** ** ScalerServer.flush_service_status *)

Lemma flush_visit_other {V : Type} names (st : FlushState V) x h :
  x <> h ->
  dict_mem h (status_table (flush_visit names st x)) = dict_mem h (status_table st) /\
  str_mem h (bad_containers (flush_visit names st x)) = str_mem h (bad_containers st).
Proof.
  intros Hne. unfold flush_visit.
  destruct (str_mem x names); [split; reflexivity|].
  destruct (str_mem x (bad_containers st)); cbn.
  - split; [apply dict_mem_pop_other | apply str_mem_discard_other]; congruence.
  - split; [reflexivity | apply str_mem_add_other; congruence].
Qed.

Lemma flush_visit_NoDup {V : Type} names (st : FlushState V) x :
  NoDup (dict_keys (status_table st)) ->
  NoDup (dict_keys (status_table (flush_visit names st x))).
Proof.
  intros H. unfold flush_visit.
  destruct (str_mem x names); [exact H|].
  destruct (str_mem x (bad_containers st)); cbn; [now apply dict_pop_NoDup | exact H].
Qed.

Lemma flush_fold_other {V : Type} names keys h : forall st : FlushState V,
  ~ In h keys ->
  dict_mem h (status_table (fold_left (flush_visit names) keys st)) =
    dict_mem h (status_table st) /\
  str_mem h (bad_containers (fold_left (flush_visit names) keys st)) =
    str_mem h (bad_containers st).
Proof.
  induction keys as [|x keys IH]; intros st Hn; [split; reflexivity|].
  cbn [fold_left].
  destruct (IH (flush_visit names st x)) as [H1 H2]; [intros H; apply Hn; now right|].
  destruct (flush_visit_other names st x h) as [H3 H4]; [intros ->; apply Hn; now left|].
  split; congruence.
Qed.

Lemma flush_fold_NoDup {V : Type} names keys : forall st : FlushState V,
  NoDup (dict_keys (status_table st)) ->
  NoDup (dict_keys (status_table (fold_left (flush_visit names) keys st))).
Proof.
  induction keys as [|x keys IH]; intros st H; [exact H|].
  cbn [fold_left]. apply IH. now apply flush_visit_NoDup.
Qed.

(** Where a host stands after the visits of [ks]: only its own visit counts. *)
Lemma flush_fold_spec {V : Type} names ks h : forall st : FlushState V,
  NoDup ks -> NoDup (dict_keys (status_table st)) ->
  (In h ks /\ str_mem h names = false ->
   (str_mem h (bad_containers st) = true ->
    dict_mem h (status_table (fold_left (flush_visit names) ks st)) = false /\
    str_mem h (bad_containers (fold_left (flush_visit names) ks st)) = false) /\
   (str_mem h (bad_containers st) = false ->
    dict_mem h (status_table (fold_left (flush_visit names) ks st)) =
      dict_mem h (status_table st) /\
    str_mem h (bad_containers (fold_left (flush_visit names) ks st)) = true)) /\
  (~ In h ks \/ str_mem h names = true ->
   dict_mem h (status_table (fold_left (flush_visit names) ks st)) =
     dict_mem h (status_table st) /\
   str_mem h (bad_containers (fold_left (flush_visit names) ks st)) =
     str_mem h (bad_containers st)).
Proof.
  induction ks as [|x ks IH]; intros st Hks Hnd.
  - cbn [fold_left]. split; [intros [[] _] | intros _; split; reflexivity].
  - inversion Hks as [|? ? Hx Hks']; subst. cbn [fold_left].
    destruct (String.eqb_spec x h) as [->|Hne].
    + destruct (flush_fold_other names ks h (flush_visit names st h) Hx) as [H1 H2].
      rewrite H1, H2. clear H1 H2. unfold flush_visit. split.
      * intros [_ Hrun]. rewrite Hrun. split; intros Hb; rewrite Hb; cbn.
        -- split; [now apply dict_mem_pop_same | apply str_mem_discard_same].
        -- split; [reflexivity | apply str_mem_add_same].
      * intros [Hn | Hrun]; [exfalso; apply Hn; now left|].
        rewrite Hrun. split; reflexivity.
    + destruct (flush_visit_other names st x h Hne) as [H3 H4].
      destruct (IH (flush_visit names st x) Hks' (flush_visit_NoDup names st x Hnd))
        as [IH1 IH2].
      rewrite H3, H4 in *. split.
      * intros [[->|Hin] Hrun]; [contradiction|]. apply IH1. now split.
      * intros [Hn | Hrun]; apply IH2; [left; intros Hin; apply Hn; now right | now right].
Qed.

Lemma flush_pass {V : Type} names (st : FlushState V) h :
  NoDup (dict_keys (status_table st)) ->
  NoDup (dict_keys (status_table (flush_service_status names st))) /\
  (str_mem h names = true \/ dict_mem h (status_table st) = false ->
   dict_mem h (status_table (flush_service_status names st)) =
     dict_mem h (status_table st) /\
   str_mem h (bad_containers (flush_service_status names st)) =
     str_mem h (bad_containers st)) /\
  (str_mem h names = false -> dict_mem h (status_table st) = true ->
   str_mem h (bad_containers st) = false ->
   dict_mem h (status_table (flush_service_status names st)) = true /\
   str_mem h (bad_containers (flush_service_status names st)) = true) /\
  (str_mem h names = false -> dict_mem h (status_table st) = true ->
   str_mem h (bad_containers st) = true ->
   dict_mem h (status_table (flush_service_status names st)) = false /\
   str_mem h (bad_containers (flush_service_status names st)) = false).
Proof.
  intros Hnd. unfold flush_service_status.
  destruct (flush_fold_spec names (dict_keys (status_table st)) h st Hnd Hnd)
    as [Hat Hoff].
  split; [now apply flush_fold_NoDup|]. split; [|split].
  - intros [Hrun | Hout]; apply Hoff; [now right|].
    left. intros Hin. apply dict_mem_In in Hin. congruence.
  - intros Hrun Hin Hb. apply dict_mem_In in Hin.
    destruct (Hat (conj Hin Hrun)) as [_ H]. destruct (H Hb) as [H1 H2].
    split; [|exact H2]. rewrite H1. now apply dict_mem_In.
  - intros Hrun Hin Hb. apply dict_mem_In in Hin.
    destruct (Hat (conj Hin Hrun)) as [H _]. exact (H Hb).
Qed.

(** X11.  One pass of [flush_service_status] over a status table: a host
    that is among the running containers, or has no status entry, is left
    as it is (entry and mark); a host with a status entry that is not
    running and not yet marked keeps its entry and gets marked in
    [bad_containers]; a host with a status entry that is not running and
    already marked loses its entry and its mark. *)
Theorem flush_service_status_pass {V : Type} (names : list string)
    (st : FlushState V) (h : string) :
  NoDup (dict_keys (status_table st)) ->
  NoDup (dict_keys (status_table (flush_service_status names st))) /\
  (str_mem h names = true \/ dict_mem h (status_table st) = false ->
   dict_mem h (status_table (flush_service_status names st)) =
     dict_mem h (status_table st) /\
   str_mem h (bad_containers (flush_service_status names st)) =
     str_mem h (bad_containers st)) /\
  (str_mem h names = false -> dict_mem h (status_table st) = true ->
   str_mem h (bad_containers st) = false ->
   dict_mem h (status_table (flush_service_status names st)) = true /\
   str_mem h (bad_containers (flush_service_status names st)) = true) /\
  (str_mem h names = false -> dict_mem h (status_table st) = true ->
   str_mem h (bad_containers st) = true ->
   dict_mem h (status_table (flush_service_status names st)) = false /\
   str_mem h (bad_containers (flush_service_status names st)) = false).
Proof. exact (flush_pass names st h). Qed.

Lemma flush_service_status_pass_witness :
  let st := {| status_table := [("host1"%string, 1%Z); ("host2"%string, 2%Z)];
               bad_containers := ["host2"%string] |} in
  NoDup (dict_keys (status_table (flush_service_status ["host1"%string] st))) /\
  (str_mem "host2"%string ["host1"%string] = true \/ dict_mem "host2"%string (status_table st) = false ->
   dict_mem "host2"%string (status_table (flush_service_status ["host1"%string] st)) =
     dict_mem "host2"%string (status_table st) /\
   str_mem "host2"%string (bad_containers (flush_service_status ["host1"%string] st)) =
     str_mem "host2"%string (bad_containers st)) /\
  (str_mem "host2"%string ["host1"%string] = false -> dict_mem "host2"%string (status_table st) = true ->
   str_mem "host2"%string (bad_containers st) = false ->
   dict_mem "host2"%string (status_table (flush_service_status ["host1"%string] st)) = true /\
   str_mem "host2"%string (bad_containers (flush_service_status ["host1"%string] st)) = true) /\
  (str_mem "host2"%string ["host1"%string] = false -> dict_mem "host2"%string (status_table st) = true ->
   str_mem "host2"%string (bad_containers st) = true ->
   dict_mem "host2"%string (status_table (flush_service_status ["host1"%string] st)) = false /\
   str_mem "host2"%string (bad_containers (flush_service_status ["host1"%string] st)) = false).
Proof.
  apply (flush_service_status_pass ["host1"%string]
           {| status_table := [("host1"%string, 1%Z); ("host2"%string, 2%Z)];
              bad_containers := ["host2"%string] |} "host2"%string).
  cbn. repeat constructor; cbn; intuition discriminate.
Defined.

(** X12.  The two strikes need not be consecutive: a host found missing in
    one pass, found running in the next, and missing again in a third pass
    loses its status entry in that third pass; the mark of the first pass
    is not cleared when the container is seen running. *)
Theorem flush_service_status_mark_persists {V : Type}
    (names1 names2 names3 : list string) (st : FlushState V) (h : string) :
  NoDup (dict_keys (status_table st)) ->
  dict_mem h (status_table st) = true ->
  str_mem h (bad_containers st) = false ->
  str_mem h names1 = false ->
  str_mem h names2 = true ->
  str_mem h names3 = false ->
  dict_mem h (status_table (flush_service_status names1 st)) = true /\
  dict_mem h (status_table
                (flush_service_status names2 (flush_service_status names1 st))) = true /\
  dict_mem h (status_table
                (flush_service_status names3
                   (flush_service_status names2
                      (flush_service_status names1 st)))) = false.
Proof.
  intros Hnd Hin Hb H1 H2 H3.
  destruct (flush_pass names1 st h Hnd) as (Hnd1 & _ & Hmark & _).
  destruct (Hmark H1 Hin Hb) as [Hin1 Hb1].
  destruct (flush_pass names2 (flush_service_status names1 st) h Hnd1)
    as (Hnd2 & Hsame & _ & _).
  destruct (Hsame (or_introl H2)) as [Hin2 Hb2].
  rewrite Hin1 in Hin2. rewrite Hb1 in Hb2.
  destruct (flush_pass names3
              (flush_service_status names2 (flush_service_status names1 st)) h Hnd2)
    as (_ & _ & _ & Hdrop).
  destruct (Hdrop H3 Hin2 Hb2) as [Hout _].
  split; [exact Hin1|]. split; [exact Hin2 | exact Hout].
Qed.

Lemma flush_service_status_mark_persists_witness :
  let st := {| status_table := [("host1"%string, 1%Z)]; bad_containers := [] |} in
  dict_mem "host1"%string (status_table (flush_service_status [] st)) = true /\
  dict_mem "host1"%string (status_table
                (flush_service_status ["host1"%string] (flush_service_status [] st))) = true /\
  dict_mem "host1"%string (status_table
                (flush_service_status []
                   (flush_service_status ["host1"%string]
                      (flush_service_status [] st)))) = false.
Proof.
  apply (flush_service_status_mark_persists [] ["host1"%string] []
           {| status_table := [("host1"%string, 1%Z)]; bad_containers := [] |} "host1"%string);
    try reflexivity.
  cbn. repeat constructor; cbn; intuition discriminate.
Defined.

(** ** ScalerServer.process_timeouts *)

Lemma filter_in_filter (done : nat -> bool) (l : list nat) :
  filter (fun f => existsb (Nat.eqb f) (filter done l)) l = filter done l.
Proof.
  apply filter_ext_in. intros f Hin.
  destruct (done f) eqn:E.
  - apply existsb_exists. exists f. split; [|apply Nat.eqb_refl].
    apply filter_In. now split.
  - destruct (existsb _ _) eqn:Ex; [|reflexivity].
    apply existsb_exists in Ex as (x & Hx & Heq).
    apply Nat.eqb_eq in Heq. subst x. apply filter_In in Hx as [_ Hx]. congruence.
Qed.

Lemma process_timeouts_run_empty ticks : forall st,
  futures st = [] ->
  futures (process_timeouts_run ticks st) = [] /\
  logged (process_timeouts_run ticks st) = logged st /\
  List.length (submitted (process_timeouts_run ticks st)) =
    (List.length (submitted st) +
     List.length (filter (fun t => match tick_message t with
                                   | Some _ => true | None => false end) ticks))%nat.
Proof.
  unfold process_timeouts_run.
  induction ticks as [|t ticks IH]; intros st H.
  - cbn. split; [exact H|]. split; [reflexivity | lia].
  - cbn [fold_left filter].
    set (st1 := process_timeouts (tick_done t) (tick_exception t) (tick_message t) st).
    assert (H1 : futures st1 = []).
    { unfold st1, process_timeouts. rewrite H.
      destruct (tick_message t) as [[s c]|]; reflexivity. }
    assert (H2 : logged st1 = logged st).
    { unfold st1, process_timeouts. rewrite H.
      destruct (tick_message t) as [[s c]|]; cbn; apply app_nil_r. }
    destruct (IH st1 H1) as (F & L & S). split; [exact F|]. split; [congruence|].
    rewrite S. unfold st1, process_timeouts.
    destruct (tick_message t) as [[s c]|]; cbn [submitted List.length];
      [rewrite length_app; cbn; lia | lia].
Qed.

(** X13.  In [process_timeouts] the local list [futures] is only ever
    assigned a filtered copy of itself, and the filter keeps the futures
    that are done, not the pending ones; the future [pool.submit] returns
    is not kept.  So one iteration leaves in [futures] exactly the futures
    that were done, and on the running server, where the list starts empty,
    it is empty after every iteration: no exception of a
    [stop_container] job is ever looked at or logged, however many
    messages were submitted. *)
Theorem process_timeouts_forgets_futures :
  (forall done exception message st,
     futures (process_timeouts done exception message st) =
     filter done (futures st)) /\
  (forall ticks,
     futures (process_timeouts_run ticks TimeoutState_init) = [] /\
     logged (process_timeouts_run ticks TimeoutState_init) = [] /\
     List.length (submitted (process_timeouts_run ticks TimeoutState_init)) =
       List.length (filter (fun t => match tick_message t with
                                     | Some _ => true | None => false end) ticks)).
Proof.
  split.
  - intros done exception message st. unfold process_timeouts.
    destruct message as [[s c]|]; cbn [futures]; apply filter_in_filter.
  - intros ticks.
    destruct (process_timeouts_run_empty ticks TimeoutState_init eq_refl)
      as (F & L & S).
    split; [exact F|]. split; [exact L | exact S].
Qed.

(** ** ScalerServer.update_scaling *)

Lemma subscript_get {V : Type} (d : dict V) k v :
  dict_get k d = Some v -> subscript d k = Ok v.
Proof. unfold subscript. now intros ->. Qed.

Lemma dict_mem_get {V : Type} (d : dict V) k :
  dict_mem k d = true -> exists v, dict_get k d = Some v.
Proof. unfold dict_mem. destruct (dict_get k d) as [v|]; [eauto | discriminate]. Qed.

Lemma dict_mem_set {V : Type} (d : dict V) k k' v :
  dict_mem k d = true -> dict_mem k (dict_set k' v d) = true.
Proof.
  unfold dict_mem. intros H.
  destruct (String.eqb_spec k k') as [->|Hne].
  - now rewrite dict_get_set_same.
  - now rewrite dict_get_set_other.
Qed.

Lemma dict_keys_set_new {V : Type} k (v : V) d :
  ~ In k (dict_keys d) -> dict_keys (dict_set k v d) = dict_keys d ++ [k].
Proof.
  unfold dict_keys. induction d as [|[k0 v0] d IH]; cbn; [reflexivity|].
  intros Hn. destruct (String.eqb_spec k k0) as [->|Hk].
  - exfalso. apply Hn. now left.
  - cbn. f_equal. apply IH. intros Hin. apply Hn. now right.
Qed.

Lemma dict_set_NoDup {V : Type} k (v : V) d :
  NoDup (dict_keys d) -> NoDup (dict_keys (dict_set k v d)).
Proof.
  intros H. destruct (in_dec string_dec k (dict_keys d)) as [Hin|Hn].
  - now rewrite dict_keys_set.
  - rewrite dict_keys_set_new by exact Hn.
    apply NoDup_app; [exact H | repeat constructor; intros [] | ].
    intros x Hx [<-|[]]. contradiction.
Qed.

Lemma in_dict_keys {V : Type} (d : dict V) k v : In (k, v) d -> In k (dict_keys d).
Proof. intros H. unfold dict_keys. change k with (fst (k, v)). now apply in_map. Qed.

Lemma flat_map_eq_in {A B : Type} (f g : A -> list B) (l : list A) :
  (forall a, In a l -> f a = g a) -> flat_map f l = flat_map g l.
Proof.
  induction l as [|a l IH]; intros H; cbn; [reflexivity|].
  rewrite (H a) by now left. f_equal. apply IH. intros b Hb. apply H. now right.
Qed.

(** A loop over the profile table that retargets the profiles passing a
    test: where it leaves the targets, the calls and the controller. *)
Lemma adjust_loop {C : Type} `{Controller C}
    (f : Scaling C -> string * ServiceProfile -> result (Scaling C))
    (test : Z -> ServiceProfile -> bool) (value : ServiceProfile -> Z) :
  (forall st n p,
     f st (n, p) =
     bind (subscript (targets st) n) (fun t =>
       if test t p then Ok (retarget st n (value p)) else Ok st)) ->
  forall profiles st,
    NoDup (dict_keys profiles) ->
    (forall n, In n (dict_keys profiles) -> dict_mem n (targets st) = true) ->
    exists st',
      for_each f profiles st = Ok st' /\
      (forall n p t, In (n, p) profiles -> dict_get n (targets st) = Some t ->
         dict_get n (targets st') = Some (if test t p then value p else t)) /\
      (forall n, ~ In n (dict_keys profiles) ->
         dict_get n (targets st') = dict_get n (targets st)) /\
      (forall n, dict_mem n (targets st) = true -> dict_mem n (targets st') = true) /\
      calls st' = calls st ++ adjustments test value (targets st) profiles /\
      controller st' =
        set_targets (controller st) (adjustments test value (targets st) profiles).
Proof.
  intros Hf. induction profiles as [|[n p] profiles IH]; intros st Hnd Hall.
  - exists st. cbn. split; [reflexivity|]. split; [intros ? ? ? []|].
    split; [reflexivity|]. split; [auto|]. split; [now rewrite app_nil_r | reflexivity].
  - cbn in Hnd. inversion Hnd as [|? ? Hn Hnd']; subst.
    destruct (dict_mem_get (targets st) n) as [t Ht]; [apply Hall; now left|].
    cbn [for_each]. rewrite Hf, (subscript_get _ _ _ Ht). cbn [bind].
    set (st1 := if test t p then retarget st n (value p) else st).
    assert (E1 : (if test t p then Ok (retarget st n (value p)) else Ok st) = Ok st1)
      by (unfold st1; now destruct (test t p)).
    rewrite E1. cbn [bind].
    assert (Hother : forall m, m <> n -> dict_get m (targets st1) = dict_get m (targets st)).
    { intros m Hm. unfold st1. destruct (test t p); [|reflexivity].
      cbn [targets retarget]. now apply dict_get_set_other. }
    assert (Hsame : dict_get n (targets st1) = Some (if test t p then value p else t)).
    { unfold st1. destruct (test t p); [|exact Ht].
      cbn [targets retarget]. apply dict_get_set_same. }
    assert (Hmem : forall m, dict_mem m (targets st) = true -> dict_mem m (targets st1) = true).
    { intros m Hm. unfold st1. destruct (test t p); [|exact Hm].
      cbn [targets retarget]. now apply dict_mem_set. }
    destruct (IH st1 Hnd') as (st' & E & Hin & Hout & Hmem' & Hcalls & Hctl).
    { intros m Hm. apply Hmem, Hall. now right. }
    exists st'. split; [exact E|].
    assert (Hadj : adjustments test value (targets st1) profiles =
                   adjustments test value (targets st) profiles).
    { unfold adjustments. apply flat_map_eq_in. intros [m q] Hmq. cbn [fst snd].
      rewrite Hother; [reflexivity|].
      intros ->. apply Hn. eapply in_dict_keys. exact Hmq. }
    split; [|split; [|split; [|split]]].
    + intros m q tm [Heq|Hmq] Hm.
      * injection Heq as <- <-. rewrite Ht in Hm. injection Hm as <-.
        rewrite Hout; [exact Hsame | exact Hn].
      * assert (m <> n) as Hne.
        { intros ->. apply Hn. eapply in_dict_keys. exact Hmq. }
        apply (Hin m q tm Hmq). now rewrite Hother.
    + intros m Hm. rewrite Hout.
      * apply Hother. intros ->. apply Hm. now left.
      * intros Hin'. apply Hm. now right.
    + intros m Hm. now apply Hmem', Hmem.
    + rewrite Hcalls, Hadj. unfold adjustments at 2. cbn [flat_map fst snd].
      rewrite Ht. unfold st1.
      destruct (test t p); cbn [calls retarget]; [now rewrite <- app_assoc | reflexivity].
    + rewrite Hctl, Hadj. unfold adjustments at 2. cbn [flat_map fst snd].
      rewrite Ht. unfold st1, set_targets.
      destruct (test t p); cbn [controller retarget]; [|reflexivity].
      rewrite fold_left_app. reflexivity.
Qed.

Lemma adjust_release {C : Type} `{Controller C} (st : Scaling C) n p :
  scaling_release st (n, p) =
  bind (subscript (targets st) n) (fun t =>
    if t >? desired_instances p
    then Ok (retarget st n (desired_instances p)) else Ok st).
Proof. reflexivity. Qed.

Lemma adjust_floor {C : Type} `{Controller C} (st : Scaling C) n p :
  scaling_floor st (n, p) =
  bind (subscript (targets st) n) (fun t =>
    if t <? min_instances p
    then Ok (retarget st n (min_instances p)) else Ok st).
Proof. reflexivity. Qed.

Lemma release_loop {C : Type} `{Controller C} (profiles : dict ServiceProfile)
    (st : Scaling C) :
  NoDup (dict_keys profiles) ->
  (forall n, In n (dict_keys profiles) -> dict_mem n (targets st) = true) ->
  exists st',
    for_each scaling_release profiles st = Ok st' /\
    (forall n p t, In (n, p) profiles -> dict_get n (targets st) = Some t ->
       dict_get n (targets st') = Some (Z.min t (desired_instances p))) /\
    (forall n, ~ In n (dict_keys profiles) ->
       dict_get n (targets st') = dict_get n (targets st)) /\
    (forall n, dict_mem n (targets st) = true -> dict_mem n (targets st') = true) /\
    calls st' =
      calls st ++ adjustments (fun t p => t >? desired_instances p)
                    desired_instances (targets st) profiles /\
    controller st' =
      set_targets (controller st)
        (adjustments (fun t p => t >? desired_instances p)
           desired_instances (targets st) profiles).
Proof.
  intros Hnd Hall.
  destruct (adjust_loop scaling_release (fun t p => t >? desired_instances p)
              desired_instances adjust_release profiles st Hnd Hall)
    as (st' & E & Hin & Hout & Hmem & Hcalls & Hctl).
  exists st'. split; [exact E|]. split; [|auto].
  intros n p t Hnp Ht. rewrite (Hin n p t Hnp Ht). f_equal.
  destruct (Z.gtb_spec t (desired_instances p)); lia.
Qed.

Lemma floor_loop {C : Type} `{Controller C} (profiles : dict ServiceProfile)
    (st : Scaling C) :
  NoDup (dict_keys profiles) ->
  (forall n, In n (dict_keys profiles) -> dict_mem n (targets st) = true) ->
  exists st',
    for_each scaling_floor profiles st = Ok st' /\
    (forall n p t, In (n, p) profiles -> dict_get n (targets st) = Some t ->
       dict_get n (targets st') = Some (Z.max t (min_instances p))) /\
    (forall n, ~ In n (dict_keys profiles) ->
       dict_get n (targets st') = dict_get n (targets st)) /\
    (forall n, dict_mem n (targets st) = true -> dict_mem n (targets st') = true) /\
    calls st' =
      calls st ++ adjustments (fun t p => t <? min_instances p)
                    min_instances (targets st) profiles /\
    controller st' =
      set_targets (controller st)
        (adjustments (fun t p => t <? min_instances p)
           min_instances (targets st) profiles).
Proof.
  intros Hnd Hall.
  destruct (adjust_loop scaling_floor (fun t p => t <? min_instances p)
              min_instances adjust_floor profiles st Hnd Hall)
    as (st' & E & Hin & Hout & Hmem & Hcalls & Hctl).
  exists st'. split; [exact E|]. split; [|auto].
  intros n p t Hnp Ht. rewrite (Hin n p t Hnp Ht). f_equal.
  destruct (Z.ltb_spec t (min_instances p)); lia.
Qed.

(** X14.  Step 1 of [update_scaling] on a table whose names all have an
    entry in [targets]: the loop returns; the target of every profile
    becomes the smaller of its old target and its [desired_instances] (so no
    target goes up), the other entries of [targets] are untouched, and
    [set_target(name, desired_instances)] is handed to the pool for exactly
    the profiles whose target was above [desired_instances], in table
    order. *)
Theorem scaling_release_lowers {C : Type} `{Controller C}
    (profiles : dict ServiceProfile) (st : Scaling C) :
  NoDup (dict_keys profiles) ->
  (forall n, In n (dict_keys profiles) -> dict_mem n (targets st) = true) ->
  exists st',
    for_each scaling_release profiles st = Ok st' /\
    (forall n p t, In (n, p) profiles -> dict_get n (targets st) = Some t ->
       dict_get n (targets st') = Some (Z.min t (desired_instances p))) /\
    (forall n, ~ In n (dict_keys profiles) ->
       dict_get n (targets st') = dict_get n (targets st)) /\
    calls st' =
      calls st ++ adjustments (fun t p => t >? desired_instances p)
                    desired_instances (targets st) profiles.
Proof.
  intros Hnd Hall.
  destruct (release_loop profiles st Hnd Hall) as (st' & E & Hin & Hout & _ & Hc & _).
  exists st'. auto.
Qed.

Lemma scaling_release_lowers_witness :
  exists st',
    for_each scaling_release example_profiles example_scaling = Ok st' /\
    (forall n p t, In (n, p) example_profiles ->
       dict_get n (targets example_scaling) = Some t ->
       dict_get n (targets st') = Some (Z.min t (desired_instances p))) /\
    (forall n, ~ In n (dict_keys example_profiles) ->
       dict_get n (targets st') = dict_get n (targets example_scaling)) /\
    calls st' =
      calls example_scaling ++
      adjustments (fun t p => t >? desired_instances p)
        desired_instances (targets example_scaling) example_profiles.
Proof.
  apply (scaling_release_lowers example_profiles example_scaling).
  - cbn. repeat constructor; cbn; intuition discriminate.
  - cbn. intros n [<-|[<-|[]]]; reflexivity.
Defined.

(** X15.  Step 2 of [update_scaling]: the loop returns; the target of every
    profile becomes the larger of its old target and its [min_instances], so
    no entry of [targets] is reduced and an entry below [min_instances] is
    raised exactly to it; [set_target(name, min_instances)] is handed to the
    pool for exactly the profiles whose target was below [min_instances]. *)
Theorem scaling_floor_raises {C : Type} `{Controller C}
    (profiles : dict ServiceProfile) (st : Scaling C) :
  NoDup (dict_keys profiles) ->
  (forall n, In n (dict_keys profiles) -> dict_mem n (targets st) = true) ->
  exists st',
    for_each scaling_floor profiles st = Ok st' /\
    (forall n p t, In (n, p) profiles -> dict_get n (targets st) = Some t ->
       dict_get n (targets st') = Some (Z.max t (min_instances p))) /\
    (forall n, ~ In n (dict_keys profiles) ->
       dict_get n (targets st') = dict_get n (targets st)) /\
    (forall n t, dict_get n (targets st) = Some t ->
       exists t', dict_get n (targets st') = Some t' /\ (t <= t')%Z) /\
    calls st' =
      calls st ++ adjustments (fun t p => t <? min_instances p)
                    min_instances (targets st) profiles.
Proof.
  intros Hnd Hall.
  destruct (floor_loop profiles st Hnd Hall) as (st' & E & Hin & Hout & _ & Hc & _).
  exists st'. split; [exact E|]. split; [exact Hin|]. split; [exact Hout|].
  split; [|exact Hc].
  intros n t Ht.
  destruct (in_dec string_dec n (dict_keys profiles)) as [Hk|Hk].
  - unfold dict_keys in Hk. apply in_map_iff in Hk as ([n' p] & Heq & Hnp).
    cbn in Heq. subst n'.
    exists (Z.max t (min_instances p)). split; [now apply (Hin n p t) | lia].
  - exists t. split; [now rewrite Hout | lia].
Qed.

Lemma scaling_floor_raises_witness :
  exists st',
    for_each scaling_floor example_profiles example_scaling = Ok st' /\
    (forall n p t, In (n, p) example_profiles ->
       dict_get n (targets example_scaling) = Some t ->
       dict_get n (targets st') = Some (Z.max t (min_instances p))) /\
    (forall n, ~ In n (dict_keys example_profiles) ->
       dict_get n (targets st') = dict_get n (targets example_scaling)) /\
    (forall n t, dict_get n (targets example_scaling) = Some t ->
       exists t', dict_get n (targets st') = Some t' /\ (t <= t')%Z) /\
    calls st' =
      calls example_scaling ++
      adjustments (fun t p => t <? min_instances p)
        min_instances (targets example_scaling) example_profiles.
Proof.
  apply (scaling_floor_raises example_profiles example_scaling).
  - cbn. repeat constructor; cbn; intuition discriminate.
  - cbn. intros n [<-|[<-|[]]]; reflexivity.
Defined.

(** *** Step 3: the grant loop *)

Lemma insert_by_In key p l x : In x (insert_by key p l) <-> x = p \/ In x l.
Proof.
  induction l as [|q l IH]; cbn.
  - intuition.
  - destruct (key p <=? key q)%Z; cbn; rewrite ?IH; intuition.
Qed.

Lemma sort_by_In key l x : In x (sort_by key l) <-> In x l.
Proof.
  unfold sort_by. induction l as [|p l IH]; cbn; [tauto|].
  rewrite insert_by_In, IH. intuition.
Qed.

Lemma filter_raising_wants targets l :
  (forall p, In p l -> dict_mem (name p) targets = true) ->
  filter_raising (wants targets) l =
  Ok (filter (fun p => (desired_instances p >? target_of targets p)%Z) l).
Proof.
  induction l as [|p l IH]; intros Hall; [reflexivity|].
  cbn [filter_raising filter].
  destruct (dict_mem_get targets (name p)) as [t Ht]; [apply Hall; now left|].
  unfold wants at 1. rewrite (subscript_get _ _ _ Ht). cbn [bind].
  rewrite IH by (intros q Hq; apply Hall; now right). cbn [bind].
  unfold target_of. rewrite Ht. reflexivity.
Qed.

Lemma fits_le free_cpu free_memory p :
  fits free_cpu free_memory p = true ->
  cpu p <= free_cpu /\ IZR (ram p) <= free_memory.
Proof.
  unfold fits. destruct (Rle_dec _ _); [|discriminate].
  destruct (Rle_dec _ _); [auto | discriminate].
Qed.

Lemma target_of_set_same targets q v p :
  name p = name q -> target_of (dict_set (name q) v targets) p = v.
Proof. intros E. unfold target_of. rewrite E. now rewrite dict_get_set_same. Qed.

Lemma target_of_set_other targets q v p :
  name p <> name q -> target_of (dict_set (name q) v targets) p = target_of targets p.
Proof. intros E. unfold target_of. now rewrite dict_get_set_other. Qed.

Lemma Zsum_eq_in {A : Type} (f g : A -> Z) l :
  (forall a, In a l -> f a = g a) -> Zsum f l = Zsum g l.
Proof.
  induction l as [|a l IH]; intros H; cbn; [reflexivity|].
  rewrite (H a) by now left. f_equal. apply IH. intros b Hb. apply H. now right.
Qed.

Lemma in_names (P : list ServiceProfile) p n :
  In p P -> name p = n -> In n (map name P).
Proof. intros H <-. now apply in_map. Qed.

(** A sum over profiles with distinct names, when the summand changes at
    one name only. *)
Lemma Zsum_change (f f' : ServiceProfile -> Z) P q :
  NoDup (map name P) -> In q P ->
  (forall p, In p P -> name p <> name q -> f' p = f p) ->
  (Zsum f' P = Zsum f P + (f' q - f q))%Z.
Proof.
  induction P as [|a P IH]; intros Hnd Hin Hoth; [contradiction|].
  cbn in Hnd. inversion Hnd as [|? ? Ha Hnd']; subst. cbn [Zsum].
  destruct Hin as [->|Hin].
  - rewrite (Zsum_eq_in f' f P); [lia|].
    intros p Hp. apply Hoth; [now right|].
    intros E. apply Ha. eapply in_names; eauto.
  - rewrite (IH Hnd' Hin) by (intros p Hp; apply Hoth; now right).
    rewrite (Hoth a); [lia | now left |].
    intros E. apply Ha. eapply in_names; eauto.
Qed.

Lemma same_name_same P p q :
  NoDup (map name P) -> In p P -> In q P -> name p = name q -> p = q.
Proof.
  induction P as [|a P IH]; intros Hnd Hp Hq E; [contradiction|].
  cbn in Hnd. inversion Hnd as [|? ? Ha Hnd']; subst.
  destruct Hp as [->|Hp], Hq as [->|Hq]; auto.
  - exfalso. apply Ha. eapply in_names; eauto.
  - exfalso. apply Ha. eapply in_names; eauto.
Qed.

(** ** ScalerServer: error reports, the floor step, the timeout queue *)

Lemma handle_errors_no_window calls service_name : forall self,
  dict_get service_name (error_count self) = None ->
  Forall (fun call => fst call = service_name) calls ->
  handle_service_errors self calls = (map (fun _ => Raise KeyError) calls, self).
Proof.
  induction calls as [|[n c] calls IH]; intros self Hget Hall; [reflexivity|].
  inversion Hall as [|? ? Hn Hall']; subst. cbn [fst] in *.
  cbn [handle_service_errors map]. unfold handle_service_error.
  rewrite Hget. rewrite (IH self Hget Hall'). reflexivity.
Qed.

(** C2, as the code has it.  The claim does not hold of the code: when the
    server has no window for a service (as for every service after
    [__init__], which sets [error_count = {}]), a report raises [KeyError]
    at [self.error_count[service_name]] before anything is appended.  So
    any number of reports for that service, at any times, all raise, send
    no [enabled=False] update and leave [error_count] as it was: the
    service still has no window and the fifth report disables nothing. *)
Theorem handle_service_error_unseen_service (self : ErrorState)
    (service_name : string) (clocks : list (nat -> R)) :
  dict_get service_name (error_count self) = None ->
  handle_service_errors self (map (pair service_name) clocks) =
  (map (fun _ => Raise KeyError) clocks, self).
Proof.
  intros Hget.
  rewrite (handle_errors_no_window _ service_name self Hget).
  - rewrite map_map. reflexivity.
  - apply Forall_forall. intros call Hin.
    apply in_map_iff in Hin as (c & <- & _). reflexivity.
Qed.

(** Five reports within ten seconds on the server as [__init__] leaves it,
    and a sixth: six [KeyError]s, and no update sent. *)
Lemma handle_service_error_unseen_service_witness :
  handle_service_errors ErrorState_init
    (map (pair "svc"%string)
       [example_clock 1; example_clock 2; example_clock 3; example_clock 4;
        example_clock 5; example_clock 6]) =
  ([Raise KeyError; Raise KeyError; Raise KeyError; Raise KeyError;
    Raise KeyError; Raise KeyError],
   ErrorState_init) /\
  disabled ErrorState_init = [].
Proof.
  split; [|reflexivity].
  apply (handle_service_error_unseen_service ErrorState_init "svc"
           [example_clock 1; example_clock 2; example_clock 3; example_clock 4;
            example_clock 5; example_clock 6]).
  reflexivity.
Defined.

(** *** The targets a tick starts from *)

Lemma read_targets_fold {C : Type} `{Controller C} (c : C) (l : list ServiceProfile) :
  forall acc n,
    dict_mem n acc = true \/ In n (map name l) ->
    dict_mem n
      (fold_left (fun t _p => dict_set (name _p) (get_target c (name _p)) t) l acc)
    = true.
Proof.
  induction l as [|p l IH]; intros acc n Hn; cbn [fold_left].
  - destruct Hn as [Hn|[]]. exact Hn.
  - apply IH. destruct Hn as [Hn|[Hn|Hn]].
    + left. now apply dict_mem_set.
    + left. unfold dict_mem. rewrite <- Hn, dict_get_set_same. reflexivity.
    + now right.
Qed.

Lemma read_targets_mem {C : Type} `{Controller C} (c : C)
    (profiles : dict ServiceProfile) n :
  profiles_wf profiles -> In n (dict_keys profiles) ->
  dict_mem n (read_targets c profiles) = true.
Proof.
  intros [_ Hname] Hin. unfold read_targets. apply read_targets_fold. right.
  unfold dict_keys in Hin. apply in_map_iff in Hin as ([k p] & <- & Hkp).
  unfold dict_values. rewrite map_map. apply in_map_iff. exists (k, p).
  split; [|exact Hkp].
  rewrite Forall_forall in Hname. exact (Hname (k, p) Hkp).
Qed.

(** C7.  In a tick of [update_scaling] over a profile table (every profile
    under its own name), step 1 and step 2 return, and step 2 never reduces
    an entry of [targets]: every entry that step 1 left is, after step 2, at
    least what it was; the entry of a profile that was below the profile's
    [min_instances] is raised exactly to [min_instances], and the entry of a
    profile that was not below it is unchanged. *)
Theorem scaling_floor_never_reduces {C : Type} `{Controller C} (c : C)
    (profiles : dict ServiceProfile) :
  profiles_wf profiles ->
  exists st1 st2,
    for_each scaling_release profiles
      {| controller := c; targets := read_targets c profiles; calls := [] |}
      = Ok st1 /\
    for_each scaling_floor profiles st1 = Ok st2 /\
    (forall n t, dict_get n (targets st1) = Some t ->
       exists t', dict_get n (targets st2) = Some t' /\ (t <= t')%Z) /\
    (forall n p, In (n, p) profiles ->
       exists t, dict_get n (targets st1) = Some t /\
         ((t < min_instances p)%Z ->
          dict_get n (targets st2) = Some (min_instances p)) /\
         ((min_instances p <= t)%Z -> dict_get n (targets st2) = Some t)).
Proof.
  intros Hwf. pose proof Hwf as [Hnd _].
  destruct (release_loop profiles
              {| controller := c; targets := read_targets c profiles; calls := [] |}
              Hnd)
    as (st1 & E1 & _ & _ & Hmem1 & _).
  { intros n Hn. cbn [targets]. now apply read_targets_mem. }
  assert (Hall1 : forall n, In n (dict_keys profiles) -> dict_mem n (targets st1) = true).
  { intros n Hn. apply Hmem1. cbn [targets]. now apply read_targets_mem. }
  destruct (floor_loop profiles st1 Hnd Hall1) as (st2 & E2 & Hin & Hout & _).
  exists st1, st2. split; [exact E1|]. split; [exact E2|]. split.
  - intros n t Ht.
    destruct (in_dec string_dec n (dict_keys profiles)) as [Hk|Hk].
    + unfold dict_keys in Hk. apply in_map_iff in Hk as ([n' p] & Heq & Hnp).
      cbn in Heq. subst n'.
      exists (Z.max t (min_instances p)). split; [now apply (Hin n p t) | lia].
    + exists t. split; [now rewrite Hout | lia].
  - intros n p Hnp.
    destruct (dict_mem_get (targets st1) n) as [t Ht].
    { apply Hall1. eapply in_dict_keys. exact Hnp. }
    exists t. split; [exact Ht|]. split; intros Hlt;
      rewrite (Hin n p t Hnp Ht); f_equal; lia.
Qed.

(** The two services of the examples: step 1 brings ["a"] from 3 down to
    the 1 it wants, step 2 brings ["b"] from 0 up to its floor of 2. *)
Lemma scaling_floor_never_reduces_witness :
  exists st1 st2,
    for_each scaling_release example_profiles
      {| controller := example_cluster0;
         targets := read_targets example_cluster0 example_profiles;
         calls := [] |} = Ok st1 /\
    for_each scaling_floor example_profiles st1 = Ok st2 /\
    (forall n t, dict_get n (targets st1) = Some t ->
       exists t', dict_get n (targets st2) = Some t' /\ (t <= t')%Z) /\
    (forall n p, In (n, p) example_profiles ->
       exists t, dict_get n (targets st1) = Some t /\
         ((t < min_instances p)%Z ->
          dict_get n (targets st2) = Some (min_instances p)) /\
         ((min_instances p <= t)%Z -> dict_get n (targets st2) = Some t)).
Proof.
  apply (scaling_floor_never_reduces example_cluster0 example_profiles).
  split.
  - cbn. repeat constructor; cbn; intuition discriminate.
  - repeat constructor.
Defined.

(** *** The timeout queue *)

(** C4, as the code has it.  The claim does not hold of the code.  For a
    message [{service, container}] popped from the timeout queue, one call
    of [pool.submit] is made, and it is
    [submit(fn=self.controller.stop_container, args=(service, container))]:
    no positional argument, the method under the keyword [fn] and the pair
    under the keyword [args].  Under Python 3.9 and later this call raises
    [TypeError]; under earlier versions the job it schedules is
    [stop_container(args=(service, container))], with no positional
    argument.  So under no version is [stop_container(service, container)]
    scheduled; and the future is not kept in [futures], so the outcome of
    the job is never looked at. *)
Theorem process_timeouts_submits_keywords (done : nat -> bool)
    (exception : nat -> option exn) (service container : string)
    (st : TimeoutState) :
  let st' := process_timeouts done exception (Some (service, container)) st in
  exists call,
    submitted st' = submitted st ++ [call] /\
    positional call = [] /\
    keywords call =
      [("fn"%string, PyMethod "self.controller" "stop_container");
       ("args"%string, PyTuple [service; container])] /\
    Executor_submit From39 call = Raise TypeError /\
    Executor_submit UpTo38 call =
      Ok {| callee := PyMethod "self.controller" "stop_container";
            job_args := [];
            job_kwargs := [("args"%string, PyTuple [service; container])] |} /\
    (forall version,
       Executor_submit version call <> Ok (stop_container_job service container)) /\
    (forall _f, In _f (futures st') -> In _f (futures st)).
Proof.
  cbv zeta. unfold process_timeouts. eexists.
  split; [reflexivity|]. cbn [positional keywords submitted futures].
  split; [reflexivity|]. split; [reflexivity|].
  split; [reflexivity|]. split; [reflexivity|]. split.
  - intros [|]; cbn; discriminate.
  - intros _f Hin. apply filter_In in Hin. tauto.
Qed.

(** ** ScalerServer.sync_metrics *)

Lemma sync_metrics_update_calls r n p out calls :
  sync_metrics_update r n p = (out, calls) ->
  Forall (fun call => call_profile call = n /\ call_zero call = false) calls.
Proof.
  unfold sync_metrics_update.
  destruct (state_read r) as [[instances duty]|].
  - destruct (queue p); intros E; injection E as _ <-; repeat constructor.
  - intros E; injection E as _ <-. constructor.
Qed.

Lemma sync_metrics_zero_calls {C : Type} `{Controller C} (c : C) ei r n p out calls :
  sync_metrics_zero c ei r n p = (out, calls) ->
  (get_target c n = 0%Z /\ desired_instances p = 0%Z /\ queue p <> None /\
   calls = [zero_call ei r n p]) \/
  (~ (get_target c n = 0%Z /\ desired_instances p = 0%Z /\ queue p <> None) /\
   calls = [] /\ out = Returned p).
Proof.
  unfold sync_metrics_zero.
  destruct (Z.eqb_spec (get_target c n) 0) as [Ht|Ht]; cbn [andb].
  - destruct (Z.eqb_spec (desired_instances p) 0) as [Hd|Hd]; cbn [andb].
    + destruct (queue p) as [q|] eqn:Hq; cbn [queue_bool].
      * intros E; injection E as _ <-. left.
        repeat split; try assumption; discriminate.
      * intros E; injection E as <- <-. right. split; [|auto]. intros (_ & _ & Hn).
        now apply Hn.
    + intros E; injection E as <- <-. right. split; [|auto]. intros (_ & Hn & _).
      now apply Hd.
  - intros E; injection E as <- <-. right. split; [|auto]. intros (Hn & _).
    now apply Ht.
Qed.

(** One iteration that returns: the "zero instances" call is made exactly
    when its three conditions hold of the profile as the first block left
    it. *)
Lemma sync_metrics_profile_zero {C : Type} `{Controller C} (c : C) ei r n p out calls :
  sync_metrics_profile c ei r n p = (out, calls) ->
  Forall (fun call => call_profile call = n) calls /\
  ((exists p', out = Returned p') ->
   exists p1,
     fst (sync_metrics_update r n p) = Returned p1 /\
     ((exists call, In call calls /\ call_zero call = true) <->
      (get_target c n = 0%Z /\ desired_instances p1 = 0%Z /\ queue p1 <> None)) /\
     (forall call, In call calls -> call_zero call = true ->
        call = zero_call ei r n p1)).
Proof.
  unfold sync_metrics_profile.
  destruct (sync_metrics_update r n p) as [[p1|e p1] calls0] eqn:E0.
  - pose proof (sync_metrics_update_calls _ _ _ _ _ E0) as H0.
    destruct (sync_metrics_zero c ei r n p1) as [out1 calls1] eqn:E1.
    intros E; injection E as <- <-.
    pose proof (sync_metrics_zero_calls _ _ _ _ _ _ _ E1) as Hz.
    split.
    { apply Forall_app. split.
      - revert H0. apply Forall_impl. tauto.
      - destruct Hz as [(_ & _ & _ & ->)|(_ & -> & _)]; repeat constructor. }
    intros _. exists p1. split; [reflexivity|].
    rewrite Forall_forall in H0.
    destruct Hz as [(Ht & Hd & Hq & ->)|(Hn & -> & _)].
    + split; [split; [auto|]|].
      * intros _. exists (zero_call ei r n p1). split; [|reflexivity].
        apply in_or_app. right. now left.
      * intros call Hin Hzero. apply in_app_or in Hin as [Hin|[<-|[]]]; [|reflexivity].
        destruct (H0 call Hin) as [_ Hf]. congruence.
    + rewrite app_nil_r. split; [split|].
      * intros (call & Hin & Hzero). destruct (H0 call Hin) as [_ Hf]. congruence.
      * intros Hc. contradiction.
      * intros call Hin Hzero. destruct (H0 call Hin) as [_ Hf]. congruence.
  - intros E; injection E as <- <-. split.
    + pose proof (sync_metrics_update_calls _ _ _ _ _ E0) as H0.
      revert H0. apply Forall_impl. tauto.
    + intros [p' Hp']. discriminate.
Qed.

Lemma sync_metrics_profiles_calls {C : Type} `{Controller C} (c : C) ei reading
    profiles : forall r profiles' calls,
  sync_metrics_profiles c ei reading profiles = (r, profiles', calls) ->
  Forall (fun call => In (call_profile call) (dict_keys profiles)) calls.
Proof.
  induction profiles as [|[n p] rest IH]; intros r profiles' calls E.
  - cbn in E. injection E as _ _ <-. constructor.
  - cbn [sync_metrics_profiles] in E.
    destruct (sync_metrics_profile c ei (reading n) n p) as [[p'|e p'] calls0] eqn:E0.
    + destruct (sync_metrics_profiles c ei reading rest) as [[r1 rest'] calls1] eqn:E1.
      injection E as _ _ <-.
      apply sync_metrics_profile_zero in E0 as [H0 _].
      apply Forall_app. split.
      * revert H0. apply Forall_impl. intros call ->. now left.
      * specialize (IH _ _ _ eq_refl). revert IH. apply Forall_impl.
        intros call Hin. now right.
    + injection E as _ _ <-.
      apply sync_metrics_profile_zero in E0 as [H0 _].
      revert H0. apply Forall_impl. intros call ->. now left.
Qed.

(** C9, as amended.  Take a tick of [sync_metrics] whose loop over the
    profiles returns.  For every profile of the table, with [profile1] the
    profile as the first block of its iteration left it (after the update
    from the heartbeats, if there was one): the loop makes a call of the
    "zero instances" block on that profile exactly when the controller's
    target for it is 0, [desired_instances] is 0 and [profile.queue] is a
    queue object; and that call is [update(delta=export_interval,
    instances=0, backlog=queue_length, duty_cycle=target_duty_cycle)].
    Whether the queue holds any message plays no part. *)
Theorem sync_metrics_zero_update {C : Type} `{Controller C} (c : C)
    (export_interval : R) (reading : string -> metrics_reading)
    (profiles profiles' : dict ServiceProfile) (calls : list metrics_call) :
  NoDup (dict_keys profiles) ->
  sync_metrics_profiles c export_interval reading profiles = (Ok tt, profiles', calls) ->
  forall profile_name profile, In (profile_name, profile) profiles ->
    exists profile1,
      fst (sync_metrics_update (reading profile_name) profile_name profile)
        = Returned profile1 /\
      ((exists call, In call calls /\ call_profile call = profile_name /\
                     call_zero call = true) <->
       (get_target c profile_name = 0%Z /\ desired_instances profile1 = 0%Z /\
        queue profile1 <> None)) /\
      (forall call, In call calls -> call_profile call = profile_name ->
         call_zero call = true ->
         call = zero_call export_interval (reading profile_name) profile_name profile1).
Proof.
  revert profiles' calls.
  induction profiles as [|[n p] rest IH]; intros profiles' calls Hnd E m q Hin;
    [destruct Hin|].
  cbn in Hnd. inversion Hnd as [|? ? Hn Hnd']; subst.
  cbn [sync_metrics_profiles] in E.
  destruct (sync_metrics_profile c export_interval (reading n) n p)
    as [[p'|e p'] calls0] eqn:E0; [|discriminate].
  destruct (sync_metrics_profiles c export_interval reading rest)
    as [[r1 rest'] calls1] eqn:E1.
  injection E as -> _ <-.
  pose proof (sync_metrics_profiles_calls _ _ _ _ _ _ _ E1) as Hrest.
  rewrite Forall_forall in Hrest.
  destruct (sync_metrics_profile_zero _ _ _ _ _ _ _ E0) as [Hown Hbody].
  rewrite Forall_forall in Hown.
  destruct Hin as [Heq|Hin].
  - injection Heq as <- <-.
    destruct Hbody as (p1 & Ep1 & Hiff & Hargs); [eauto|].
    exists p1. split; [exact Ep1|]. split; [split|].
    + intros (call & Hc & Hname & Hzero). apply Hiff.
      apply in_app_or in Hc as [Hc|Hc]; [eauto|].
      exfalso. apply Hn. rewrite <- Hname. now apply Hrest.
    + intros Hcond. apply Hiff in Hcond as (call & Hc & Hzero).
      exists call. split; [apply in_or_app; now left|]. split; [now apply Hown | exact Hzero].
    + intros call Hc Hname Hzero.
      apply in_app_or in Hc as [Hc|Hc]; [now apply Hargs|].
      exfalso. apply Hn. rewrite <- Hname. now apply Hrest.
  - assert (m <> n) as Hne.
    { intros ->. apply Hn. eapply in_dict_keys. exact Hin. }
    destruct (IH rest' calls1 Hnd' eq_refl m q Hin) as (p1 & Ep1 & Hiff & Hargs).
    exists p1. split; [exact Ep1|]. split; [split|].
    + intros (call & Hc & Hname & Hzero). apply Hiff.
      apply in_app_or in Hc as [Hc|Hc]; [|eauto].
      exfalso. apply Hne. rewrite <- Hname. now apply Hown.
    + intros Hcond. apply Hiff in Hcond as (call & Hc & Hname & Hzero).
      exists call. split; [apply in_or_app; now right | auto].
    + intros call Hc Hname Hzero.
      apply in_app_or in Hc as [Hc|Hc]; [|now apply Hargs].
      exfalso. apply Hne. rewrite <- Hname. now apply Hown.
Qed.

(** The quiet tick on the service at zero: the loop returns, having made
    one call, that of the "zero instances" block, with [backlog=0]. *)
Lemma example_quiet_tick :
  exists profile',
    sync_metrics_profiles example_idle_cluster 60 example_quiet_reading
      [("svc"%string, example_queued)]
    = (Ok tt, [("svc"%string, profile')], example_quiet_calls).
Proof.
  unfold sync_metrics_profiles, sync_metrics_profile, sync_metrics_update.
  cbn [example_quiet_reading state_read].
  unfold sync_metrics_zero.
  change ((get_target example_idle_cluster "svc" =? 0)%Z &&
          (desired_instances example_queued =? 0)%Z &&
          queue_bool (queue example_queued)) with true.
  cbv iota.
  rewrite update_eval; [ | cbn; lia | cbn; lra | cbn; lra ].
  cbv iota beta zeta. cbn [app].
  eexists. reflexivity.
Qed.

Lemma sync_metrics_zero_update_witness :
  exists profile1,
    fst (sync_metrics_update (example_quiet_reading "svc") "svc" example_queued)
      = Returned profile1 /\
    ((exists call, In call example_quiet_calls /\ call_profile call = "svc"%string /\
                   call_zero call = true) <->
     (get_target example_idle_cluster "svc" = 0%Z /\
      desired_instances profile1 = 0%Z /\ queue profile1 <> None)) /\
    (forall call, In call example_quiet_calls -> call_profile call = "svc"%string ->
       call_zero call = true ->
       call = zero_call 60 (example_quiet_reading "svc") "svc" profile1).
Proof.
  destruct example_quiet_tick as [profile' E].
  apply (sync_metrics_zero_update example_idle_cluster 60 example_quiet_reading
           [("svc"%string, example_queued)] [("svc"%string, profile')]
           example_quiet_calls).
  - cbn. repeat constructor. intros [].
  - exact E.
  - now left.
Defined.

(** C9 as stated fails for an empty queue: the service ["svc"] has a queue
    object, the controller's target for it is 0 and so is its
    [desired_instances]; in a tick with no heartbeat in which
    [queue.length()] answers 0, the loop still calls
    [update(delta=60, instances=0, backlog=0, duty_cycle=0.9)] on it. *)
Lemma sync_metrics_empty_queue_counterexample :
  get_target example_idle_cluster "svc" = 0%Z /\
  desired_instances example_queued = 0%Z /\
  length_second (example_quiet_reading "svc") = 0%Z /\
  exists profile',
    sync_metrics_profiles example_idle_cluster 60 example_quiet_reading
      [("svc"%string, example_queued)]
    = (Ok tt, [("svc"%string, profile')],
       [{| call_profile := "svc"; call_zero := true;
           call_arguments :=
             {| call_now := 60; call_delta := 60; call_instances := 0;
                call_backlog := 0; call_duty_cycle := 9 / 10 |} |}]).
Proof.
  split; [reflexivity|]. split; [reflexivity|]. split; [reflexivity|].
  exact example_quiet_tick.
Qed.

(** ** ScalerServer.sync_services *)

Lemma dict_keys_set_incl {V : Type} k (v : V) d x :
  In x (dict_keys (dict_set k v d)) -> x = k \/ In x (dict_keys d).
Proof.
  destruct (in_dec string_dec k (dict_keys d)) as [Hin|Hn].
  - rewrite dict_keys_set by exact Hin. now right.
  - rewrite dict_keys_set_new by exact Hn. intros H.
    apply in_app_or in H as [H|[<-|[]]]; auto.
Qed.

Lemma dict_get_not_In {V : Type} k (d : dict V) :
  dict_get k d = None -> ~ In k (dict_keys d).
Proof.
  intros H Hin. apply dict_mem_In in Hin. unfold dict_mem in Hin.
  rewrite H in Hin. discriminate.
Qed.

Section Strays.
Context {C : Type} `{Controller C} `{Deployer C}.
Implicit Types (self : Server C) (n k : string).

Lemma stop_service_keys self k stage x :
  In x (dict_keys (server_profiles (stop_service self k stage))) ->
  In x (dict_keys (server_profiles self)).
Proof.
  unfold stop_service.
  destruct (ServiceStage_eqb stage Off); cbn [server_profiles server_controller];
    destruct (_ || _); cbn [server_profiles]; intros Hx; try exact Hx;
    eapply dict_keys_pop_incl; exact Hx.
Qed.

Lemma stop_service_NoDup self k stage :
  NoDup (dict_keys (server_profiles self)) ->
  NoDup (dict_keys (server_profiles (stop_service self k stage))).
Proof.
  unfold stop_service.
  destruct (ServiceStage_eqb stage Off); cbn [server_profiles server_controller];
    destruct (_ || _); cbn [server_profiles]; intros Hnd; try exact Hnd;
    apply dict_pop_NoDup; exact Hnd.
Qed.

Lemma stop_service_drops self k stage :
  NoDup (dict_keys (server_profiles self)) ->
  ~ In k (dict_keys (server_profiles (stop_service self k stage))).
Proof.
  intros Hnd.
  destruct (in_dec string_dec k (dict_keys (server_profiles self))) as [Hin|Hn].
  - apply dict_mem_In in Hin. unfold stop_service.
    destruct (ServiceStage_eqb stage Off); cbn [server_profiles server_controller];
      rewrite Hin; cbn [orb server_profiles];
      apply dict_get_not_In, dict_get_pop_same; exact Hnd.
  - intros Hin. apply Hn. eapply stop_service_keys. exact Hin.
Qed.

Lemma stop_service_stage_other self k stage n :
  get_service_stage self n = Off ->
  get_service_stage (stop_service self k stage) n = Off.
Proof.
  unfold stop_service, get_service_stage.
  destruct (ServiceStage_eqb stage Off); cbn [server_profiles server_controller];
    destruct (_ || _); cbn [service_stage_hash]; auto;
    intros Hn; (destruct (string_dec n k) as [->|Hne];
                [now rewrite dict_get_set_same
                | now rewrite dict_get_set_other]).
Qed.

Lemma stop_service_stage_self self k :
  get_service_stage (stop_service self k (get_service_stage self k)) k = Off.
Proof.
  destruct (get_service_stage self k) eqn:E.
  - now apply stop_service_stage_other.
  - unfold stop_service, get_service_stage. cbn [ServiceStage_eqb].
    cbn [server_profiles server_controller].
    destruct (_ || _); cbn [service_stage_hash]; now rewrite dict_get_set_same.
  - unfold stop_service, get_service_stage. cbn [ServiceStage_eqb].
    cbn [server_profiles server_controller].
    destruct (_ || _); cbn [service_stage_hash]; now rewrite dict_get_set_same.
Qed.

(** The loop of l.383-385 over a list of names. *)
Lemma stop_list_keys l : forall self x,
  In x (dict_keys (server_profiles
          (fold_left (fun self s => stop_service self s (get_service_stage self s))
             l self))) ->
  In x (dict_keys (server_profiles self)).
Proof.
  induction l as [|a l IH]; intros self x Hx; [exact Hx|].
  cbn [fold_left] in Hx. apply IH in Hx. eapply stop_service_keys. exact Hx.
Qed.

Lemma stop_list_NoDup l : forall self,
  NoDup (dict_keys (server_profiles self)) ->
  NoDup (dict_keys (server_profiles
           (fold_left (fun self s => stop_service self s (get_service_stage self s))
              l self))).
Proof.
  induction l as [|a l IH]; intros self Hnd; [exact Hnd|].
  cbn [fold_left]. apply IH. now apply stop_service_NoDup.
Qed.

Lemma stop_list_stage l : forall self n,
  get_service_stage self n = Off ->
  get_service_stage
    (fold_left (fun self s => stop_service self s (get_service_stage self s)) l self)
    n = Off.
Proof.
  induction l as [|a l IH]; intros self n Hn; [exact Hn|].
  cbn [fold_left]. apply IH. now apply stop_service_stage_other.
Qed.

Lemma stop_list_drops l : forall self x,
  NoDup (dict_keys (server_profiles self)) -> In x l ->
  let self' :=
    fold_left (fun self s => stop_service self s (get_service_stage self s)) l self in
  ~ In x (dict_keys (server_profiles self')) /\ get_service_stage self' x = Off.
Proof.
  induction l as [|a l IH]; intros self x Hnd Hin; [destruct Hin|].
  cbn [fold_left]. destruct Hin as [->|Hin].
  - split.
    + intros Hx. apply stop_list_keys in Hx.
      revert Hx. now apply stop_service_drops.
    + apply stop_list_stage, stop_service_stage_self.
  - apply IH; [now apply stop_service_NoDup | exact Hin].
Qed.

End Strays.

Section Cycle.
Context {C : Type} `{Controller C} `{Deployer C}.
Implicit Types (self : Server C) (n k : string).

Lemma sync_enable_profiles self service stage :
  server_profiles (sync_enable self service stage) = server_profiles self.
Proof. unfold sync_enable. now destruct (_ && _). Qed.

Lemma sync_enable_stage self service stage n :
  service_name service <> n ->
  get_service_stage (sync_enable self service stage) n = get_service_stage self n.
Proof.
  intros Hne. unfold sync_enable, get_service_stage.
  destruct (_ && _); cbn [service_stage_hash]; [|reflexivity].
  rewrite dict_get_set_other; [reflexivity | congruence].
Qed.

Lemma add_service_keys self now p x :
  In x (dict_keys (server_profiles (add_service self now p))) ->
  x = name p \/ In x (dict_keys (server_profiles self)).
Proof. unfold add_service. cbn [server_profiles]. apply dict_keys_set_incl. Qed.

Lemma sync_profile_keys self service p x :
  In x (dict_keys (server_profiles (sync_profile self service p))) ->
  x = service_name service \/ In x (dict_keys (server_profiles self)).
Proof. unfold sync_profile. cbn [server_profiles]. apply dict_keys_set_incl. Qed.

Lemma sync_scale_keys default_settings now self service stage x :
  In x (dict_keys (server_profiles
          (sync_scale default_settings now self service stage))) ->
  (x = service_name service /\ enabled service = true /\ stage = Running) \/
  In x (dict_keys (server_profiles self)).
Proof.
  unfold sync_scale.
  destruct (enabled service) eqn:He; cbn [andb]; [|now right].
  destruct stage; cbn [ServiceStage_eqb]; try (now right).
  destruct (dict_get _ _) as [p|]; intros Hx.
  - apply sync_profile_keys in Hx as [->|Hx]; auto.
  - apply add_service_keys in Hx as [->|Hx]; auto.
Qed.

Lemma sync_scale_NoDup default_settings now self service stage :
  NoDup (dict_keys (server_profiles self)) ->
  NoDup (dict_keys (server_profiles
           (sync_scale default_settings now self service stage))).
Proof.
  unfold sync_scale. destruct (_ && _); [|auto].
  destruct (dict_get _ _) as [p|]; intros Hnd;
    unfold sync_profile, add_service; cbn [server_profiles];
    now apply dict_set_NoDup.
Qed.

Lemma sync_scale_stage default_settings now self service stage n :
  get_service_stage (sync_scale default_settings now self service stage) n =
  get_service_stage self n.
Proof.
  unfold sync_scale. destruct (_ && _); [|reflexivity].
  now destruct (dict_get _ _).
Qed.

Lemma stop_strays_keys self current discovered x :
  In x (dict_keys (server_profiles (stop_strays self current discovered))) ->
  In x (dict_keys (server_profiles self)).
Proof. apply stop_list_keys. Qed.

(** An iteration for another service neither adds the name [n] to the
    table nor moves its stage away from [Off]. *)
Lemma sync_service_other default_settings now current self discovered service n :
  service_name service <> n ->
  ~ In n (dict_keys (server_profiles self)) ->
  let self' :=
    fst (sync_service default_settings now current (self, discovered) service) in
  ~ In n (dict_keys (server_profiles self')) /\
  (get_service_stage self n = Off -> get_service_stage self' n = Off).
Proof.
  intros Hne Hn. unfold sync_service.
  set (stage := get_service_stage self (service_name service)).
  destruct (enabled service) eqn:He; cbn [negb fst].
  - split.
    + intros Hx. apply stop_strays_keys in Hx.
      apply sync_scale_keys in Hx as [(-> & _)|Hx]; [now apply Hne|].
      rewrite sync_enable_profiles in Hx. contradiction.
    + intros Hs. unfold stop_strays. apply stop_list_stage.
      rewrite sync_scale_stage, sync_enable_stage; assumption.
  - split.
    + intros Hx. apply stop_service_keys in Hx.
      rewrite sync_enable_profiles in Hx. contradiction.
    + intros Hs. apply stop_service_stage_other.
      rewrite sync_enable_stage; assumption.
Qed.

Lemma sync_service_NoDup default_settings now current self discovered service :
  NoDup (dict_keys (server_profiles self)) ->
  NoDup (dict_keys (server_profiles
           (fst (sync_service default_settings now current (self, discovered)
                   service)))).
Proof.
  intros Hnd. unfold sync_service.
  destruct (enabled service); cbn [negb fst].
  - unfold stop_strays. apply stop_list_NoDup, sync_scale_NoDup.
    now rewrite sync_enable_profiles.
  - apply stop_service_NoDup. now rewrite sync_enable_profiles.
Qed.

(** The iteration for a service whose stage reads [Off] does not add it
    to the table: the stage moves on, but the test of l.330 is on the
    stage read at l.303. *)
Lemma sync_service_self default_settings now current self discovered service :
  ~ In (service_name service) (dict_keys (server_profiles self)) ->
  get_service_stage self (service_name service) = Off ->
  ~ In (service_name service)
      (dict_keys (server_profiles
         (fst (sync_service default_settings now current (self, discovered)
                 service)))).
Proof.
  intros Hn Hs. unfold sync_service. rewrite Hs.
  destruct (enabled service) eqn:He; cbn [negb fst].
  - intros Hx. apply stop_strays_keys in Hx.
    apply sync_scale_keys in Hx as [(_ & _ & Hstage)|Hx]; [discriminate|].
    rewrite sync_enable_profiles in Hx. contradiction.
  - intros Hx. apply stop_service_keys in Hx.
    rewrite sync_enable_profiles in Hx. contradiction.
Qed.

(** The iteration of the first service of the catalog, when it is enabled:
    every other name of [current_services] is a stray. *)
Lemma sync_service_first default_settings now current self service n :
  enabled service = true ->
  n <> service_name service ->
  In n current ->
  NoDup (dict_keys (server_profiles self)) ->
  let self' := fst (sync_service default_settings now current (self, []) service) in
  ~ In n (dict_keys (server_profiles self')) /\ get_service_stage self' n = Off.
Proof.
  intros He Hne Hin Hnd. unfold sync_service. rewrite He. cbn [negb fst app].
  unfold stop_strays. apply stop_list_drops.
  - apply sync_scale_NoDup. now rewrite sync_enable_profiles.
  - apply filter_In. split; [exact Hin|].
    cbn. destruct (String.eqb_spec n (service_name service)); [contradiction | reflexivity].
Qed.

(** The rest of the cycle keeps out of the table a name that is out of it
    and whose stage is [Off] until its own iteration. *)
Lemma sync_services_rest default_settings now current n rest :
  forall self discovered,
    NoDup (map service_name rest) ->
    ~ In n (dict_keys (server_profiles self)) ->
    (In n (map service_name rest) -> get_service_stage self n = Off) ->
    ~ In n (dict_keys (server_profiles
              (fst (fold_left (sync_service default_settings now current) rest
                      (self, discovered))))).
Proof.
  induction rest as [|service rest IH]; intros self discovered Hnd Hn Hs; [exact Hn|].
  cbn [fold_left]. cbn [map] in Hnd, Hs. inversion Hnd as [|? ? Hfresh Hnd']; subst.
  destruct (sync_service default_settings now current (self, discovered) service)
    as [self' discovered'] eqn:E.
  assert (E' : self' =
               fst (sync_service default_settings now current (self, discovered) service))
    by now rewrite E.
  destruct (string_dec (service_name service) n) as [Heq|Hne].
  - apply IH; [exact Hnd' | | ].
    + rewrite E'. subst n. apply sync_service_self; [exact Hn | apply Hs; now left].
    + intros Hin. subst n. contradiction.
  - destruct (sync_service_other default_settings now current self discovered service n
                Hne Hn) as [Hn' Hs'].
    rewrite <- E' in Hn', Hs'.
    apply IH; [exact Hnd' | exact Hn' | ].
    intros Hin. apply Hs'. apply Hs. now right.
Qed.

End Cycle.

(** C3, as the code has it.  The claim does not hold of the code: the loop
    over the strays (l.383-385) is the last statement of the body of the
    loop over the catalog, not a statement after it.  So in a cycle whose
    catalog starts with an enabled service, every profile that was in the
    table when the cycle began, other than that first service, is out of
    the table when the cycle ends, whether the catalog lists it or not: it
    is stopped as a stray in the first iteration, and its own iteration,
    which finds its stage [Off], does not add it back.  And in a cycle with
    an empty catalog the loop over the strays is never run: the server is
    left as it was, with all its profiles, none of which is listed. *)
Theorem sync_services_stops_listed {C : Type} `{Controller C} `{Deployer C}
    (default_settings : ServiceDefaults) (now : string -> R)
    (first : Service) (rest : list Service) (self : Server C) :
  enabled first = true ->
  NoDup (map service_name (first :: rest)) ->
  NoDup (dict_keys (server_profiles self)) ->
  (forall n,
     In n (dict_keys (server_profiles self)) -> n <> service_name first ->
     ~ In n (dict_keys (server_profiles
               (sync_services default_settings now (first :: rest) self)))) /\
  sync_services default_settings now [] self = self.
Proof.
  intros He Hnd Hkeys. split; [|reflexivity].
  intros n Hin Hne. unfold sync_services. cbn [fold_left].
  cbn [map] in Hnd. inversion Hnd as [|? ? Hfresh Hnd']; subst.
  destruct (sync_service_first default_settings now
              (dict_keys (server_profiles self)) self first n He Hne Hin Hkeys)
    as [Hn Hs].
  destruct (sync_service default_settings now (dict_keys (server_profiles self))
              (self, []) first) as [self1 discovered1] eqn:E.
  cbn [fst] in Hn, Hs.
  apply sync_services_rest; auto.
Qed.

(** The services ["a"] and ["b"], both enabled, in stage [Running] and
    being scaled, and a catalog that lists both: the cycle drops ["b"]. *)
Lemma sync_services_stops_listed_witness :
  In "b"%string (map service_name [example_entry "a"; example_entry "b"]) /\
  In "b"%string (dict_keys (server_profiles example_server)) /\
  ~ In "b"%string
      (dict_keys (server_profiles
         (sync_services example_defaults (fun _ => 0)
            [example_entry "a"; example_entry "b"] example_server))).
Proof.
  split; [cbn; auto|]. split; [cbn; auto|].
  apply (sync_services_stops_listed example_defaults (fun _ => 0)
           (example_entry "a") [example_entry "b"] example_server).
  - reflexivity.
  - cbn. repeat constructor; cbn; intuition discriminate.
  - cbn. repeat constructor; cbn; intuition discriminate.
  - cbn. auto.
  - discriminate.
Defined.

(** ** ScalerServer.update_scaling, step 3: the rounds of the loop *)

Lemma insert_by_perm key p l : Permutation (insert_by key p l) (p :: l).
Proof.
  induction l as [|q l IH]; cbn; [reflexivity|].
  destruct (key p <=? key q)%Z; [reflexivity|].
  eapply perm_trans; [apply perm_skip, IH | apply perm_swap].
Qed.

Lemma sort_by_perm key l : Permutation (sort_by key l) l.
Proof.
  unfold sort_by. induction l as [|p l IH]; cbn; [constructor|].
  eapply perm_trans; [apply insert_by_perm | now apply perm_skip].
Qed.

Lemma NoDup_names_sort key (l : list ServiceProfile) :
  NoDup (map name l) -> NoDup (map name (sort_by key l)).
Proof.
  apply Permutation_NoDup, Permutation_map, Permutation_sym, sort_by_perm.
Qed.

Lemma NoDup_names_filter (f : ServiceProfile -> bool) (l : list ServiceProfile) :
  NoDup (map name l) -> NoDup (map name (filter f l)).
Proof.
  induction l as [|p l IH]; cbn; [auto|].
  intros Hnd. inversion Hnd as [|? ? Hn Hnd']; subst.
  destruct (f p); cbn; [|auto].
  constructor; [|auto].
  intros Hin. apply Hn. apply in_map_iff in Hin as (q & Eq & Hq).
  apply filter_In in Hq as [Hq _]. eapply in_names; eauto.
Qed.

Lemma Zsum_perm {A : Type} (f : A -> Z) l l' :
  Permutation l l' -> Zsum f l = Zsum f l'.
Proof. induction 1; cbn; lia. Qed.

Lemma Zsum_filter_le {A : Type} (f : A -> Z) (keep : A -> bool) l :
  (forall a, In a l -> 0 <= f a)%Z -> (Zsum f (filter keep l) <= Zsum f l)%Z.
Proof.
  induction l as [|a l IH]; intros Hpos; cbn; [lia|].
  assert (0 <= f a)%Z by (apply Hpos; now left).
  assert (Zsum f (filter keep l) <= Zsum f l)%Z
    by (apply IH; intros b Hb; apply Hpos; now right).
  destruct (keep a); cbn; lia.
Qed.

(** [trim], when every name has a target: two filters. *)
Lemma trim_eq targets free_cpu free_memory l :
  (forall p, In p l -> dict_mem (name p) targets = true) ->
  trim targets free_cpu free_memory l =
  Ok (filter (fits free_cpu free_memory)
        (filter (fun p => (desired_instances p >? target_of targets p)%Z) l)).
Proof.
  intros Hall. unfold trim. rewrite (filter_raising_wants targets l Hall).
  reflexivity.
Qed.

Lemma trimmed_trim targets free_cpu free_memory rounds l p :
  In p (filter (fits free_cpu free_memory)
          (filter (fun p => (desired_instances p >? target_of targets p)%Z) l)) ->
  In p l /\
  fits (free_cpu_left {| free_cpu_left := free_cpu; free_memory_left := free_memory;
                         granted := targets; replicas := rounds |})
       (free_memory_left {| free_cpu_left := free_cpu; free_memory_left := free_memory;
                            granted := targets; replicas := rounds |}) p = true /\
  (target_of targets p < desired_instances p)%Z.
Proof.
  intros Hin. apply filter_In in Hin as [Hin Hfit].
  apply filter_In in Hin as [Hin Hwant].
  split; [exact Hin|]. split; [exact Hfit|].
  destruct (Z.gtb_spec (desired_instances p) (target_of targets p)); [lia | discriminate].
Qed.

Lemma served_app n l l' : served n (l ++ l') = (served n l + served n l')%Z.
Proof. unfold served. rewrite filter_app, length_app. lia. Qed.

Lemma served_nonneg n l : (0 <= served n l)%Z.
Proof. unfold served. lia. Qed.

Lemma served_none n l :
  (forall r, In r l -> name (replica_of r) <> n) -> served n l = 0%Z.
Proof.
  intros H. unfold served.
  replace (filter (fun r => String.eqb (name (replica_of r)) n) l) with (@nil replica);
    [reflexivity|].
  symmetry. induction l as [|r l IH]; [reflexivity|]. cbn.
  destruct (String.eqb_spec (name (replica_of r)) n) as [E|_].
  - exfalso. apply (H r); [now left | exact E].
  - apply IH. intros r' Hr'. apply H. now right.
Qed.

(** One round of the loop, when there is a candidate: who is served, what
    is left, and the candidates of the next round. *)
Lemma scaling_grant_round fuel key g0 P :
  P <> [] ->
  (forall p, In p P -> dict_mem (name p) (granted g0) = true) ->
  exists first t,
    In first P /\
    dict_get (name first) (granted g0) = Some t /\
    let g1 :=
      {| free_cpu_left := free_cpu_left g0 - cpu_cores (container_config first);
         free_memory_left :=
           free_memory_left g0 - IZR (ram_mb (container_config first));
         granted := dict_set (name first) (t + 1)%Z (granted g0);
         replicas :=
           replicas g0 ++
           [{| replica_of := first; free_cpu_before := free_cpu_left g0;
               free_memory_before := free_memory_left g0 |}] |} in
    let P1 :=
      filter (fits (free_cpu_left g1) (free_memory_left g1))
        (filter (fun p => (desired_instances p >? target_of (granted g1) p)%Z)
           (sort_by (fun _p => key (name _p)) P)) in
    scaling_grant (S fuel) key g0 P = scaling_grant fuel key g1 P1.
Proof.
  intros Hne Hall.
  destruct P as [|p0 P0]; [contradiction|].
  set (P := p0 :: P0) in *.
  cbn [scaling_grant]. fold P.
  pose proof (sort_by_perm (fun _p => key (name _p)) P) as Hperm.
  destruct (sort_by (fun _p => key (name _p)) P) as [|first sorted] eqn:Es.
  - apply Permutation_nil in Hperm. unfold P in Hperm. discriminate.
  - assert (Hfirst : In first P).
    { eapply Permutation_in; [exact Hperm | now left]. }
    destruct (dict_mem_get (granted g0) (name first)) as [t Ht]; [now apply Hall|].
    exists first, t. split; [exact Hfirst|]. split; [exact Ht|].
    cbv zeta. rewrite (subscript_get _ _ _ Ht).
    rewrite trim_eq; [reflexivity|].
    intros p Hp. apply dict_mem_set, Hall.
    eapply Permutation_in; [exact Hperm | exact Hp].
Qed.

Lemma served_cons n r l :
  served n (r :: l) =
  ((if String.eqb (name (replica_of r)) n then 1 else 0) + served n l)%Z.
Proof.
  unfold served. cbn [filter].
  destruct (String.eqb (name (replica_of r)) n); cbn [List.length]; lia.
Qed.

Lemma in_trimmed_list free_cpu free_memory targets key P p :
  In p (filter (fits free_cpu free_memory)
          (filter (fun p => (desired_instances p >? target_of targets p)%Z)
             (sort_by key P))) ->
  In p P.
Proof.
  intros Hin. apply filter_In in Hin as [Hin _]. apply filter_In in Hin as [Hin _].
  now apply sort_by_In in Hin.
Qed.

(** The loop of step 3, when it returns: its rounds. *)
Lemma scaling_grant_rounds fuel : forall key g0 P g,
  NoDup (map name P) ->
  (forall p, In p P -> dict_mem (name p) (granted g0) = true) ->
  trimmed g0 P ->
  scaling_grant fuel key g0 P = Some (Ok g) ->
  exists rounds,
    replicas g = replicas g0 ++ rounds /\
    Forall (fun r =>
              In (replica_of r) P /\
              fits (free_cpu_before r) (free_memory_before r) (replica_of r) = true)
      rounds /\
    chained (free_cpu_left g0) (free_memory_left g0) rounds
      (free_cpu_left g) (free_memory_left g) /\
    (forall n,
       dict_get n (granted g) =
       option_map (fun t => (t + served n rounds)%Z) (dict_get n (granted g0))) /\
    dict_keys (granted g) = dict_keys (granted g0) /\
    (forall p, In p P -> (target_of (granted g) p <= desired_instances p)%Z).
Proof.
  assert (Hstop : forall g0 g : Grant, Some (Ok g0) = Some (Ok g) ->
            exists rounds,
              replicas g = replicas g0 ++ rounds /\
              Forall (fun r =>
                        In (replica_of r) (@nil ServiceProfile) /\
                        fits (free_cpu_before r) (free_memory_before r) (replica_of r)
                        = true) rounds /\
              chained (free_cpu_left g0) (free_memory_left g0) rounds
                (free_cpu_left g) (free_memory_left g) /\
              (forall n,
                 dict_get n (granted g) =
                 option_map (fun t => (t + served n rounds)%Z) (dict_get n (granted g0))) /\
              dict_keys (granted g) = dict_keys (granted g0) /\
              (forall p, In p (@nil ServiceProfile) ->
                 (target_of (granted g) p <= desired_instances p)%Z)).
  { intros g0 g E. injection E as <-. exists [].
    split; [now rewrite app_nil_r|]. split; [constructor|].
    split; [split; reflexivity|]. split; [|split; [reflexivity | intros p []]].
    intros n. destruct (dict_get n (granted g0)); cbn; [f_equal; unfold served; cbn; lia | reflexivity]. }
  induction fuel as [|fuel IH]; intros key g0 P g Hnd Hall Htrim E.
  - destruct P as [|p0 P0]; [now apply Hstop | discriminate E].
  - destruct P as [|p0 P0]; [now apply Hstop|].
    set (P := p0 :: P0) in *.
    destruct (scaling_grant_round fuel key g0 P) as (first & t & Hfirst & Ht & Eround);
      [discriminate | exact Hall |].
    cbv zeta in Eround. rewrite Eround in E. clear Eround.
    set (g1 := {| free_cpu_left := free_cpu_left g0 - cpu_cores (container_config first);
                  free_memory_left :=
                    free_memory_left g0 - IZR (ram_mb (container_config first));
                  granted := dict_set (name first) (t + 1)%Z (granted g0);
                  replicas :=
                    replicas g0 ++
                    [{| replica_of := first; free_cpu_before := free_cpu_left g0;
                        free_memory_before := free_memory_left g0 |}] |}) in *.
    set (P1 := filter (fits (free_cpu_left g1) (free_memory_left g1))
                 (filter (fun p => (desired_instances p >? target_of (granted g1) p)%Z)
                    (sort_by (fun _p => key (name _p)) P))) in *.
    assert (Hsub : forall p, In p P1 -> In p P).
    { intros p Hp. eapply in_trimmed_list. exact Hp. }
    assert (Hnd1 : NoDup (map name P1)).
    { unfold P1. apply NoDup_names_filter, NoDup_names_filter, NoDup_names_sort, Hnd. }
    assert (Hall1 : forall p, In p P1 -> dict_mem (name p) (granted g1) = true).
    { intros p Hp. cbn [granted g1]. apply dict_mem_set, Hall, Hsub, Hp. }
    assert (Htrim1 : trimmed g1 P1).
    { intros p Hp. unfold P1 in Hp. apply filter_In in Hp as [Hp Hfit].
      apply filter_In in Hp as [_ Hwant]. split; [exact Hfit|].
      destruct (Z.gtb_spec (desired_instances p) (target_of (granted g1) p));
        [lia | discriminate]. }
    destruct (IH key g1 P1 g Hnd1 Hall1 Htrim1 E)
      as (rounds1 & Hrep & Hfits & Hchain & Hget & Hkeys & Hcap).
    set (r0 := {| replica_of := first; free_cpu_before := free_cpu_left g0;
                  free_memory_before := free_memory_left g0 |}).
    assert (Hget' : forall n,
              dict_get n (granted g) =
              option_map (fun t => (t + served n (r0 :: rounds1))%Z)
                (dict_get n (granted g0))).
    { intros n. rewrite Hget. cbn [granted g1]. rewrite served_cons.
      change (replica_of r0) with first.
      destruct (String.eqb (name first) n) eqn:Eb.
      - apply String.eqb_eq in Eb. subst n.
        rewrite dict_get_set_same, Ht. cbn [option_map]. f_equal. lia.
      - apply String.eqb_neq in Eb.
        rewrite dict_get_set_other by congruence.
        destruct (dict_get n (granted g0)); cbn [option_map]; [f_equal; lia | reflexivity]. }
    exists (r0 :: rounds1).
    split; [rewrite Hrep; cbn [replicas g1]; now rewrite <- app_assoc|].
    split.
    { constructor.
      - cbn [replica_of free_cpu_before free_memory_before r0].
        split; [exact Hfirst | apply (Htrim first Hfirst)].
      - revert Hfits. apply Forall_impl. intros r [Hr Hf]. split; [now apply Hsub | exact Hf]. }
    split; [cbn [chained]; repeat split; exact Hchain|].
    split; [exact Hget'|].
    split.
    { rewrite Hkeys. cbn [granted g1]. apply dict_keys_set.
      eapply dict_get_In. exact Ht. }
    intros p Hp.
    destruct (in_dec string_dec (name p) (map name P1)) as [Hin|Hout].
    + apply in_map_iff in Hin as (q & Eq & Hq).
      assert (q = p) by exact (same_name_same P q p Hnd (Hsub q Hq) Hp Eq). subst q.
      now apply Hcap.
    + unfold target_of. rewrite Hget.
      assert (Hzero : served (name p) rounds1 = 0%Z).
      { apply served_none. intros r Hr E'.
        rewrite Forall_forall in Hfits. destruct (Hfits r Hr) as [Hr1 _].
        apply Hout. eapply in_names; eauto. }
      rewrite Hzero. cbn [granted g1].
      destruct (string_dec (name p) (name first)) as [Esame|Hdiff].
      * assert (p = first) by exact (same_name_same P p first Hnd Hp Hfirst Esame).
        subst p.
        rewrite dict_get_set_same. cbn.
        destruct (Htrim first Hfirst) as [_ Hlt]. unfold target_of in Hlt.
        rewrite Ht in Hlt. lia.
      * rewrite dict_get_set_other by exact Hdiff.
        destruct (Htrim p Hp) as [_ Hlt]. unfold target_of in Hlt.
        destruct (dict_get (name p) (granted g0)); cbn; lia.
Qed.

(** The loop of step 3 returns: every round takes one off what the
    candidates still want. *)
Lemma scaling_grant_returns fuel : forall key g0 P,
  NoDup (map name P) ->
  (forall p, In p P -> dict_mem (name p) (granted g0) = true) ->
  trimmed g0 P ->
  (wanted (granted g0) P <= Z.of_nat fuel)%Z ->
  exists g, scaling_grant fuel key g0 P = Some (Ok g).
Proof.
  induction fuel as [|fuel IH]; intros key g0 P Hnd Hall Htrim Hfuel.
  - destruct P as [|p0 P0]; [eexists; reflexivity|].
    exfalso. unfold wanted in Hfuel. cbn [Zsum] in Hfuel.
    destruct (Htrim p0) as [_ Hlt]; [now left|].
    assert (0 <= Zsum (fun p => desired_instances p - target_of (granted g0) p) P0)%Z.
    { clear -Htrim. induction P0 as [|q P0 IH]; cbn; [lia|].
      destruct (Htrim q) as [_ Hq]; [right; now left|].
      assert (0 <= Zsum (fun p => desired_instances p - target_of (granted g0) p) P0)%Z.
      { apply IH. intros p [<-|Hp]; apply Htrim; [now left | right; now right]. }
      lia. }
    lia.
  - destruct P as [|p0 P0]; [eexists; reflexivity|].
    set (P := p0 :: P0) in *.
    destruct (scaling_grant_round fuel key g0 P) as (first & t & Hfirst & Ht & Eround);
      [discriminate | exact Hall |].
    cbv zeta in Eround. rewrite Eround. clear Eround.
    set (targets1 := dict_set (name first) (t + 1)%Z (granted g0)).
    set (g1 := {| free_cpu_left := free_cpu_left g0 - cpu_cores (container_config first);
                  free_memory_left :=
                    free_memory_left g0 - IZR (ram_mb (container_config first));
                  granted := targets1;
                  replicas :=
                    replicas g0 ++
                    [{| replica_of := first; free_cpu_before := free_cpu_left g0;
                        free_memory_before := free_memory_left g0 |}] |}).
    set (sorted := sort_by (fun _p => key (name _p)) P).
    set (P1 := filter (fits (free_cpu_left g1) (free_memory_left g1))
                 (filter (fun p => (desired_instances p >? target_of (granted g1) p)%Z)
                    sorted)).
    assert (Hsorted : forall p, In p sorted <-> In p P) by (intros p; apply sort_by_In).
    assert (Hsub : forall p, In p P1 -> In p P).
    { intros p Hp. eapply in_trimmed_list. exact Hp. }
    apply IH.
    + unfold P1. apply NoDup_names_filter, NoDup_names_filter, NoDup_names_sort, Hnd.
    + intros p Hp. cbn [granted g1]. apply dict_mem_set, Hall, Hsub, Hp.
    + intros p Hp. unfold P1 in Hp. apply filter_In in Hp as [Hp Hfit].
      apply filter_In in Hp as [_ Hwant]. split; [exact Hfit|].
      destruct (Z.gtb_spec (desired_instances p) (target_of (granted g1) p));
        [lia | discriminate].
    + unfold wanted in *. cbn [granted g1].
      set (h := fun p => (desired_instances p - target_of (granted g0) p)%Z) in *.
      set (h1 := fun p => (desired_instances p - target_of targets1 p)%Z).
      assert (Hh1 : forall p, In p sorted -> (0 <= h1 p)%Z).
      { intros p Hp. apply Hsorted in Hp. destruct (Htrim p Hp) as [_ Hlt].
        unfold h1, targets1.
        destruct (string_dec (name p) (name first)) as [E|E].
        - rewrite target_of_set_same by exact E.
          assert (p = first) by exact (same_name_same P p first Hnd Hp Hfirst E).
          subst p. unfold target_of in Hlt. rewrite Ht in Hlt. lia.
        - rewrite target_of_set_other by exact E. lia. }
      assert (Hstep : Zsum h1 sorted = (Zsum h sorted + (h1 first - h first))%Z).
      { apply Zsum_change.
        - apply NoDup_names_sort, Hnd.
        - now apply Hsorted.
        - intros p _ E. unfold h1, h, targets1. now rewrite target_of_set_other. }
      assert (Hone : (h1 first - h first = -1)%Z).
      { unfold h1, h, targets1. rewrite target_of_set_same by reflexivity.
        unfold target_of. rewrite Ht. lia. }
      assert (Hperm : Zsum h sorted = Zsum h P) by apply Zsum_perm, sort_by_perm.
      assert (Hle1 : (Zsum h1 P1 <= Zsum h1 sorted)%Z).
      { unfold P1. eapply Z.le_trans.
        - apply Zsum_filter_le. intros p Hp. apply filter_In in Hp as [Hp _]. now apply Hh1.
        - apply Zsum_filter_le. exact Hh1. }
      lia.
Qed.

Lemma chained_left free_cpu free_memory rounds : forall cpu_left memory_left,
  rounds <> [] ->
  Forall (fun r =>
            cpu (replica_of r) <= free_cpu_before r /\
            IZR (ram (replica_of r)) <= free_memory_before r) rounds ->
  chained free_cpu free_memory rounds cpu_left memory_left ->
  0 <= cpu_left /\ 0 <= memory_left.
Proof.
  revert free_cpu free_memory.
  induction rounds as [|r rounds IH]; intros free_cpu free_memory cl ml Hne Hfit Hch;
    [contradiction|].
  inversion Hfit as [|? ? [Hc Hm] Hfit']; subst.
  cbn [chained] in Hch. destruct Hch as (Ec & Em & Hch).
  destruct rounds as [|r' rounds'].
  - cbn [chained] in Hch. destruct Hch as [-> ->].
    unfold cpu, ram in *. rewrite Ec in Hc. rewrite Em in Hm. lra.
  - eapply IH; [discriminate | exact Hfit' | exact Hch].
Qed.

Lemma wanted_demand targets (profiles : dict ServiceProfile) free_cpu free_memory :
  (wanted targets
     (filter (fits free_cpu free_memory)
        (filter (fun p => (desired_instances p >? target_of targets p)%Z)
           (dict_values profiles)))
   <= demand targets profiles)%Z.
Proof.
  unfold wanted, demand.
  set (h := fun p => (desired_instances p - target_of targets p)%Z).
  set (h0 := fun p => Z.max 0 (desired_instances p - target_of targets p)).
  set (want := fun p => (desired_instances p >? target_of targets p)%Z).
  eapply Z.le_trans with (Zsum h0 (filter (fits free_cpu free_memory)
                                     (filter want (dict_values profiles)))).
  - apply Z.eq_le_incl, Zsum_eq_in. intros p Hp.
    apply filter_In in Hp as [Hp _]. apply filter_In in Hp as [_ Hp].
    unfold h, h0. unfold want in Hp.
    destruct (Z.gtb_spec (desired_instances p) (target_of targets p)); [lia | discriminate].
  - eapply Z.le_trans; apply Zsum_filter_le; intros p _; unfold h0; lia.
Qed.

(** C5, as amended.  Step 3 of [update_scaling] on a table of profiles with
    distinct names that all have an entry in [targets]: given at least as
    many rounds as instances are wanted beyond the targets, the loop
    returns, and of its rounds the following holds.  Every round serves a
    profile of the table whose cpu is at most the free cpu, and whose ram is
    at most the free memory, that the round starts with (the comparisons
    are [<=]).  The first round starts with the free cpu and memory the
    controller reported, and every other round with what the round before it
    started with less the cpu and ram of the profile that round served; what
    the last round leaves is never negative.  The target of a profile goes up
    by one for every round that serves it, and ends at most at the larger of
    what it was and [desired_instances]. *)
Theorem scaling_grants_budget {C : Type} `{Controller C} (c : C)
    (targets : dict Z) (profiles : dict ServiceProfile) (fuel : nat) :
  NoDup (map name (dict_values profiles)) ->
  (forall p, In p (dict_values profiles) -> dict_mem (name p) targets = true) ->
  (demand targets profiles <= Z.of_nat fuel)%Z ->
  exists g,
    scaling_grants fuel c targets profiles = Some (Ok g) /\
    Forall (fun r =>
              In (replica_of r) (dict_values profiles) /\
              cpu (replica_of r) <= free_cpu_before r /\
              IZR (ram (replica_of r)) <= free_memory_before r)
      (replicas g) /\
    chained (free_cpu c) (free_memory c) (replicas g)
      (free_cpu_left g) (free_memory_left g) /\
    (replicas g <> [] -> 0 <= free_cpu_left g /\ 0 <= free_memory_left g) /\
    (forall p, In p (dict_values profiles) ->
       target_of (granted g) p =
         (target_of targets p + served (name p) (replicas g))%Z /\
       (target_of (granted g) p
        <= Z.max (target_of targets p) (desired_instances p))%Z).
Proof.
  intros Hnd Hall Hfuel. unfold scaling_grants.
  rewrite trim_eq by exact Hall.
  set (g0 := {| free_cpu_left := free_cpu c; free_memory_left := free_memory c;
                granted := targets; replicas := [] |}).
  set (P := filter (fits (free_cpu c) (free_memory c))
              (filter (fun p => (desired_instances p >? target_of targets p)%Z)
                 (dict_values profiles))).
  assert (Hsub : forall p, In p P -> In p (dict_values profiles)).
  { intros p Hp. apply filter_In in Hp as [Hp _]. now apply filter_In in Hp as [Hp _]. }
  assert (HndP : NoDup (map name P)).
  { unfold P. now apply NoDup_names_filter, NoDup_names_filter. }
  assert (HallP : forall p, In p P -> dict_mem (name p) (granted g0) = true).
  { intros p Hp. apply Hall, Hsub, Hp. }
  assert (HtrimP : trimmed g0 P).
  { intros p Hp. unfold P in Hp. apply filter_In in Hp as [Hp Hfit].
    apply filter_In in Hp as [_ Hwant]. split; [exact Hfit|].
    cbn [granted g0].
    destruct (Z.gtb_spec (desired_instances p) (target_of targets p)); [lia | discriminate]. }
  destruct (scaling_grant_returns fuel (get_target c) g0 P HndP HallP HtrimP) as [g E].
  { eapply Z.le_trans; [apply wanted_demand | exact Hfuel]. }
  destruct (scaling_grant_rounds fuel (get_target c) g0 P g HndP HallP HtrimP E)
    as (rounds & Hrep & Hfits & Hchain & Hget & _ & Hcap).
  cbn [replicas g0 app] in Hrep. subst rounds.
  cbn [free_cpu_left free_memory_left granted g0] in Hchain, Hget.
  exists g. split; [exact E|].
  assert (Hle : Forall (fun r =>
                          cpu (replica_of r) <= free_cpu_before r /\
                          IZR (ram (replica_of r)) <= free_memory_before r)
                  (replicas g)).
  { revert Hfits. apply Forall_impl. intros r [_ Hf]. now apply fits_le. }
  split.
  { rewrite Forall_forall in Hfits, Hle. apply Forall_forall. intros r Hr.
    destruct (Hfits r Hr) as [Hin _]. split; [now apply Hsub | now apply Hle]. }
  split; [exact Hchain|].
  split; [intros Hne; eapply chained_left; eauto|].
  intros p Hp.
  assert (Ht : target_of (granted g) p =
               (target_of targets p + served (name p) (replicas g))%Z).
  { unfold target_of. rewrite Hget.
    destruct (dict_mem_get targets (name p)) as [t Ht]; [now apply Hall|].
    rewrite Ht. reflexivity. }
  split; [exact Ht|].
  destruct (in_dec string_dec (name p) (map name P)) as [Hin|Hout].
  - apply in_map_iff in Hin as (q & Eq & Hq).
    assert (q = p) by exact (same_name_same _ q p Hnd (Hsub q Hq) Hp Eq). subst q.
    specialize (Hcap p Hq). lia.
  - rewrite Ht. rewrite served_none; [lia|].
    intros r Hr E'. rewrite Forall_forall in Hfits.
    destruct (Hfits r Hr) as [Hr1 _]. apply Hout. eapply in_names; eauto.
Qed.

(** *** Step 3 on the examples *)

Lemma fits_yes free_cpu free_memory p :
  cpu p <= free_cpu -> IZR (ram p) <= free_memory ->
  fits free_cpu free_memory p = true.
Proof.
  intros Hc Hm. unfold fits.
  destruct (Rle_dec _ _); [|contradiction].
  destruct (Rle_dec _ _); [reflexivity | contradiction].
Qed.

Lemma fits_short p : cpu p = 1 -> fits (-1) 4096 p = false.
Proof.
  intros E. unfold fits. rewrite E. destruct (Rle_dec 1 (-1)); [lra | reflexivity].
Qed.

(** One round, with the profile it serves named. *)
Lemma scaling_grant_next fuel key g P first rest t :
  sort_by (fun _p => key (name _p)) P = first :: rest ->
  dict_get (name first) (granted g) = Some t ->
  (forall p, In p P -> dict_mem (name p) (granted g) = true) ->
  scaling_grant (S fuel) key g P =
  scaling_grant fuel key
    {| free_cpu_left := free_cpu_left g - cpu_cores (container_config first);
       free_memory_left := free_memory_left g - IZR (ram_mb (container_config first));
       granted := dict_set (name first) (t + 1)%Z (granted g);
       replicas :=
         replicas g ++
         [{| replica_of := first; free_cpu_before := free_cpu_left g;
             free_memory_before := free_memory_left g |}] |}
    (filter (fits (free_cpu_left g - cpu_cores (container_config first))
               (free_memory_left g - IZR (ram_mb (container_config first))))
       (filter (fun p => (desired_instances p
                          >? target_of (dict_set (name first) (t + 1)%Z (granted g)) p)%Z)
          (first :: rest))).
Proof.
  intros Es Ht Hall.
  destruct P as [|p0 P0]; [discriminate Es|].
  cbn [scaling_grant]. rewrite Es. rewrite (subscript_get _ _ _ Ht).
  rewrite trim_eq; [reflexivity|].
  intros p Hp. apply dict_mem_set, Hall.
  apply (sort_by_In (fun _p => key (name _p))). rewrite Es. exact Hp.
Qed.

(** The two services when neither runs, on a cluster with 4 cpu and 4096 MB
    free: ["b"] is served twice (the sort key is the controller's target,
    which does not move during the loop), then ["a"] once. *)
Lemma example_three_rounds :
  exists g,
    scaling_grants 3 example_cluster0 example_targets0 example_profiles = Some (Ok g) /\
    map (fun r => name (replica_of r)) (replicas g) = ["b"; "b"; "a"]%string /\
    granted g = [("a"%string, 1%Z); ("b"%string, 2%Z)].
Proof.
  unfold scaling_grants. rewrite trim_eq.
  2:{ cbn. intros p [<-|[<-|[]]]; reflexivity. }
  change (free_cpu example_cluster0) with 4.
  change (free_memory example_cluster0) with 4096.
  cbn [example_profiles dict_values map snd filter].
  change (desired_instances (example_service "a" 0 1) >?
            target_of example_targets0 (example_service "a" 0 1))%Z with true.
  change (desired_instances (example_service "b" 2 2) >?
            target_of example_targets0 (example_service "b" 2 2))%Z with true.
  cbn [filter]. rewrite !fits_yes by (unfold cpu, ram; cbn; lra).
  rewrite (scaling_grant_next _ _ _ _ (example_service "b" 2 2)
             [example_service "a" 0 1] 0%Z);
    [ | reflexivity | reflexivity | cbn; intros p [<-|[<-|[]]]; reflexivity ].
  cbn [free_cpu_left free_memory_left granted replicas app].
  change (filter (fun p => (desired_instances p >? target_of _ p)%Z)
            [example_service "b" 2 2; example_service "a" 0 1])
    with [example_service "b" 2 2; example_service "a" 0 1].
  cbn [filter]. rewrite !fits_yes by (unfold cpu, ram; cbn; lra).
  rewrite (scaling_grant_next _ _ _ _ (example_service "b" 2 2)
             [example_service "a" 0 1] 1%Z);
    [ | reflexivity | reflexivity | cbn; intros p [<-|[<-|[]]]; reflexivity ].
  cbn [free_cpu_left free_memory_left granted replicas app].
  change (filter (fun p => (desired_instances p >? target_of _ p)%Z)
            [example_service "b" 2 2; example_service "a" 0 1])
    with [example_service "a" 0 1].
  cbn [filter]. rewrite !fits_yes by (unfold cpu, ram; cbn; lra).
  rewrite (scaling_grant_next _ _ _ _ (example_service "a" 0 1) [] 0%Z);
    [ | reflexivity | reflexivity | cbn; intros p [<-|[]]; reflexivity ].
  cbn [free_cpu_left free_memory_left granted replicas app].
  change (filter (fun p => (desired_instances p >? target_of _ p)%Z)
            [example_service "a" 0 1])
    with (@nil ServiceProfile).
  cbn [filter scaling_grant].
  eexists. split; [reflexivity|]. split; reflexivity.
Qed.

Lemma scaling_grants_budget_witness :
  exists g,
    scaling_grants 3 example_cluster0 example_targets0 example_profiles = Some (Ok g) /\
    map (fun r => name (replica_of r)) (replicas g) = ["b"; "b"; "a"]%string /\
    Forall (fun r =>
              In (replica_of r) (dict_values example_profiles) /\
              cpu (replica_of r) <= free_cpu_before r /\
              IZR (ram (replica_of r)) <= free_memory_before r)
      (replicas g) /\
    chained (free_cpu example_cluster0) (free_memory example_cluster0) (replicas g)
      (free_cpu_left g) (free_memory_left g) /\
    (replicas g <> [] -> 0 <= free_cpu_left g /\ 0 <= free_memory_left g) /\
    (forall p, In p (dict_values example_profiles) ->
       target_of (granted g) p =
         (target_of example_targets0 p + served (name p) (replicas g))%Z /\
       (target_of (granted g) p
        <= Z.max (target_of example_targets0 p) (desired_instances p))%Z).
Proof.
  destruct (scaling_grants_budget example_cluster0 example_targets0 example_profiles 3)
    as (g & E & Hrounds).
  - cbn. repeat constructor; cbn; intuition discriminate.
  - cbn. intros p [<-|[<-|[]]]; reflexivity.
  - unfold demand. cbn. lia.
  - destruct example_three_rounds as (g' & E' & Hnames & _).
    rewrite E in E'. injection E' as <-.
    exists g. split; [exact E|]. split; [exact Hnames | exact Hrounds].
Defined.

(** C5 as stated fails when the controller reports less than no free cpu:
    no profile fits, step 3 makes no round and changes no target, so the
    cpu of the instances it added sums to 0, which is above the free cpu of
    -1 the controller reported. *)
Lemma scaling_grants_budget_counterexample :
  free_cpu example_cluster_short = -1 /\
  exists g,
    scaling_grants 0 example_cluster_short example_targets0 example_profiles
      = Some (Ok g) /\
    granted g = example_targets0 /\
    Rsum_of (fun p => IZR (increment example_targets0 (granted g) p) * cpu p)
      (dict_values example_profiles) = 0 /\
    ~ (Rsum_of (fun p => IZR (increment example_targets0 (granted g) p) * cpu p)
         (dict_values example_profiles)
       <= free_cpu example_cluster_short).
Proof.
  split; [reflexivity|].
  unfold scaling_grants. rewrite trim_eq.
  2:{ cbn. intros p [<-|[<-|[]]]; reflexivity. }
  change (free_cpu example_cluster_short) with (-1).
  change (free_memory example_cluster_short) with 4096.
  cbn [example_profiles dict_values map snd filter].
  change (desired_instances (example_service "a" 0 1) >?
            target_of example_targets0 (example_service "a" 0 1))%Z with true.
  change (desired_instances (example_service "b" 2 2) >?
            target_of example_targets0 (example_service "b" 2 2))%Z with true.
  cbn [filter]. rewrite !fits_short by reflexivity.
  eexists. split; [reflexivity|]. cbn [granted]. split; [reflexivity|].
  assert (E : Rsum_of
                (fun p => IZR (increment example_targets0 example_targets0 p) * cpu p)
                [example_service "a" 0 1; example_service "b" 2 2] = 0).
  { cbn [Rsum_of]. unfold increment. rewrite !Z.sub_diag. lra. }
  split; [exact E|]. rewrite E. lra.
Qed.

(** ** ScalerServer.update_scaling: one tick after another *)

Section Ticks.
Context {C : Type} `{Controller C}.
Implicit Types (st : Scaling C) (c : C).

Lemma retarget_synced st n v :
  target_laws -> synced st -> synced (retarget st n v).
Proof.
  intros [Hsame Hother] Hs m t. unfold retarget. cbn [targets controller].
  destruct (string_dec m n) as [->|Hne].
  - rewrite dict_get_set_same. intros E; injection E as <-. apply Hsame.
  - rewrite dict_get_set_other by exact Hne. intros E.
    rewrite Hother by exact Hne. now apply Hs.
Qed.

Lemma retarget_NoDup st n v :
  NoDup (dict_keys (targets st)) -> NoDup (dict_keys (targets (retarget st n v))).
Proof. unfold retarget. cbn [targets]. apply dict_set_NoDup. Qed.

(** A property that [retarget] keeps is kept by the loops of steps 1 and 2. *)
Lemma adjust_keeps (Inv : Scaling C -> Prop)
    (f : Scaling C -> string * ServiceProfile -> result (Scaling C))
    (test : Z -> ServiceProfile -> bool) (value : ServiceProfile -> Z) :
  (forall st n p,
     f st (n, p) =
     bind (subscript (targets st) n) (fun t =>
       if test t p then Ok (retarget st n (value p)) else Ok st)) ->
  (forall st n v, Inv st -> Inv (retarget st n v)) ->
  forall profiles st st',
    for_each f profiles st = Ok st' -> Inv st -> Inv st'.
Proof.
  intros Hf Hkeep. induction profiles as [|[n p] profiles IH]; intros st st' E Hinv.
  - cbn in E. injection E as <-. exact Hinv.
  - cbn [for_each] in E. rewrite Hf in E. unfold subscript in E.
    destruct (dict_get n (targets st)) as [t|]; [|discriminate E]. cbn [bind] in E.
    destruct (test t p); cbn [bind] in E; eapply IH; eauto.
Qed.


(** *** What the tick reads *)

Lemma read_targets_entries c (l : list ServiceProfile) : forall acc,
  (forall n v, In (n, v) acc -> v = get_target c n) ->
  forall n v,
    In (n, v)
      (fold_left (fun t _p => dict_set (name _p) (get_target c (name _p)) t) l acc) ->
    v = get_target c n.
Proof.
  induction l as [|p l IH]; intros acc Hacc n v Hin; [now apply Hacc|].
  cbn [fold_left] in Hin. eapply IH; [|exact Hin].
  clear -Hacc. intros n v Hin.
  induction acc as [|[k w] acc IHacc]; cbn in Hin.
  - destruct Hin as [E|[]]. now injection E as <- <-.
  - destruct (String.eqb_spec (name p) k) as [->|Hne].
    + destruct Hin as [E|Hin]; [now injection E as <- <- | apply Hacc; now right].
    + destruct Hin as [E|Hin]; [apply Hacc; now left|].
      apply IHacc; [|exact Hin]. intros m u Hm. apply Hacc. now right.
Qed.

Lemma read_targets_values c profiles n v :
  In (n, v) (read_targets c profiles) -> v = get_target c n.
Proof. apply read_targets_entries. intros ? ? []. Qed.

Lemma read_targets_NoDup c profiles : NoDup (dict_keys (read_targets c profiles)).
Proof.
  unfold read_targets. generalize (dict_values profiles). intros l.
  assert (NoDup (dict_keys (@nil (string * Z)))) as Hnil by constructor.
  revert Hnil. generalize (@nil (string * Z)).
  induction l as [|p l IH]; intros acc Hacc; [exact Hacc|].
  cbn [fold_left]. apply IH. now apply dict_set_NoDup.
Qed.

Lemma dict_get_In_pair {V : Type} (d : dict V) k v :
  dict_get k d = Some v -> In (k, v) d.
Proof.
  induction d as [|[k0 v0] d IH]; cbn; [discriminate|].
  destruct (String.eqb_spec k k0) as [->|Hne].
  - intros E; injection E as <-. now left.
  - intros E. right. now apply IH.
Qed.

Lemma dict_In_get {V : Type} (d : dict V) k v :
  NoDup (dict_keys d) -> In (k, v) d -> dict_get k d = Some v.
Proof.
  induction d as [|[k0 v0] d IH]; cbn; [contradiction|].
  intros Hnd. inversion Hnd as [|? ? Hn Hnd']; subst.
  intros [E|Hin].
  - injection E as <- <-. now rewrite String.eqb_refl.
  - destruct (String.eqb_spec k k0) as [->|Hne]; [|now apply IH].
    exfalso. apply Hn. eapply in_dict_keys. exact Hin.
Qed.

Lemma read_targets_get c profiles n :
  profiles_wf profiles -> In n (dict_keys profiles) ->
  dict_get n (read_targets c profiles) = Some (get_target c n).
Proof.
  intros Hwf Hin.
  destruct (dict_mem_get (read_targets c profiles) n) as [v Hv].
  { now apply read_targets_mem. }
  rewrite Hv. f_equal. eapply read_targets_values, dict_get_In_pair. exact Hv.
Qed.

Lemma read_targets_synced c profiles :
  synced {| controller := c; targets := read_targets c profiles; calls := [] |}.
Proof.
  intros n t Ht. cbn [targets controller] in *. symmetry.
  eapply read_targets_values, dict_get_In_pair. exact Ht.
Qed.

(** *** Writing the targets back *)


Lemma scaling_apply_other (d : dict Z) : forall (acc : C * list (string * Z)) m,
  target_laws ->
  ~ In m (dict_keys d) ->
  get_target (fst (fold_left scaling_apply d acc)) m = get_target (fst acc) m.
Proof.
  induction d as [|[n v] d IH]; intros acc m Hlaws Hm; [reflexivity|].
  cbn [fold_left]. rewrite IH; [|exact Hlaws|].
  - unfold scaling_apply. destruct (v =? get_target (fst acc) n)%Z; [reflexivity|].
    cbn [fst]. destruct Hlaws as [_ Hother]. apply Hother.
    intros ->. apply Hm. now left.
  - intros Hin. apply Hm. now right.
Qed.

Lemma scaling_apply_sync (d : dict Z) : forall (acc : C * list (string * Z)) n v,
  target_laws ->
  NoDup (dict_keys d) -> In (n, v) d ->
  get_target (fst (fold_left scaling_apply d acc)) n = v.
Proof.
  induction d as [|[n0 v0] d IH]; intros acc n v Hlaws Hnd Hin; [destruct Hin|].
  cbn in Hnd. inversion Hnd as [|? ? Hn Hnd']; subst.
  cbn [fold_left]. destruct Hin as [E|Hin].
  - injection E as -> ->. rewrite scaling_apply_other by assumption.
    unfold scaling_apply.
    destruct (Z.eqb_spec v (get_target (fst acc) n)) as [->|Hne]; [reflexivity|].
    cbn [fst]. destruct Hlaws as [Hsame _]. apply Hsame.
  - now apply IH.
Qed.

End Ticks.


Section Idempotence.
Context {C : Type} `{Controller C}.
Implicit Types (st : Scaling C) (c : C).

Lemma wf_names (profiles : dict ServiceProfile) :
  profiles_wf profiles -> map name (dict_values profiles) = dict_keys profiles.
Proof.
  intros [_ Hname]. unfold dict_values, dict_keys. rewrite map_map.
  apply map_ext_in. intros item Hin. rewrite Forall_forall in Hname. now apply Hname.
Qed.

Lemma wf_value (profiles : dict ServiceProfile) p :
  profiles_wf profiles -> In p (dict_values profiles) -> In (name p, p) profiles.
Proof.
  intros [_ Hname] Hin. unfold dict_values in Hin.
  apply in_map_iff in Hin as ([n q] & <- & Hin). cbn [snd].
  rewrite Forall_forall in Hname. specialize (Hname _ Hin). cbn in Hname.
  now rewrite Hname.
Qed.

Lemma wf_item (profiles : dict ServiceProfile) n p :
  profiles_wf profiles -> In (n, p) profiles ->
  name p = n /\ In p (dict_values profiles) /\ In n (dict_keys profiles).
Proof.
  intros [_ Hname] Hin. rewrite Forall_forall in Hname.
  split; [exact (Hname _ Hin)|]. split.
  - unfold dict_values. change p with (snd (n, p)). now apply in_map.
  - eapply in_dict_keys. exact Hin.
Qed.

(** Step 3, when it returns: no key is added to [targets], and the entry
    of a profile ends between what it was and the larger of that and
    [desired_instances]. *)
Lemma scaling_grants_targets c targets (profiles : dict ServiceProfile) fuel g :
  NoDup (map name (dict_values profiles)) ->
  (forall p, In p (dict_values profiles) -> dict_mem (name p) targets = true) ->
  scaling_grants fuel c targets profiles = Some (Ok g) ->
  dict_keys (granted g) = dict_keys targets /\
  (forall p, In p (dict_values profiles) ->
     (target_of targets p <= target_of (granted g) p
      <= Z.max (target_of targets p) (desired_instances p))%Z).
Proof.
  intros Hnd Hall. unfold scaling_grants. rewrite trim_eq by exact Hall.
  set (g0 := {| free_cpu_left := free_cpu c; free_memory_left := free_memory c;
                granted := targets; replicas := [] |}).
  set (P := filter (fits (free_cpu c) (free_memory c))
              (filter (fun p => (desired_instances p >? target_of targets p)%Z)
                 (dict_values profiles))).
  intros E.
  assert (Hsub : forall p, In p P -> In p (dict_values profiles)).
  { intros p Hp. apply filter_In in Hp as [Hp _]. now apply filter_In in Hp as [Hp _]. }
  assert (HndP : NoDup (map name P)).
  { unfold P. now apply NoDup_names_filter, NoDup_names_filter. }
  assert (HallP : forall p, In p P -> dict_mem (name p) (granted g0) = true).
  { intros p Hp. apply Hall, Hsub, Hp. }
  assert (HtrimP : trimmed g0 P).
  { intros p Hp. unfold P in Hp. apply filter_In in Hp as [Hp Hfit].
    apply filter_In in Hp as [_ Hwant]. split; [exact Hfit|].
    cbn [granted g0].
    destruct (Z.gtb_spec (desired_instances p) (target_of targets p)); [lia | discriminate]. }
  destruct (scaling_grant_rounds fuel (get_target c) g0 P g HndP HallP HtrimP E)
    as (rounds & _ & Hfits & _ & Hget & Hkeys & Hcap).
  cbn [granted g0] in Hget, Hkeys.
  split; [exact Hkeys|].
  intros p Hp.
  assert (Ht : target_of (granted g) p = (target_of targets p + served (name p) rounds)%Z).
  { unfold target_of. rewrite Hget.
    destruct (dict_mem_get targets (name p)) as [t Ht]; [now apply Hall|].
    rewrite Ht. reflexivity. }
  pose proof (served_nonneg (name p) rounds) as Hpos.
  split; [lia|].
  destruct (in_dec string_dec (name p) (map name P)) as [Hin|Hout].
  - apply in_map_iff in Hin as (q & Eq & Hq).
    assert (q = p) by exact (same_name_same _ q p Hnd (Hsub q Hq) Hp Eq). subst q.
    specialize (Hcap p Hq). lia.
  - rewrite Ht. rewrite served_none; [lia|].
    intros r Hr E'. rewrite Forall_forall in Hfits.
    destruct (Hfits r Hr) as [Hr1 _]. apply Hout. eapply in_names; eauto.
Qed.

(** Where a tick leaves the controller: every profile between its
    [min_instances] and the larger of [desired_instances] and
    [min_instances]. *)
Lemma tick_targets fuel c (profiles : dict ServiceProfile) st1 :
  target_laws -> profiles_wf profiles ->
  update_scaling fuel c profiles = Some (Ok st1) ->
  forall n p, In (n, p) profiles ->
    (min_instances p <= get_target (controller st1) n
     <= Z.max (desired_instances p) (min_instances p))%Z.
Proof.
  intros Hlaws Hwf E n p Hnp. pose proof Hwf as [Hnd Hname].
  unfold update_scaling in E.
  set (st0 := {| controller := c; targets := read_targets c profiles; calls := [] |}) in E.
  assert (Hall0 : forall m, In m (dict_keys profiles) -> dict_mem m (targets st0) = true).
  { intros m Hm. cbn [targets st0]. now apply read_targets_mem. }
  destruct (release_loop profiles st0 Hnd Hall0) as (stA & EA & HinA & _ & HmemA & _).
  assert (HallA : forall m, In m (dict_keys profiles) -> dict_mem m (targets stA) = true)
    by (intros m Hm; apply HmemA, Hall0, Hm).
  destruct (floor_loop profiles stA Hnd HallA) as (stB & EB & HinB & _ & HmemB & _).
  assert (HallB : forall m, In m (dict_keys profiles) -> dict_mem m (targets stB) = true)
    by (intros m Hm; apply HmemB, HallA, Hm).
  rewrite EA in E. cbn [bind] in E. rewrite EB in E.
  destruct (scaling_grants fuel (controller stB) (targets stB) profiles)
    as [[g|e]|] eqn:Eg; try discriminate E.
  destruct (fold_left scaling_apply (granted g) (controller stB, calls stB))
    as [c' calls'] eqn:Ew.
  injection E as <-. cbn [controller].
  destruct (wf_item profiles n p Hwf Hnp) as (Hpn & Hpv & Hkey).
  assert (HndB : NoDup (dict_keys (targets stB))).
  { eapply (adjust_keeps (fun st => NoDup (dict_keys (targets st))) scaling_floor);
      [apply adjust_floor | intros; now apply retarget_NoDup | exact EB |].
    eapply (adjust_keeps (fun st => NoDup (dict_keys (targets st))) scaling_release);
      [apply adjust_release | intros; now apply retarget_NoDup | exact EA |].
    cbn [targets st0]. apply read_targets_NoDup. }
  destruct (scaling_grants_targets (controller stB) (targets stB) profiles fuel g)
    as [Hkeys Hbounds].
  { rewrite (wf_names profiles Hwf). exact Hnd. }
  { intros q Hq. apply HallB. destruct (wf_item profiles (name q) q Hwf) as (_ & _ & Hk);
      [now apply wf_value | exact Hk]. }
  { exact Eg. }
  specialize (Hbounds p Hpv).
  (* the entry of [n] through the steps *)
  assert (H0 : dict_get n (targets st0) = Some (get_target c n)).
  { cbn [targets st0]. now apply read_targets_get. }
  pose proof (HinA n p _ Hnp H0) as HA.
  pose proof (HinB n p _ Hnp HA) as HB.
  assert (HtB : target_of (targets stB) p
                = Z.max (Z.min (get_target c n) (desired_instances p)) (min_instances p)).
  { unfold target_of. rewrite Hpn, HB. reflexivity. }
  (* what the controller ends with *)
  destruct (dict_mem_get (granted g) n) as [v Hv].
  { apply dict_mem_In. rewrite Hkeys. apply dict_mem_In. now apply HallB. }
  assert (Hc' : get_target c' n = v).
  { change c' with (fst (c', calls')). rewrite <- Ew.
    apply scaling_apply_sync; [exact Hlaws | now rewrite Hkeys | ].
    now apply dict_get_In_pair. }
  assert (Hv' : target_of (granted g) p = v).
  { unfold target_of. now rewrite Hpn, Hv. }
  rewrite Hc'. lia.
Qed.


End Idempotence.

(** *** Two ticks on the examples *)

Lemma example_target_laws : @target_laws example_cluster example_controller.
Proof.
  split.
  - intros c n v. cbn. now rewrite dict_get_set_same.
  - intros c n m v Hne. cbn. now rewrite dict_get_set_other.
Qed.

(** The first tick on the two services: ["a"] is released from 3 to 1,
    ["b"] raised from 0 to its floor of 2; step 3 has no candidate. *)
Lemma example_first_tick :
  update_scaling 0 example_cluster0 example_profiles =
  Some (Ok {| controller := example_cluster1;
              targets := [("a"%string, 1%Z); ("b"%string, 2%Z)];
              calls := [("a"%string, 1%Z); ("b"%string, 2%Z)] |}).
Proof. reflexivity. Qed.




(** ** More on the profiles and the server *)

(** X16.  Over the whole life of a profile (built by [__init__], then
    changed by [update] calls, returning or raising, and by the attribute
    assignments of [ScalerServer]) the pressure is either exactly 0 or
    strictly between the shrink threshold and the growth threshold. *)
Theorem profile_pressure_band (self : ServiceProfile) :
  constructed self ->
  pressure self = 0 \/
  shrink_threshold self < pressure self < growth_threshold self.
Proof. apply constructed_band. Qed.

Lemma profile_pressure_band_witness :
  pressure example_loaded = 0 \/
  shrink_threshold example_loaded < pressure example_loaded
    < growth_threshold example_loaded.
Proof.
  apply (profile_pressure_band example_loaded).
  eapply constructed_returned; [|exact example_loaded_profile].
  apply constructed_init.
Defined.

(** X17.  [stop_service(name, current_stage)] on a table with distinct
    names: afterwards the table has no profile under [name] and every
    other entry is what it was; if [current_stage] is not [Off] the stage
    on record for [name] is [Off] afterwards, and if it is [Off] the stage
    record is not written. *)
Theorem stop_service_removes {C : Type} `{Controller C} (self : Server C)
    (name : string) (current_stage : ServiceStage) :
  NoDup (dict_keys (server_profiles self)) ->
  let self' := stop_service self name current_stage in
  dict_get name (server_profiles self') = None /\
  (forall other, other <> name ->
     dict_get other (server_profiles self') = dict_get other (server_profiles self)) /\
  (current_stage <> Off -> get_service_stage self' name = Off) /\
  (current_stage = Off -> service_stage_hash self' = service_stage_hash self).
Proof.
  intros Hnd. cbv zeta. split; [|split; [|split]].
  - apply dict_get_None. now apply stop_service_drops.
  - intros other Hne. unfold stop_service.
    destruct (ServiceStage_eqb current_stage Off);
      cbn [server_profiles server_controller];
      destruct (_ || _); cbn [server_profiles]; try reflexivity;
      now apply dict_get_pop_other.
  - intros Hstage. unfold stop_service, get_service_stage.
    destruct current_stage; [contradiction | | ]; cbn [ServiceStage_eqb];
      cbn [server_profiles server_controller];
      destruct (_ || _); cbn [service_stage_hash]; now rewrite dict_get_set_same.
  - intros ->. unfold stop_service. cbn [ServiceStage_eqb].
    now destruct (_ || _).
Qed.

Lemma stop_service_removes_witness :
  let self' := stop_service example_server "b" Running in
  dict_get "b" (server_profiles self') = None /\
  (forall other, other <> "b"%string ->
     dict_get other (server_profiles self') =
     dict_get other (server_profiles example_server)) /\
  (Running <> Off -> get_service_stage self' "b" = Off) /\
  (Running = Off -> service_stage_hash self' = service_stage_hash example_server).
Proof.
  apply (stop_service_removes example_server "b" Running).
  cbn. repeat constructor; cbn; intuition discriminate.
Defined.

(** X18.  Where a tick of [update_scaling] that returns leaves the
    controller, when the controller answers [get_target] with what was last
    set and every profile sits under its own name: the target of every
    profile is at least its [min_instances] and at most the larger of its
    [desired_instances] and its [min_instances]. *)
Theorem update_scaling_targets_in_range {C : Type} `{Controller C}
    (fuel : nat) (c : C) (profiles : dict ServiceProfile) (st1 : Scaling C) :
  target_laws ->
  profiles_wf profiles ->
  update_scaling fuel c profiles = Some (Ok st1) ->
  forall n p, In (n, p) profiles ->
    (min_instances p <= get_target (controller st1) n
     <= Z.max (desired_instances p) (min_instances p))%Z.
Proof. apply tick_targets. Qed.

Lemma update_scaling_targets_in_range_witness :
  (min_instances (example_service "b" 2 2) <= get_target example_cluster1 "b"
   <= Z.max (desired_instances (example_service "b" 2 2))
        (min_instances (example_service "b" 2 2)))%Z.
Proof.
  apply (update_scaling_targets_in_range 0 example_cluster0 example_profiles
           {| controller := example_cluster1;
              targets := [("a"%string, 1%Z); ("b"%string, 2%Z)];
              calls := [("a"%string, 1%Z); ("b"%string, 2%Z)] |}
           example_target_laws).
  - split.
    + cbn. repeat constructor; cbn; intuition discriminate.
    + repeat constructor.
  - exact example_first_tick.
  - right. now left.
Defined.
